(** * Simple-Proxy-for-Minecraft: the allow-list, the console and the byte pump

    A shallow embedding of [minecraft_proxy.py].  The program is a TCP relay
    that admits a client when its source address lies in one of the networks
    of [allowed_networks], a list edited from a console and persisted as a
    JSON array of strings.

    The program leans on CPython's [ipaddress] module for parsing, printing,
    comparing networks and testing containment.  The module is embedded here
    function by function after CPython 3.11's [Lib/ipaddress.py], for the
    string constructors the program uses.

    Conventions.
    - A Python [str] is a list of characters with code points below 256.
    - A Python exception is a value of [exn]; a computation that may raise
      returns a [result].
    - Code that reads or writes the process state runs in the monad [M]
      over [world]; the state survives an exception, as in Python.
    - Format strings are kept as their template and arguments ([message]).
    - [with allowed_lock:] is the identity: every function below is one
      critical section or runs in one thread. *)

From Stdlib Require Import ZArith List Ascii String Bool Lia Permutation.
Import ListNotations.
Open Scope Z_scope.

(** ** Python strings *)

Definition str := list ascii.

Definition lit (s : string) : str := list_ascii_of_string s.
Arguments lit s%_string.

Definition len {A} (l : list A) : Z := Z.of_nat (List.length l).

Definition null {A} (l : list A) : bool :=
  match l with [] => true | _ => false end.

Fixpoint str_eqb (s t : str) : bool :=
  match s, t with
  | [], [] => true
  | c :: s', d :: t' => Ascii.eqb c d && str_eqb s' t'
  | _, _ => false
  end.

(** [c in s] for a one-character [c]. *)
Definition char_in (c : ascii) (s : str) : bool := existsb (Ascii.eqb c) s.

(** [s.split(sep)] for a one-character separator. *)
Fixpoint split (sep : ascii) (s : str) : list str :=
  match s with
  | [] => [[]]
  | c :: s' =>
      if Ascii.eqb c sep then [] :: split sep s'
      else match split sep s' with
           | [] => [[c]]
           | p :: ps => (c :: p) :: ps
           end
  end.

(** [sep.join(parts)]. *)
Fixpoint join (sep : str) (parts : list str) : str :=
  match parts with
  | [] => []
  | [p] => p
  | p :: ps => p ++ sep ++ join sep ps
  end.

(** [s.partition(sep)]: the text before the first [sep], whether [sep] was
    found, and the text after it. *)
Fixpoint partition (sep : ascii) (s : str) : str * bool * str :=
  match s with
  | [] => ([], false, [])
  | c :: s' =>
      if Ascii.eqb c sep then ([], true, s')
      else let '(a, found, b) := partition sep s' in (c :: a, found, b)
  end.

(** [c.isspace()] on code points below 256. *)
Definition isspace (c : ascii) : bool :=
  let n := Z.of_nat (nat_of_ascii c) in
  ((9 <=? n) && (n <=? 13)) || ((28 <=? n) && (n <=? 32))
  || (n =? 133) || (n =? 160).

Fixpoint lstrip (s : str) : str :=
  match s with
  | c :: s' => if isspace c then lstrip s' else s
  | [] => []
  end.

Definition rstrip (s : str) : str := rev (lstrip (rev s)).

(** [s.strip()]. *)
Definition strip (s : str) : str := rstrip (lstrip s).

(** [s.startswith(p)]. *)
Fixpoint startswith (p s : str) : bool :=
  match p, s with
  | [], _ => true
  | c :: p', d :: s' => Ascii.eqb c d && startswith p' s'
  | _ :: _, [] => false
  end.

(** [c.isascii() and c.isdigit()]. *)
Definition is_digit (c : ascii) : bool :=
  let n := Z.of_nat (nat_of_ascii c) in (48 <=? n) && (n <=? 57).

(** [s.isascii() and s.isdigit()]: false on the empty string. *)
Definition isascii_isdigit (s : str) : bool :=
  negb (null s) && forallb is_digit s.

(** The value of a hexadecimal digit, upper or lower case. *)
Definition hex_value (c : ascii) : option Z :=
  let n := Z.of_nat (nat_of_ascii c) in
  if (48 <=? n) && (n <=? 57) then Some (n - 48)
  else if (97 <=? n) && (n <=? 102) then Some (n - 87)
  else if (65 <=? n) && (n <=? 70) then Some (n - 55)
  else None.

Definition is_hex_digit (c : ascii) : bool :=
  match hex_value c with Some _ => true | None => false end.

(** [int(s, base)] on a string of digits of that base. *)
Definition int_of (base : Z) (s : str) : Z :=
  fold_left
    (fun acc c => acc * base + match hex_value c with Some d => d | None => 0 end)
    s 0.

Definition digit_char (d : Z) : ascii :=
  ascii_of_nat (Z.to_nat (if d <? 10 then 48 + d else 87 + d)).

Fixpoint digits_loop (base : Z) (fuel : nat) (n : Z) (acc : str) : str :=
  let acc' := digit_char (n mod base) :: acc in
  match fuel with
  | O => acc'
  | S fuel' =>
      if n / base =? 0 then acc' else digits_loop base fuel' (n / base) acc'
  end.

(** ['%d' % n] and [str(n)], and ['%x' % n], for [0 <= n]: a number has at
    most [log2 n + 1] digits in any base. *)
Definition format_d (n : Z) : str := digits_loop 10 (Z.to_nat (Z.log2 n)) n [].
Definition format_x (n : Z) : str := digits_loop 16 (Z.to_nat (Z.log2 n)) n [].

(** ** Exceptions *)

Inductive exn : Type :=
| AddressValueError
| NetmaskValueError
| ValueError
| OSError
| TypeError
| AttributeError
| EOFError
| KeyboardInterrupt.

(** [isinstance(e, ValueError)]: the two [ipaddress] errors derive from it. *)
Definition is_ValueError (e : exn) : bool :=
  match e with
  | AddressValueError | NetmaskValueError | ValueError => true
  | _ => false
  end.

(** [except (AddressValueError, NetmaskValueError)]. *)
Definition is_address_or_netmask_error (e : exn) : bool :=
  match e with
  | AddressValueError | NetmaskValueError => true
  | _ => false
  end.

Definition is_AddressValueError (e : exn) : bool :=
  match e with AddressValueError => true | _ => false end.

Definition is_NetmaskValueError (e : exn) : bool :=
  match e with NetmaskValueError => true | _ => false end.

(** [except Exception]: everything but [KeyboardInterrupt] here. *)
Definition is_Exception (e : exn) : bool :=
  match e with KeyboardInterrupt => false | _ => true end.

Inductive result (A : Type) : Type :=
| Ok (a : A)
| Raise (e : exn).
Arguments Ok {A} a.
Arguments Raise {A} e.

Definition rbind {A B} (r : result A) (k : A -> result B) : result B :=
  match r with
  | Ok a => k a
  | Raise e => Raise e
  end.

(** [try: r except <handles>: h]. *)
Definition try_except {A} (r : result A) (handles : exn -> bool)
    (h : exn -> result A) : result A :=
  match r with
  | Ok a => Ok a
  | Raise e => if handles e then h e else Raise e
  end.

Declare Scope result_scope.
Delimit Scope result_scope with result.
Notation "x <- r ;; k" := (rbind r (fun x => k))
  (at level 61, r at next level, right associativity) : result_scope.
Notation "' p <- r ;; k" := (rbind r (fun p => k))
  (at level 61, p pattern, r at next level, right associativity) : result_scope.

(** A comprehension [[f(x) for x in l]]: left to right, stopping at the first
    exception. *)
Fixpoint map_result {A B} (f : A -> result B) (l : list A) : result (list B) :=
  match l with
  | [] => Ok []
  | x :: l' =>
      match f x with
      | Raise e => Raise e
      | Ok y =>
          match map_result f l' with
          | Raise e => Raise e
          | Ok ys => Ok (y :: ys)
          end
      end
  end.

(** ** CPython's [ipaddress] module, restricted to construction from [str] *)

Module ipaddress.

Local Open Scope result_scope.

Inductive ip_version : Type := V4 | V6.

Definition version_eqb (v w : ip_version) : bool :=
  match v, w with
  | V4, V4 | V6, V6 => true
  | _, _ => false
  end.

(** [IPV4LENGTH] and [IPV6LENGTH]. *)
Definition _max_prefixlen (v : ip_version) : Z :=
  match v with V4 => 32 | V6 => 128 end.

Definition _ALL_ONES (v : ip_version) : Z := 2 ^ _max_prefixlen v - 1.

(** An [IPv4Address] or [IPv6Address]: only the latter has a [_scope_id],
    read as [None] on the former. *)
Record Address : Type := mk_address {
  _version : ip_version;
  _ip : Z;
  _scope_id : option str
}.

(** An [IPv4Network] or [IPv6Network]. *)
Record Network : Type := mk_network {
  net_version : ip_version;
  network_address : Address;
  netmask : Address;
  _prefixlen : Z
}.

(** [range(a, b)]. *)
Definition range (a b : Z) : list Z :=
  map (fun k => a + Z.of_nat k) (seq 0 (Z.to_nat (b - a))).

(** [l[i]] with Python's negative indices; the callers stay in range. *)
Definition getitem (l : list str) (i : Z) : str :=
  nth (Z.to_nat (if i <? 0 then len l + i else i)) l [].

(** [l[a:b]] for [0 <= a]. *)
Definition slice (l : list str) (a b : Z) : list str :=
  firstn (Z.to_nat (b - a)) (skipn (Z.to_nat a) l).

(** [x.bit_length()]. *)
Definition bit_length (x : Z) : Z :=
  if x =? 0 then 0 else Z.log2 (Z.abs x) + 1.

Definition _count_righthand_zero_bits (number bits : Z) : Z :=
  if number =? 0 then bits
  else Z.min bits (bit_length (Z.land (Z.lnot number) (number - 1))).

(** [_IPAddressBase._ip_int_from_prefix]. *)
Definition _ip_int_from_prefix (v : ip_version) (prefixlen : Z) : Z :=
  Z.lxor (_ALL_ONES v) (Z.shiftr (_ALL_ONES v) prefixlen).

(** [_IPAddressBase._prefix_from_ip_int]. *)
Definition _prefix_from_ip_int (v : ip_version) (ip_int : Z) : result Z :=
  let trailing_zeroes := _count_righthand_zero_bits ip_int (_max_prefixlen v) in
  let prefixlen := _max_prefixlen v - trailing_zeroes in
  let leading_ones := Z.shiftr ip_int trailing_zeroes in
  let all_ones := Z.shiftl 1 prefixlen - 1 in
  if negb (leading_ones =? all_ones) then Raise ValueError
  else Ok prefixlen.

(** [_IPAddressBase._prefix_from_prefix_string]. *)
Definition _prefix_from_prefix_string (v : ip_version) (prefixlen_str : str)
    : result Z :=
  if negb (isascii_isdigit prefixlen_str) then Raise NetmaskValueError
  else
    let prefixlen := int_of 10 prefixlen_str in
    if negb ((0 <=? prefixlen) && (prefixlen <=? _max_prefixlen v))
    then Raise NetmaskValueError
    else Ok prefixlen.

Definition _split_optional_netmask (address : str) : result (list str) :=
  let addr := split "/" address in
  if len addr >? 2 then Raise AddressValueError else Ok addr.

(** The mask handed to [_make_netmask]: the text after the ['/'], or the
    integer [_max_prefixlen] when there is none. *)
Inductive mask_arg : Type :=
| MaskStr (s : str)
| MaskInt (n : Z).

(** [_IPAddressBase._split_addr_prefix] on a [str]. *)
Definition _split_addr_prefix (v : ip_version) (address : str)
    : result (str * mask_arg) :=
  address <- _split_optional_netmask address ;;
  match address with
  | [addr; mask] => Ok (addr, MaskStr mask)
  | addr :: _ => Ok (addr, MaskInt (_max_prefixlen v))
  | [] => Ok ([], MaskInt (_max_prefixlen v))
  end.

(** An address built from an integer, as the netmask is. *)
Definition address_of_int (v : ip_version) (n : Z) : Address :=
  mk_address v n None.

Module _BaseV4.

Definition _parse_octet (octet_str : str) : result Z :=
  if null octet_str then Raise ValueError
  else if negb (isascii_isdigit octet_str) then Raise ValueError
  else if len octet_str >? 3 then Raise ValueError
  else if negb (str_eqb octet_str (lit "0"))
          && match octet_str with c :: _ => Ascii.eqb c "0" | [] => false end
  then Raise ValueError
  else
    let octet_int := int_of 10 octet_str in
    if octet_int >? 255 then Raise ValueError else Ok octet_int.

(** [int.from_bytes(bs, 'big')]. *)
Definition int_from_bytes (bs : list Z) : Z :=
  fold_left (fun acc b => acc * 256 + b) bs 0.

Definition _ip_int_from_string (ip_str : str) : result Z :=
  if null ip_str then Raise AddressValueError
  else
    let octets := split "." ip_str in
    if negb (len octets =? 4) then Raise AddressValueError
    else
      try_except
        (bs <- map_result _parse_octet octets ;; Ok (int_from_bytes bs))
        is_ValueError (fun _ => Raise AddressValueError).

(** [ip_int.to_bytes(4, 'big')]. *)
Definition to_bytes4 (ip_int : Z) : list Z :=
  map (fun k => Z.land (Z.shiftr ip_int (8 * k)) 255) [3; 2; 1; 0].

Definition _string_from_ip_int (ip_int : Z) : str :=
  join (lit ".") (map format_d (to_bytes4 ip_int)).

(** [_IPAddressBase._prefix_from_ip_string], only reached for IPv4. *)
Definition _prefix_from_ip_string (ip_str : str) : result Z :=
  ip_int <- try_except (_ip_int_from_string ip_str)
              is_AddressValueError (fun _ => Raise NetmaskValueError) ;;
  try_except (_prefix_from_ip_int V4 ip_int) is_ValueError
    (fun _ =>
       let ip_int := Z.lxor ip_int (_ALL_ONES V4) in
       try_except (_prefix_from_ip_int V4 ip_int) is_ValueError
         (fun _ => Raise NetmaskValueError)).

(** The cache of [_make_netmask] only saves work and is left out. *)
Definition _make_netmask (arg : mask_arg) : result (Address * Z) :=
  prefixlen <-
    match arg with
    | MaskInt prefixlen =>
        if negb ((0 <=? prefixlen) && (prefixlen <=? _max_prefixlen V4))
        then Raise NetmaskValueError else Ok prefixlen
    | MaskStr arg =>
        try_except (_prefix_from_prefix_string V4 arg)
          is_NetmaskValueError (fun _ => _prefix_from_ip_string arg)
    end ;;
  Ok (address_of_int V4 (_ip_int_from_prefix V4 prefixlen), prefixlen).

End _BaseV4.

(** [IPv4Address(address)] for a [str]. *)
Definition IPv4Address (address : str) : result Address :=
  if char_in "/" address then Raise AddressValueError
  else
    ip <- _BaseV4._ip_int_from_string address ;;
    Ok (mk_address V4 ip None).

Module _BaseV6.

Definition _HEXTET_COUNT : Z := 8.

(** [int('', 16)] raises [ValueError]; the other strings that pass the two
    tests are numbers. *)
Definition _parse_hextet (hextet_str : str) : result Z :=
  if negb (forallb is_hex_digit hextet_str) then Raise ValueError
  else if len hextet_str >? 4 then Raise ValueError
  else if null hextet_str then Raise ValueError
  else Ok (int_of 16 hextet_str).

(** The loop that looks for an empty part strictly between the two ends. *)
Definition find_skip_index (parts : list str) : result (option Z) :=
  fold_left
    (fun acc i =>
       skip_index <- acc ;;
       if null (getitem parts i) then
         match skip_index with
         | Some _ => Raise AddressValueError
         | None => Ok (Some i)
         end
       else Ok skip_index)
    (range 1 (len parts - 1)) (Ok None).

(** [for i in idx: ip_int <<= 16; ip_int |= _parse_hextet(parts[i])]. *)
Definition parse_parts (parts : list str) (idx : list Z) (ip_int : Z)
    : result Z :=
  fold_left
    (fun acc i =>
       ip_int <- acc ;;
       h <- _parse_hextet (getitem parts i) ;;
       Ok (Z.lor (Z.shiftl ip_int 16) h))
    idx (Ok ip_int).

(** [parts_hi], [parts_lo] and [parts_skipped]. *)
Definition layout (parts : list str) (skip_index : option Z)
    : result (Z * Z * Z) :=
  match skip_index with
  | Some skip_index =>
      let parts_hi := skip_index in
      let parts_lo := len parts - skip_index - 1 in
      parts_hi <-
        (if null (getitem parts 0) then
           let parts_hi := parts_hi - 1 in
           if negb (parts_hi =? 0) then Raise AddressValueError
           else Ok parts_hi
         else Ok parts_hi) ;;
      parts_lo <-
        (if null (getitem parts (-1)) then
           let parts_lo := parts_lo - 1 in
           if negb (parts_lo =? 0) then Raise AddressValueError
           else Ok parts_lo
         else Ok parts_lo) ;;
      let parts_skipped := _HEXTET_COUNT - (parts_hi + parts_lo) in
      if parts_skipped <? 1 then Raise AddressValueError
      else Ok (parts_hi, parts_lo, parts_skipped)
  | None =>
      if negb (len parts =? _HEXTET_COUNT) then Raise AddressValueError
      else if null (getitem parts 0) then Raise AddressValueError
      else if null (getitem parts (-1)) then Raise AddressValueError
      else Ok (len parts, 0, 0)
  end.


Definition _ip_int_from_string (ip_str : str) : result Z :=
  if null ip_str then Raise AddressValueError
  else
    let parts := split ":" ip_str in
    if len parts <? 3 then Raise AddressValueError
    else
      parts <-
        (if char_in "." (getitem parts (-1)) then
           a <- try_except (IPv4Address (getitem parts (-1)))
                  is_AddressValueError (fun _ => Raise AddressValueError) ;;
           let ipv4_int := _ip a in
           Ok (removelast parts
               ++ [format_x (Z.land (Z.shiftr ipv4_int 16) 65535);
                   format_x (Z.land ipv4_int 65535)])
         else Ok parts) ;;
      if len parts >? _HEXTET_COUNT + 1 then Raise AddressValueError
      else
        skip_index <- find_skip_index parts ;;
        '(parts_hi, parts_lo, parts_skipped) <- layout parts skip_index ;;
        try_except
          (ip_int <- parse_parts parts (range 0 parts_hi) 0 ;;
           let ip_int := Z.shiftl ip_int (16 * parts_skipped) in
           parse_parts parts (range (- parts_lo) 0) ip_int)
          is_ValueError (fun _ => Raise AddressValueError).

(** [enumerate(l)]. *)
Definition enumerate {A} (l : list A) : list (Z * A) :=
  combine (range 0 (len l)) l.

(** The loop of [_compress_hextets]: the start and the length of the first
    longest run of ["0"] hextets. *)
Definition longest_zero_run (hextets : list str) : Z * Z :=
  let '(best_doublecolon_start, best_doublecolon_len, _, _) :=
    fold_left
      (fun '(best_start, best_len, doublecolon_start, doublecolon_len)
           '(index, hextet) =>
         if str_eqb hextet (lit "0") then
           let doublecolon_len := doublecolon_len + 1 in
           let doublecolon_start :=
             if doublecolon_start =? -1 then index else doublecolon_start in
           if doublecolon_len >? best_len
           then (doublecolon_start, doublecolon_len,
                 doublecolon_start, doublecolon_len)
           else (best_start, best_len, doublecolon_start, doublecolon_len)
         else (best_start, best_len, -1, 0))
      (enumerate hextets) (-1, 0, -1, 0)
  in (best_doublecolon_start, best_doublecolon_len).

Definition _compress_hextets (hextets : list str) : list str :=
  let '(best_doublecolon_start, best_doublecolon_len) :=
    longest_zero_run hextets in
  if best_doublecolon_len >? 1 then
    let best_doublecolon_end := best_doublecolon_start + best_doublecolon_len in
    let hextets :=
      if best_doublecolon_end =? len hextets then hextets ++ [[]]
      else hextets in
    let hextets :=
      slice hextets 0 best_doublecolon_start
      ++ [[]] ++ skipn (Z.to_nat best_doublecolon_end) hextets in
    if best_doublecolon_start =? 0 then [] :: hextets else hextets
  else hextets.

(** ['%032x' % ip_int] cut into eight groups of four digits, each read back
    with [int(_, 16)]: the eight 16-bit groups of [ip_int], high to low. *)
Definition hextets_of (ip_int : Z) : list Z :=
  map (fun x => Z.land (Z.shiftr ip_int (112 - 4 * x)) 65535)
      [0; 4; 8; 12; 16; 20; 24; 28].

Definition _string_from_ip_int (ip_int : Z) : str :=
  let hextets := map format_x (hextets_of ip_int) in
  let hextets := _compress_hextets hextets in
  join (lit ":") hextets.

Definition _split_scope_id (ip_str : str) : result (str * option str) :=
  let '(addr, sep, scope_id) := partition "%" ip_str in
  if negb sep then Ok (addr, None)
  else if null scope_id || char_in "%" scope_id then Raise AddressValueError
  else Ok (addr, Some scope_id).

Definition _make_netmask (arg : mask_arg) : result (Address * Z) :=
  prefixlen <-
    match arg with
    | MaskInt prefixlen =>
        if negb ((0 <=? prefixlen) && (prefixlen <=? _max_prefixlen V6))
        then Raise NetmaskValueError else Ok prefixlen
    | MaskStr arg => _prefix_from_prefix_string V6 arg
    end ;;
  Ok (address_of_int V6 (_ip_int_from_prefix V6 prefixlen), prefixlen).

End _BaseV6.

(** [IPv6Address(address)] for a [str]. *)
Definition IPv6Address (address : str) : result Address :=
  if char_in "/" address then Raise AddressValueError
  else
    '(addr_str, scope_id) <- _BaseV6._split_scope_id address ;;
    ip <- _BaseV6._ip_int_from_string addr_str ;;
    Ok (mk_address V6 ip scope_id).

(** [IPv4Network(address, strict=True)] for a [str]. *)
Definition IPv4Network (address : str) : result Network :=
  '(addr, mask) <- _split_addr_prefix V4 address ;;
  network_address <- IPv4Address addr ;;
  '(netmask, prefixlen) <- _BaseV4._make_netmask mask ;;
  let packed := _ip network_address in
  if negb (Z.land packed (_ip netmask) =? packed) then Raise ValueError
  else Ok (mk_network V4 network_address netmask prefixlen).

(** [IPv6Network(address, strict=True)] for a [str]. *)
Definition IPv6Network (address : str) : result Network :=
  '(addr, mask) <- _split_addr_prefix V6 address ;;
  network_address <- IPv6Address addr ;;
  '(netmask, prefixlen) <- _BaseV6._make_netmask mask ;;
  let packed := _ip network_address in
  if negb (Z.land packed (_ip netmask) =? packed) then Raise ValueError
  else Ok (mk_network V6 network_address netmask prefixlen).

Definition ip_address (address : str) : result Address :=
  try_except (IPv4Address address) is_address_or_netmask_error (fun _ =>
  try_except (IPv6Address address) is_address_or_netmask_error (fun _ =>
  Raise ValueError)).

(** [ip_network(address)], with its default [strict=True]. *)
Definition ip_network (address : str) : result Network :=
  try_except (IPv4Network address) is_address_or_netmask_error (fun _ =>
  try_except (IPv6Network address) is_address_or_netmask_error (fun _ =>
  Raise ValueError)).

(** [str(a)]. *)
Definition str_address (a : Address) : str :=
  match _version a with
  | V4 => _BaseV4._string_from_ip_int (_ip a)
  | V6 =>
      let ip_str := _BaseV6._string_from_ip_int (_ip a) in
      match _scope_id a with
      | Some scope_id =>
          if null scope_id then ip_str else ip_str ++ lit "%" ++ scope_id
      | None => ip_str
      end
  end.

(** [str(n)]: ['%s/%d' % (self.network_address, self.prefixlen)]. *)
Definition str_network (n : Network) : str :=
  str_address (network_address n) ++ lit "/" ++ format_d (_prefixlen n).

Definition scope_eqb (s t : option str) : bool :=
  match s, t with
  | None, None => true
  | Some s, Some t => str_eqb s t
  | _, _ => false
  end.

(** [a == b] on addresses: [_BaseAddress.__eq__], which [IPv6Address]
    extends with the scope. *)
Definition address_eqb (a b : Address) : bool :=
  let address_equal := (_ip a =? _ip b) && version_eqb (_version a) (_version b) in
  match _version a with
  | V4 => address_equal
  | V6 => if negb address_equal then false
          else scope_eqb (_scope_id a) (_scope_id b)
  end.

(** [n == m] on networks: [_BaseNetwork.__eq__]. *)
Definition network_eqb (n m : Network) : bool :=
  version_eqb (net_version n) (net_version m)
  && address_eqb (network_address n) (network_address m)
  && (_ip (netmask n) =? _ip (netmask m)).

(** [a in n]: [_BaseNetwork.__contains__] on an address. *)
Definition contains (n : Network) (a : Address) : bool :=
  if negb (version_eqb (net_version n) (_version a)) then false
  else Z.land (_ip a) (_ip (netmask n)) =? _ip (network_address n).

End ipaddress.

(** ** The process state *)

Import ipaddress.

(** What [json.load] returns.  Numbers carry no value: the program only
    looks at strings. *)
#[local] Unset Elimination Schemes.
Inductive json : Type :=
| JNull
| JBool (b : bool)
| JNumber
| JString (s : str)
| JArray (items : list json)
| JObject (members : list (str * json)).
#[local] Set Elimination Schemes.

(** [allowed_ips.json] as the program sees it: missing
    ([os.path.exists] is false), present with text [json.load] rejects, or
    present with a JSON value. *)
Inductive file : Type :=
| Absent
| Corrupt
| Holds (v : json).

Definition socket := nat.

(** The label of a pump: [f"{ip}:{port} -> DEST"] or
    [f"DEST -> {ip}:{port}"]. *)
Inductive label : Type :=
| ToDest (ip : str) (port : Z)
| FromDest (ip : str) (port : Z).

(** The lines the program logs and prints, one constructor per format
    string. *)
Inductive message : Type :=
| ConnectionAttempt (ip : str) (port : Z)
    (* f"Connection attempt from {ip}:{port}" *)
| Rejected (ip : str)
    (* f"Rejected: {ip} is not in the allowed list" *)
| ErrorConnecting (e : exn)
    (* f"Error connecting to destination: {e}" *)
| AcceptedForwarded (ip : str)
    (* f"Connection from {ip} accepted and forwarded" *)
| Connected (ip : str) (port : Z)
    (* f"{ip}:{port} connected -> {DEST_HOST}:{DEST_PORT}" *)
| PumpClosed (l : label) (total_bytes : Z) (duration : Z)
    (* f"{label} closed | Bytes: {total_bytes} | Duration: {duration:.2f}s" *)
| AddedToList (net_str : str)
    (* f"{net_str} added to allowed list" *)
| RemovedFromList (net_str : str)
    (* f"{net_str} removed from allowed list" *)
| StoppingViaCommand
    (* "Stopping server via command" *)
| ErrorLoading (e : exn)
    (* "Error loading allowed IPs:", e *)
| AlreadyInList (net_str : str)
    (* f"{net_str} is already in the allowed list" *)
| Added (net_str : str)
    (* f"{net_str} added" *)
| InvalidFormat (net_str : str)
    (* f"Invalid IP or network format: {net_str}" *)
| Removed (net_str : str)
    (* f"{net_str} removed" *)
| NotFound (net_str : str)
    (* f"{net_str} not found in allowed list" *)
| ListHeader
    (* "Allowed IPs / Networks:" *)
| ListItem (net : Network)
    (* " -", net *)
| Usage.
    (* "Available commands: add [ip or cidr], remove [ip or cidr], list, stop" *)

(** A started [threading.Thread(target=forward, args=(source, destination,
    label))]. *)
Record thread : Type := mk_thread {
  t_source : socket;
  t_destination : socket;
  t_label : label
}.

Record world : Type := mk_world {
  allowed_networks : list Network;     (* the global list *)
  allowed_ips_file : file;             (* ALLOWED_IPS_FILE on disk *)
  allowed_ips_writable : bool;         (* does open(ALLOWED_IPS_FILE, 'w') succeed *)
  stdout : list message;               (* what print wrote, oldest first *)
  log_file : list message;             (* the lines of LOG_FILE, oldest first *)
  closed : list socket;                (* sockets on which close() was called *)
  dialed : list (str * Z);             (* calls of socket.create_connection *)
  started : list thread;               (* threads started, oldest first *)
  stop_event : bool                    (* stop_event.is_set() *)
}.

Definition set_allowed_networks (nets : list Network) (w : world) : world :=
  mk_world nets (allowed_ips_file w) (allowed_ips_writable w) (stdout w)
    (log_file w) (closed w) (dialed w) (started w) (stop_event w).

Definition set_allowed_ips_file (f : file) (w : world) : world :=
  mk_world (allowed_networks w) f (allowed_ips_writable w) (stdout w)
    (log_file w) (closed w) (dialed w) (started w) (stop_event w).

Definition set_stdout (out : list message) (w : world) : world :=
  mk_world (allowed_networks w) (allowed_ips_file w) (allowed_ips_writable w)
    out (log_file w) (closed w) (dialed w) (started w) (stop_event w).

Definition set_log_file (l : list message) (w : world) : world :=
  mk_world (allowed_networks w) (allowed_ips_file w) (allowed_ips_writable w)
    (stdout w) l (closed w) (dialed w) (started w) (stop_event w).

Definition set_closed (c : list socket) (w : world) : world :=
  mk_world (allowed_networks w) (allowed_ips_file w) (allowed_ips_writable w)
    (stdout w) (log_file w) c (dialed w) (started w) (stop_event w).

Definition set_dialed (d : list (str * Z)) (w : world) : world :=
  mk_world (allowed_networks w) (allowed_ips_file w) (allowed_ips_writable w)
    (stdout w) (log_file w) (closed w) d (started w) (stop_event w).

Definition set_started (t : list thread) (w : world) : world :=
  mk_world (allowed_networks w) (allowed_ips_file w) (allowed_ips_writable w)
    (stdout w) (log_file w) (closed w) (dialed w) t (stop_event w).

Definition set_stop_event (b : bool) (w : world) : world :=
  mk_world (allowed_networks w) (allowed_ips_file w) (allowed_ips_writable w)
    (stdout w) (log_file w) (closed w) (dialed w) (started w) b.

(** Computations over the process state that may raise. *)
Definition M (A : Type) : Type := world -> result A * world.

Definition ret {A} (a : A) : M A := fun w => (Ok a, w).

Definition raise {A} (e : exn) : M A := fun w => (Raise e, w).

Definition bind {A B} (m : M A) (k : A -> M B) : M B :=
  fun w =>
    match m w with
    | (Ok a, w') => k a w'
    | (Raise e, w') => (Raise e, w')
    end.

(** A pure computation of [ipaddress] run inside [M]. *)
Definition lift {A} (r : result A) : M A := fun w => (r, w).

Definition gets {A} (f : world -> A) : M A := fun w => (Ok (f w), w).

Definition modify (f : world -> world) : M unit := fun w => (Ok tt, f w).

(** [try: m except <handles> as e: h e]: the handler starts from the state
    the body left. *)
Definition try_catch {A} (m : M A) (handles : exn -> bool) (h : exn -> M A)
    : M A :=
  fun w =>
    match m w with
    | (Ok a, w') => (Ok a, w')
    | (Raise e, w') => if handles e then h e w' else (Raise e, w')
    end.

Declare Scope M_scope.
Delimit Scope M_scope with M.
Notation "x <- m ;; k" := (bind m (fun x => k))
  (at level 61, m at next level, right associativity) : M_scope.
Notation "m ;; k" := (bind m (fun _ => k))
  (at level 61, right associativity) : M_scope.
Local Open Scope M_scope.

(** ** Configuration *)

Definition DEST_HOST : str := lit "127.0.0.1".
Definition DEST_PORT : Z := 25566.

(** ** Logging *)

Definition print (m : message) : M unit :=
  modify (fun w => set_stdout (stdout w ++ [m]) w).

(** [log_event(message)]: the line goes to the console and to the end of
    [LOG_FILE].  The time stamp in front of it is left out. *)
Definition log_event (m : message) : M unit :=
  print m ;;
  modify (fun w => set_log_file (log_file w ++ [m]) w).

(** ** IP whitelist management *)

(** [json.load(f)]. *)
Definition json_load (f : file) : result json :=
  match f with
  | Holds v => Ok v
  | _ => Raise ValueError
  end.

(** What [for entry in data] runs over: the items of a list, the keys of a
    dict, the characters of a string; the rest is not iterable. *)
Definition iterate (data : json) : result (list json) :=
  match data with
  | JArray items => Ok items
  | JObject members => Ok (map (fun kv => JString (fst kv)) members)
  | JString s => Ok (map (fun c => JString [c]) s)
  | _ => Raise TypeError
  end.

(** [entry.strip()]: only a [str] has the method. *)
Definition entry_strip (entry : json) : result str :=
  match entry with
  | JString s => Ok (strip s)
  | _ => Raise AttributeError
  end.

Definition load_allowed_networks : M (list Network) :=
  f <- gets allowed_ips_file ;;
  match f with
  | Absent => ret []
  | _ =>
      try_catch
        (data <- lift (json_load f) ;;
         entries <- lift (iterate data) ;;
         lift (map_result
                 (fun entry => rbind (entry_strip entry) ip_network) entries))
        is_Exception
        (fun e => print (ErrorLoading e) ;; ret [])
  end.

(** [open(ALLOWED_IPS_FILE, 'w')] raises [OSError] when the file cannot be
    written; otherwise the file holds the dumped array. *)
(** [[str(net) for net in networks]], the value handed to [json.dump]. *)
Definition json_of_networks (networks : list Network) : json :=
  JArray (map (fun net => JString (str_network net)) networks).

Definition save_allowed_networks (networks : list Network) : M unit :=
  writable <- gets allowed_ips_writable ;;
  if writable
  then modify (set_allowed_ips_file (Holds (json_of_networks networks)))
  else raise OSError.

(** Line 53: [allowed_networks = load_allowed_networks()]. *)
Definition startup : M unit :=
  nets <- load_allowed_networks ;;
  modify (set_allowed_networks nets).

(** ** Traffic forwarding *)

Definition bytes := list ascii.

(** How the [while True] loop of [forward] was left. *)
Inductive loop_exit : Type :=
| Break                 (* [if not data: break] *)
| Except (e : exn)      (* [recv] or [sendall] raised *)
| Pending.              (* still inside the loop *)

(** The loop of [forward] against what the two sockets do: one entry per
    iteration, the outcome of [source.recv(4096)] and, when it is reached,
    of [destination.sendall(data)].  When the entries run out the loop is
    still waiting in [recv]. *)
Fixpoint forward_loop (io : list (result bytes * result unit))
    (total_bytes : Z) : Z * loop_exit :=
  match io with
  | [] => (total_bytes, Pending)
  | (recv, sendall) :: io' =>
      match recv with
      | Raise e => (total_bytes, Except e)
      | Ok data =>
          if null data then (total_bytes, Break)
          else
            match sendall with
            | Raise e => (total_bytes, Except e)
            | Ok _ => forward_loop io' (total_bytes + len data)
            end
      end
  end.

Definition close (s : socket) : M unit :=
  modify (fun w => set_closed (closed w ++ [s]) w).

(** [forward(source, destination, label)].  [start_time] and [end_time] are
    the two readings of [datetime.datetime.now()].  The result tells whether
    the call returned ([true]) or is still in its loop ([false]). *)
Definition forward (io : list (result bytes * result unit))
    (start_time end_time : Z) (source destination : socket) (l : label)
    : M bool :=
  match forward_loop io 0 with
  | (_, Pending) => ret false
  | (total_bytes, _) =>
      (* except: pass, then finally: *)
      let duration := end_time - start_time in
      log_event (PumpClosed l total_bytes duration) ;;
      close source ;;
      close destination ;;
      ret true
  end.

(** ** Handle client *)

Definition is_allowed (ip_str : str) : M bool :=
  nets <- gets allowed_networks ;;
  lift (try_except
          (rbind (ip_address ip_str) (fun ip_obj =>
             Ok (existsb (fun net => contains net ip_obj) nets)))
          is_ValueError (fun _ => Ok false)).

(** [socket.create_connection(address)]: the call is recorded; [dial] is
    what the network answers. *)
Definition create_connection (dial : result socket) (address : str * Z)
    : M socket :=
  modify (fun w => set_dialed (dialed w ++ [address]) w) ;;
  lift dial.

(** [threading.Thread(target=forward, args=...).start()]. *)
Definition start_forward (source destination : socket) (l : label) : M unit :=
  modify (fun w => set_started (started w ++ [mk_thread source destination l]) w).

Definition handle_client (dial : result socket) (client_sock : socket)
    (client_addr : str * Z) : M unit :=
  let '(ip, port) := client_addr in
  log_event (ConnectionAttempt ip port) ;;
  allowed <- is_allowed ip ;;
  if negb allowed then
    log_event (Rejected ip) ;;
    close client_sock ;;
    ret tt
  else
    r <- try_catch
           (server_sock <- create_connection dial (DEST_HOST, DEST_PORT) ;;
            ret (Some server_sock))
           is_Exception
           (fun e =>
              log_event (ErrorConnecting e) ;;
              close client_sock ;;
              ret None) ;;
    match r with
    | None => ret tt
    | Some server_sock =>
        log_event (AcceptedForwarded ip) ;;
        log_event (Connected ip port) ;;
        start_forward client_sock server_sock (ToDest ip port) ;;
        start_forward server_sock client_sock (FromDest ip port)
    end.

(** ** Command interface *)

(** [item in l] on a list: the first item equal to the needle decides. *)
Definition list_contains (l : list Network) (x : Network) : bool :=
  existsb (fun item => network_eqb item x) l.

(** [l.remove(x)]: the first item equal to [x] goes; [ValueError] when there
    is none. *)
Fixpoint list_remove (l : list Network) (x : Network) : result (list Network) :=
  match l with
  | [] => Raise ValueError
  | item :: l' =>
      if network_eqb item x then Ok l'
      else rbind (list_remove l' x) (fun r => Ok (item :: r))
  end.

(** The body of the [add] branch, from [net_str] on. *)
Definition add_command (net_str : str) : M unit :=
  try_catch
    (new_net <- lift (ip_network net_str) ;;
     nets <- gets allowed_networks ;;
     if list_contains nets new_net then
       print (AlreadyInList net_str)
     else
       modify (fun w => set_allowed_networks (allowed_networks w ++ [new_net]) w) ;;
       nets <- gets allowed_networks ;;
       save_allowed_networks nets ;;
       log_event (AddedToList net_str) ;;
       print (Added net_str))
    is_ValueError
    (fun _ => print (InvalidFormat net_str)).

(** The body of the [remove] branch, from [net_str] on. *)
Definition remove_command (net_str : str) : M unit :=
  try_catch
    (net_to_remove <- lift (ip_network net_str) ;;
     nets <- gets allowed_networks ;;
     if list_contains nets net_to_remove then
       nets' <- lift (list_remove nets net_to_remove) ;;
       modify (set_allowed_networks nets') ;;
       nets <- gets allowed_networks ;;
       save_allowed_networks nets ;;
       log_event (RemovedFromList net_str) ;;
       print (Removed net_str)
     else
       print (NotFound net_str))
    is_ValueError
    (fun _ => print (InvalidFormat net_str)).

Definition list_command : M unit :=
  nets <- gets allowed_networks ;;
  print ListHeader ;;
  fold_left (fun m net => m ;; print (ListItem net)) nets (ret tt).

(** One turn of the [while] loop inside the [try]: [line] is what
    [input("> ")] returned or raised.  The result is [true] on [break]. *)
Definition command (line : result str) : M bool :=
  line <- lift line ;;
  let cmd := strip line in
  if startswith (lit "add ") cmd then
    let net_str := strip (skipn 4 cmd) in
    add_command net_str ;; ret false
  else if startswith (lit "remove ") cmd then
    let net_str := strip (skipn 7 cmd) in
    remove_command net_str ;; ret false
  else if str_eqb cmd (lit "list") then
    list_command ;; ret false
  else if str_eqb cmd (lit "exit") || str_eqb cmd (lit "quit")
          || str_eqb cmd (lit "stop") then
    log_event StoppingViaCommand ;;
    modify (set_stop_event true) ;;
    ret true
  else
    print Usage ;; ret false.

Definition is_EOFError_or_KeyboardInterrupt (e : exn) : bool :=
  match e with EOFError | KeyboardInterrupt => true | _ => false end.

(** How a run of [command_interface] stands once the given console lines
    are used up. *)
Inductive console : Type :=
| Returned      (* the function returned *)
| Waiting.      (* blocked in [input] *)

(** [command_interface(stop_event)] against the lines typed at the console.
    An exception that no [except] clause takes leaves the function.  The
    stop event is read as this thread and those before it left it: a run
    has no [signal_handler] setting it while the console waits in
    [input]. *)
Fixpoint command_interface (lines : list (result str)) : M console :=
  fun w =>
    if stop_event w then (Ok Returned, w)
    else
      match lines with
      | [] => (Ok Waiting, w)
      | line :: lines' =>
          match try_catch (command line)
                  is_EOFError_or_KeyboardInterrupt
                  (fun _ => modify (set_stop_event true) ;; ret false) w with
          | (Ok true, w') => (Ok Returned, w')
          | (Ok false, w') => command_interface lines' w'
          | (Raise e, w') => (Raise e, w')
          end
      end.

(** ** Start proxy: the accept loop *)

(** What [s.accept()] does within its one-second timeout. *)
Inductive accept_result : Type :=
| Accepted (client_sock : socket) (client_addr : str * Z)
| TimedOut                    (* [socket.timeout], the loop goes on *)
| AcceptFailed (e : exn).     (* any other exception *)

(** A started [threading.Thread(target=handle_client,
    args=(client_sock, client_addr))]. *)
Record handler : Type := mk_handler {
  h_client_sock : socket;
  h_client_addr : str * Z
}.

(** The [while] loop of [start_proxy] against its surroundings: one entry
    per look at [stop_event], telling whether another thread has set the
    event since the last look and what [accept] does next.  The result lists
    the handler threads started, oldest first, and tells whether the loop
    has ended. *)
Fixpoint accept_loop (turns : list (bool * accept_result))
    (handlers : list handler) : M (list handler * console) :=
  fun w =>
    match turns with
    | [] => (Ok (handlers, if stop_event w then Returned else Waiting), w)
    | (stop_set, accept) :: turns' =>
        let w := if stop_set then set_stop_event true w else w in
        if stop_event w then (Ok (handlers, Returned), w)
        else
          match accept with
          | Accepted client_sock client_addr =>
              accept_loop turns'
                (handlers ++ [mk_handler client_sock client_addr]) w
          | TimedOut => accept_loop turns' handlers w
          | AcceptFailed e => (Raise e, w)
          end
    end.

(** ** The values the constructors of [ipaddress] produce *)

(** A scope id, when there is one, is not empty and holds neither ['%'] nor
    ['/']. *)
Definition wf_scope (scope_id : option str) : bool :=
  match scope_id with
  | None => true
  | Some s => negb (null s) && negb (char_in "%" s) && negb (char_in "/" s)
  end.

(** An address fits its width; only an IPv6 address has a scope id. *)
Definition wf_address (a : Address) : bool :=
  (0 <=? _ip a) && (_ip a <=? _ALL_ONES (_version a))
  && wf_scope (_scope_id a)
  && match _version a, _scope_id a with
     | V4, Some _ => false
     | _, _ => true
     end.

(** A network: address and netmask of the network's version, a prefix
    length within the width, the netmask of that length, no host bit set. *)
Definition wf_network (n : Network) : bool :=
  version_eqb (_version (network_address n)) (net_version n)
  && wf_address (network_address n)
  && (0 <=? _prefixlen n) && (_prefixlen n <=? _max_prefixlen (net_version n))
  && version_eqb (_version (netmask n)) (net_version n)
  && (_ip (netmask n) =? _ip_int_from_prefix (net_version n) (_prefixlen n))
  && match _scope_id (netmask n) with None => true | Some _ => false end
  && (Z.land (_ip (network_address n)) (_ip (netmask n))
      =? _ip (network_address n)).

(** The number of host bits of a network. *)
Definition host_bits (n : Network) : Z :=
  _max_prefixlen (net_version n) - _prefixlen n.

(** Prefix containment: same version, and the address agrees with the
    network address on every bit above the host bits. *)
Definition in_network (a : Address) (n : Network) : Prop :=
  _version a = net_version n
  /\ Z.shiftr (_ip a) (host_bits n)
     = Z.shiftr (_ip (network_address n)) (host_bits n).

(** The single-host network of an address. *)
Definition host_network (a : Address) : Network :=
  mk_network (_version a) a
    (address_of_int (_version a)
       (_ip_int_from_prefix (_version a) (_max_prefixlen (_version a))))
    (_max_prefixlen (_version a)).

(** ** Vocabulary of the statements *)

(** A process that has done nothing yet: no file on disk, a writable
    directory, an empty allow-list. *)
Definition empty_world : world :=
  mk_world [] Absent true [] [] [] [] [] false.

(** A turn of the pump's loop ends the loop: the read raised, the read was
    empty, or the write raised. *)
Definition stops (turn : result bytes * result unit) : bool :=
  match turn with
  | (Raise _, _) => true
  | (Ok data, sendall) =>
      null data || match sendall with Raise _ => true | Ok _ => false end
  end.

(** The bytes of the turns before the first one that ends the loop: read and
    written in full. *)
Fixpoint relayed (io : list (result bytes * result unit)) : Z :=
  match io with
  | [] => 0
  | turn :: io' =>
      if stops turn then 0
      else match fst turn with
           | Ok data => len data + relayed io'
           | Raise _ => 0
           end
  end.

(** The state [forward] leaves when it returns: one record printed and
    logged, then the two sockets closed. *)
Definition after_forward (record : message) (source destination : socket)
    (w : world) : world :=
  set_closed (closed w ++ [source; destination])
    (set_log_file (log_file w ++ [record])
       (set_stdout (stdout w ++ [record]) w)).

(** The state a successful [add] leaves. *)
Definition after_add (net_str : str) (n : Network) (w : world) : world :=
  set_stdout (stdout w ++ [AddedToList net_str; Added net_str])
    (set_log_file (log_file w ++ [AddedToList net_str])
       (set_allowed_ips_file
          (Holds (json_of_networks (allowed_networks w ++ [n])))
          (set_allowed_networks (allowed_networks w ++ [n]) w))).

(** The first item equal to [x] taken out of [l]. *)
Fixpoint without_first (l : list Network) (x : Network) : list Network :=
  match l with
  | [] => []
  | item :: l' => if network_eqb item x then l' else item :: without_first l' x
  end.

(** The state a successful [remove] leaves. *)
Definition after_remove (net_str : str) (n : Network) (w : world) : world :=
  set_stdout (stdout w ++ [RemovedFromList net_str; Removed net_str])
    (set_log_file (log_file w ++ [RemovedFromList net_str])
       (set_allowed_ips_file
          (Holds (json_of_networks (without_first (allowed_networks w) n)))
          (set_allowed_networks (without_first (allowed_networks w) n) w))).

(** [_make_netmask] of either version. *)
Definition make_netmask (v : ip_version) (arg : mask_arg)
    : result (Address * Z) :=
  match v with
  | V4 => _BaseV4._make_netmask arg
  | V6 => _BaseV6._make_netmask arg
  end.

(** The network 10.0.0.0/24 and the addresses 10.0.0.5 and 192.168.1.1, as
    the constructors build them. *)
Definition net_10_0_0_0_24 : Network :=
  mk_network V4 (mk_address V4 167772160 None)
    (address_of_int V4 4294967040) 24.

Definition addr_10_0_0_5 : Address := mk_address V4 167772165 None.

Definition addr_192_168_1_1 : Address := mk_address V4 3232235777 None.

(** ** Vocabulary of further statements *)

(** The connections among the turns, in order. *)
Fixpoint connections (turns : list (bool * accept_result)) : list handler :=
  match turns with
  | [] => []
  | (_, Accepted client_sock client_addr) :: turns' =>
      mk_handler client_sock client_addr :: connections turns'
  | _ :: turns' => connections turns'
  end.

(** A turn at which nobody has asked to stop and [accept] does not fail. *)
Definition quiet (turn : bool * accept_result) : bool :=
  negb (fst turn)
  && match snd turn with AcceptFailed _ => false | _ => true end.

(** The file on disk reads back as the registry in memory. *)
Definition file_mirrors_registry (w : world) : Prop :=
  fst (load_allowed_networks w) = Ok (allowed_networks w).

(** An entry of the file that the comprehension of [load_allowed_networks]
    turns into a network. *)
Definition loads (entry : json) : bool :=
  match rbind (entry_strip entry) ip_network with
  | Ok _ => true
  | Raise _ => false
  end.

(** A JSON value that is neither a list nor an object nor the empty
    string. *)
Definition scalar (data : json) : bool :=
  match data with
  | JArray _ | JObject _ => false
  | JString s => negb (null s)
  | _ => true
  end.





(** ** Vocabulary of the proofs *)

(** [f] holds on the [n] integers from [a] on: a check by enumeration. *)
Fixpoint holds_from (f : Z -> bool) (a : Z) (n : nat) : bool :=
  match n with
  | O => true
  | S n' => f a && holds_from f (a + 1) n'
  end.

(** Every character below 256, for checks by enumeration. *)
Definition all_chars : list ascii := map ascii_of_nat (seq 0 256).

(** The value of a digit; 0 for any other character. *)
Definition digit_value (c : ascii) : Z :=
  match hex_value c with Some d => d | None => 0 end.

(** The digit written for [d] reads back as [d]. *)
Definition nibble_ok (d : Z) : bool :=
  match hex_value (digit_char d) with
  | Some v => v =? d
  | None => false
  end.

(** What is checked of [str(b)] for every octet [b]. *)
Definition octet_ok (b : Z) : bool :=
  let s := format_d b in
  match _BaseV4._parse_octet s with
  | Ok v => v =? b
  | Raise _ => false
  end
  && negb (null s) && forallb is_digit s.

(** What is checked of ['%d' % p] for every prefix length [p]. *)
Definition prefix_ok (p : Z) : bool :=
  let s := format_d p in
  isascii_isdigit s
  && (int_of 10 s =? p)
  && match rev s with c :: _ => is_digit c | [] => false end.

(** The loop of [find_skip_index] over any list of indices. *)
Definition skip_loop (parts : list str) (idx : list Z)
    (acc : result (option Z)) : result (option Z) :=
  fold_left
    (fun acc i =>
       rbind acc (fun skip_index =>
         if null (getitem parts i) then
           match skip_index with
           | Some _ => Raise AddressValueError
           | None => Ok (Some i)
           end
         else Ok skip_index))
    idx acc.

(** The value of eight hextets, high to low. *)
Definition hextets_value (hs : list Z) : Z :=
  fold_left (fun acc h => acc * 65536 + h) hs 0.

(** The loop of [longest_zero_run] on the answers of its test. *)
Definition zero_run_step (st : Z * Z * Z * Z) (index : Z) (zero : bool)
    : Z * Z * Z * Z :=
  let '(best_start, best_len, doublecolon_start, doublecolon_len) := st in
  if zero then
    let doublecolon_len := doublecolon_len + 1 in
    let doublecolon_start :=
      if doublecolon_start =? -1 then index else doublecolon_start in
    if doublecolon_len >? best_len
    then (doublecolon_start, doublecolon_len,
          doublecolon_start, doublecolon_len)
    else (best_start, best_len, doublecolon_start, doublecolon_len)
  else (best_start, best_len, -1, 0).

(** Start and length of the run the loop settles on. *)
Definition zero_run (zs : list bool) : Z * Z :=
  let '(best_start, best_len, _, _) :=
    fold_left (fun st iz => zero_run_step st (fst iz) (snd iz))
      (combine (range 0 (len zs)) zs) (-1, 0, -1, 0)
  in (best_start, best_len).

(** What the loop finds among eight hextets: nothing worth compressing, or
    a run of zeros inside the eight. *)
Definition zero_run_ok (zs : list bool) : bool :=
  let '(best_start, best_len) := zero_run zs in
  (best_len <=? 1)
  || ((0 <=? best_start) && (best_start + best_len <=? 8)
      && forallb (fun i => nth i zs false)
           (seq (Z.to_nat best_start) (Z.to_nat best_len))).

(** The characters of a printed IPv6 address. *)
Definition v6_char (c : ascii) : Prop :=
  is_hex_digit c = true \/ c = ":"%char.

(** The comprehension of [load_allowed_networks] over the loaded value. *)
Definition parse_entries (data : json) : result (list Network) :=
  rbind (iterate data) (fun entries =>
    map_result (fun entry => rbind (entry_strip entry) ip_network) entries).

(** * Facts about the string primitives *)

Section StringFacts.

Lemma ascii_eqb_false_sym (c d : ascii) :
  Ascii.eqb c d = false -> Ascii.eqb d c = false.
Proof. rewrite (Ascii.eqb_sym d c). auto. Qed.

Lemma str_eqb_eq (s t : str) : str_eqb s t = true <-> s = t.
Proof.
  revert t. induction s as [|c s IH]; intros [|d t]; simpl; split;
    try congruence; try reflexivity.
  - intros H. apply andb_true_iff in H as [H1 H2].
    apply Ascii.eqb_eq in H1. apply IH in H2. congruence.
  - intros H. inversion H; subst. rewrite Ascii.eqb_refl. simpl.
    apply IH. reflexivity.
Qed.

Lemma str_eqb_refl (s : str) : str_eqb s s = true.
Proof. apply str_eqb_eq. reflexivity. Qed.

Lemma str_eqb_sym (s t : str) : str_eqb s t = str_eqb t s.
Proof.
  destruct (str_eqb s t) eqn:E.
  - apply str_eqb_eq in E. subst. symmetry. apply str_eqb_refl.
  - destruct (str_eqb t s) eqn:E'; [|reflexivity].
    apply str_eqb_eq in E'. subst. rewrite str_eqb_refl in E. discriminate.
Qed.

Lemma char_in_app (c : ascii) (s t : str) :
  char_in c (s ++ t) = char_in c s || char_in c t.
Proof. unfold char_in. apply existsb_app. Qed.

Lemma char_in_false_forall (c : ascii) (s : str) :
  char_in c s = false <-> Forall (fun d => d <> c) s.
Proof.
  unfold char_in. induction s as [|d s IH]; simpl.
  - split; auto.
  - rewrite orb_false_iff, IH. split.
    + intros [H1 H2]. constructor; auto.
      intros ->. rewrite Ascii.eqb_refl in H1. discriminate.
    + intros H. inversion H; subst. split; auto.
      apply Ascii.eqb_neq. congruence.
Qed.

(** Splitting a text without the separator gives the text back. *)
Lemma split_none (c : ascii) (s : str) :
  char_in c s = false -> split c s = [s].
Proof.
  induction s as [|d s IH]; simpl; [reflexivity|].
  unfold char_in; simpl. intros H. apply orb_false_iff in H as [H1 H2].
  rewrite (ascii_eqb_false_sym _ _ H1). rewrite (IH H2). reflexivity.
Qed.

Lemma split_app (c : ascii) (p rest : str) :
  char_in c p = false -> split c (p ++ c :: rest) = p :: split c rest.
Proof.
  induction p as [|d p IH]; simpl.
  - rewrite Ascii.eqb_refl. reflexivity.
  - unfold char_in; simpl. intros H. apply orb_false_iff in H as [H1 H2].
    rewrite (ascii_eqb_false_sym _ _ H1). rewrite (IH H2). reflexivity.
Qed.

(** [sep.join(parts).split(sep)] is [parts] when no part holds [sep]. *)
Lemma split_join (c : ascii) (parts : list str) :
  parts <> [] ->
  Forall (fun p => char_in c p = false) parts ->
  split c (join [c] parts) = parts.
Proof.
  induction parts as [|p ps IH]; [congruence|].
  intros _ H. inversion H as [|? ? Hp Hps]; subst.
  destruct ps as [|q ps].
  - simpl. apply split_none. assumption.
  - change (join [c] (p :: q :: ps)) with (p ++ c :: join [c] (q :: ps)).
    rewrite split_app by assumption.
    rewrite IH; [reflexivity | congruence | assumption].
Qed.

Lemma split_nonempty (c : ascii) (s : str) : split c s <> [].
Proof.
  destruct s as [|d s]; simpl; [congruence|].
  destruct (Ascii.eqb d c); [congruence|].
  destruct (split c s); congruence.
Qed.

(** Every character of the text is the separator or sits in a part. *)
Lemma split_char_in (c d : ascii) (s : str) :
  d <> c -> char_in d s = true ->
  existsb (char_in d) (split c s) = true.
Proof.
  intros Hdc. induction s as [|e s IH]; simpl; [discriminate|].
  unfold char_in at 1; simpl. intros H.
  destruct (Ascii.eqb e c) eqn:Eec.
  - apply Ascii.eqb_eq in Eec. subst e.
    destruct (Ascii.eqb d c) eqn:Edc.
    + apply Ascii.eqb_eq in Edc. contradiction.
    + simpl in H. simpl. apply IH. exact H.
  - pose proof (split_nonempty c s) as Hne.
    destruct (split c s) as [|p ps]; [congruence|].
    simpl. unfold char_in at 1. simpl.
    destruct (Ascii.eqb d e); simpl in *; [reflexivity|].
    apply IH in H. simpl in H. exact H.
Qed.

Lemma partition_none (c : ascii) (s : str) :
  char_in c s = false -> partition c s = (s, false, []).
Proof.
  induction s as [|d s IH]; simpl; [reflexivity|].
  unfold char_in; simpl. intros H. apply orb_false_iff in H as [H1 H2].
  rewrite (ascii_eqb_false_sym _ _ H1). rewrite (IH H2). reflexivity.
Qed.

Lemma partition_app (c : ascii) (p rest : str) :
  char_in c p = false -> partition c (p ++ c :: rest) = (p, true, rest).
Proof.
  induction p as [|d p IH]; simpl.
  - rewrite Ascii.eqb_refl. reflexivity.
  - unfold char_in; simpl. intros H. apply orb_false_iff in H as [H1 H2].
    rewrite (ascii_eqb_false_sym _ _ H1). rewrite (IH H2). reflexivity.
Qed.

(** What [partition] returns is a cut of its argument at the first [c]. *)
Lemma partition_spec (c : ascii) (s a b : str) (found : bool) :
  partition c s = (a, found, b) ->
  char_in c a = false
  /\ (if found then s = a ++ c :: b else s = a /\ b = []).
Proof.
  revert a b found. induction s as [|d s IH]; simpl; intros a b found H.
  - inversion H; subst. auto.
  - destruct (Ascii.eqb d c) eqn:E.
    + inversion H; subst. apply Ascii.eqb_eq in E. subst. auto.
    + destruct (partition c s) as [[a' f'] b'] eqn:Ep.
      inversion H; subst. destruct (IH _ _ _ eq_refl) as [H1 H2].
      split.
      * unfold char_in in *. simpl. rewrite (ascii_eqb_false_sym _ _ E).
        exact H1.
      * destruct found.
        -- rewrite H2. reflexivity.
        -- destruct H2 as [-> ->]. auto.
Qed.

Lemma lstrip_id (s : str) :
  match s with c :: _ => isspace c = false | [] => True end ->
  lstrip s = s.
Proof. destruct s as [|c s]; simpl; [reflexivity|]. intros ->. reflexivity. Qed.

Lemma rstrip_id (s : str) (c : ascii) :
  isspace c = false -> rstrip (s ++ [c]) = s ++ [c].
Proof.
  intros H. unfold rstrip. rewrite rev_app_distr. simpl. rewrite H.
  simpl. rewrite rev_involutive. reflexivity.
Qed.

(** Stripping changes nothing when both ends are not white space. *)
Lemma strip_id (c d : ascii) (s : str) :
  isspace c = false -> isspace d = false ->
  strip (c :: s ++ [d]) = c :: s ++ [d].
Proof.
  intros Hc Hd. unfold strip. simpl. rewrite Hc.
  apply (rstrip_id (c :: s) d Hd).
Qed.

Lemma strip_single (c : ascii) :
  isspace c = false -> strip [c] = [c].
Proof. intros Hc. unfold strip, rstrip. simpl. rewrite Hc. simpl. rewrite Hc. reflexivity. Qed.

Lemma lstrip_idem (s : str) : lstrip (lstrip s) = lstrip s.
Proof.
  induction s as [|c s IH]; simpl; [reflexivity|].
  destruct (isspace c) eqn:E; [exact IH|]. simpl. rewrite E. reflexivity.
Qed.

End StringFacts.

(** * Facts about the result type *)

Section ResultFacts.

Lemma rbind_ok {A B} (r : result A) (k : A -> result B) (b : B) :
  rbind r k = Ok b -> exists a, r = Ok a /\ k a = Ok b.
Proof. destruct r as [a|e]; simpl; [eauto | discriminate]. Qed.

Lemma rbind_raise {A B} (r : result A) (k : A -> result B) (e : exn) :
  rbind r k = Raise e ->
  r = Raise e \/ exists a, r = Ok a /\ k a = Raise e.
Proof. destruct r as [a|e']; simpl; [eauto | intros [= ->]; auto]. Qed.

Lemma map_result_ok {A B} (f : A -> result B) (l : list A) (ys : list B) :
  map_result f l = Ok ys -> Forall2 (fun x y => f x = Ok y) l ys.
Proof.
  revert ys. induction l as [|x l IH]; simpl; intros ys H.
  - inversion H. constructor.
  - destruct (f x) as [y|e] eqn:E; [|discriminate].
    destruct (map_result f l) as [ys'|e]; [|discriminate].
    inversion H; subst. constructor; auto.
Qed.

Lemma map_result_raise {A B} (f : A -> result B) (l : list A) (e : exn) :
  map_result f l = Raise e -> exists x, In x l /\ f x = Raise e.
Proof.
  induction l as [|x l IH]; simpl; [discriminate|].
  destruct (f x) as [y|e'] eqn:E.
  - destruct (map_result f l) as [ys'|e'']; [discriminate|].
    intros [= ->]. destruct (IH eq_refl) as [x' [H1 H2]]. eauto.
  - intros [= ->]. eauto.
Qed.

Lemma map_result_map {A B} (f : A -> result B) (g : B -> A) (ys : list B) :
  Forall (fun y => f (g y) = Ok y) ys ->
  map_result f (map g ys) = Ok ys.
Proof.
  induction 1 as [|y ys Hy _ IH]; simpl; [reflexivity|].
  rewrite Hy, IH. reflexivity.
Qed.

(** When some element fails and every failure is [e], the comprehension
    raises [e]. *)
Lemma map_result_fails {A B} (f : A -> result B) (l : list A) (e : exn) :
  (forall x e', f x = Raise e' -> e' = e) ->
  (exists x, In x l /\ f x = Raise e) ->
  map_result f l = Raise e.
Proof.
  intros Honly. induction l as [|x l IH]; intros [x0 [Hin Hx0]].
  - destruct Hin.
  - simpl. destruct (f x) as [y|e'] eqn:E.
    + destruct Hin as [->|Hin]; [congruence|].
      rewrite IH by eauto. reflexivity.
    + apply Honly in E. congruence.
Qed.

(** When some element fails, the comprehension raises. *)
Lemma map_result_some_fails {A B} (f : A -> result B) (l : list A) :
  (exists x, In x l /\ exists e, f x = Raise e) ->
  exists e, map_result f l = Raise e.
Proof.
  induction l as [|x l IH]; intros [x0 [Hin [e He]]]; [destruct Hin|].
  cbn [map_result]. destruct (f x) as [y|e'] eqn:E; [|eauto].
  destruct Hin as [->|Hin]; [congruence|].
  destruct IH as [e1 ->]; eauto.
Qed.

End ResultFacts.

(** * Numbers and their digits *)

Section Numbers.

Lemma range_In (a b x : Z) : a <= x < b -> In x (range a b).
Proof.
  intros H. unfold range. apply in_map_iff.
  exists (Z.to_nat (x - a)). split; [lia|].
  apply in_seq. lia.
Qed.

Lemma holds_from_spec (f : Z -> bool) (n : nat) :
  forall a, holds_from f a n = true ->
  forall x, a <= x < a + Z.of_nat n -> f x = true.
Proof.
  induction n as [|n IH]; intros a H x Hx; [lia|].
  simpl in H. apply andb_true_iff in H as [H1 H2].
  destruct (Z.eq_dec x a) as [->|Hne]; [assumption|].
  apply (IH (a + 1) H2). lia.
Qed.

Lemma holds_below (f : Z -> bool) (n : Z) :
  holds_from f 0 (Z.to_nat n) = true ->
  forall x, 0 <= x < n -> f x = true.
Proof.
  intros H x Hx. apply (holds_from_spec _ _ _ H). lia.
Qed.

Lemma all_chars_In (c : ascii) : In c all_chars.
Proof.
  unfold all_chars. apply in_map_iff. exists (nat_of_ascii c).
  split; [apply ascii_nat_embedding|].
  apply in_seq. pose proof (nat_ascii_bounded c). lia.
Qed.

Lemma char_forall (f : ascii -> bool) :
  forallb f all_chars = true -> forall c, f c = true.
Proof. intros H c. rewrite forallb_forall in H. apply H, all_chars_In. Qed.

(** A hexadecimal digit is none of the characters that structure an
    address, and is not white space. *)
Lemma hex_digit_plain (c : ascii) :
  is_hex_digit c = true ->
  c <> ":"%char /\ c <> "."%char /\ c <> "%"%char /\ c <> "/"%char
  /\ isspace c = false.
Proof.
  revert c.
  assert (H : forall c,
             (negb (is_hex_digit c)
              || (negb (Ascii.eqb c ":") && negb (Ascii.eqb c ".")
                  && negb (Ascii.eqb c "%") && negb (Ascii.eqb c "/")
                  && negb (isspace c))) = true).
  { apply char_forall. vm_compute. reflexivity. }
  intros c Hc. specialize (H c). rewrite Hc in H. simpl in H.
  repeat (apply andb_true_iff in H as [H ?]).
  repeat match goal with
         | X : negb _ = true |- _ => apply negb_true_iff in X
         end.
  repeat split; try (intros ->; discriminate). assumption.
Qed.

Lemma digit_is_hex (c : ascii) : is_digit c = true -> is_hex_digit c = true.
Proof.
  revert c.
  assert (H : forall c, (negb (is_digit c) || is_hex_digit c) = true).
  { apply char_forall. vm_compute. reflexivity. }
  intros c Hc. specialize (H c). rewrite Hc in H. exact H.
Qed.

Lemma hex_digits_no (d : ascii) (s : str) :
  is_hex_digit d = false -> forallb is_hex_digit s = true ->
  char_in d s = false.
Proof.
  intros Hd Hs. apply char_in_false_forall.
  rewrite forallb_forall in Hs. apply Forall_forall.
  intros c Hc ->. apply Hs in Hc. congruence.
Qed.

(** *** Hexadecimal digits *)

Lemma nibbles_ok : holds_from nibble_ok 0 (Z.to_nat 16) = true.
Proof. vm_compute. reflexivity. Qed.

Lemma hex_value_digit_char (d : Z) :
  0 <= d < 16 -> hex_value (digit_char d) = Some d.
Proof.
  intros Hd. pose proof (holds_below _ _ nibbles_ok d Hd) as H.
  unfold nibble_ok in H.
  destruct (hex_value (digit_char d)) as [v|]; [|discriminate].
  apply Z.eqb_eq in H. congruence.
Qed.

Lemma is_hex_digit_char (d : Z) :
  0 <= d < 16 -> is_hex_digit (digit_char d) = true.
Proof.
  intros Hd. unfold is_hex_digit. rewrite hex_value_digit_char by assumption.
  reflexivity.
Qed.

Lemma len_cons {A} (x : A) (l : list A) : len (x :: l) = len l + 1.
Proof. unfold len. cbn [List.length]. lia. Qed.

Lemma len_nonneg {A} (l : list A) : 0 <= len l.
Proof. unfold len. lia. Qed.

Lemma len_app {A} (l l' : list A) : len (l ++ l') = len l + len l'.
Proof. unfold len. rewrite List.length_app. lia. Qed.

Lemma int_of_fold (base : Z) (s : str) (a : Z) :
  fold_left (fun acc c => acc * base + digit_value c) s a
  = a * base ^ len s + int_of base s.
Proof.
  revert a. induction s as [|c s IH]; intros a.
  - change (len (@nil ascii)) with 0. change (int_of base []) with 0.
    cbn [fold_left]. rewrite Z.pow_0_r. lia.
  - assert (E : int_of base (c :: s)
                = fold_left (fun acc c => acc * base + digit_value c) s
                    (0 * base + digit_value c)) by reflexivity.
    rewrite E. cbn [fold_left].
    rewrite (IH (a * base + digit_value c)).
    rewrite (IH (0 * base + digit_value c)).
    rewrite len_cons, Z.pow_add_r by (pose proof (len_nonneg s); lia).
    ring.
Qed.

Lemma int_of_cons (base : Z) (c : ascii) (s : str) :
  int_of base (c :: s) = digit_value c * base ^ len s + int_of base s.
Proof.
  change (int_of base (c :: s))
    with (fold_left (fun acc c => acc * base + digit_value c) s
            (0 * base + digit_value c)).
  rewrite int_of_fold. ring.
Qed.

(** The digits [digits_loop] puts in front of [acc] are those of [n]. *)
Lemma digits_loop_value (fuel : nat) :
  forall n acc,
    0 <= n < 2 ^ (Z.of_nat fuel + 1) ->
    int_of 16 (digits_loop 16 fuel n acc)
    = n * 16 ^ len acc + int_of 16 acc.
Proof.
  induction fuel as [|fuel IH]; intros n acc Hn.
  - simpl in *. rewrite int_of_cons. unfold digit_value.
    rewrite Z.mod_small by lia.
    rewrite hex_value_digit_char by lia. reflexivity.
  - cbn [digits_loop].
    assert (Hm : 0 <= n mod 16 < 16) by (apply Z.mod_pos_bound; lia).
    destruct (n / 16 =? 0) eqn:E.
    + apply Z.eqb_eq in E. rewrite int_of_cons. unfold digit_value.
      rewrite hex_value_digit_char by assumption.
      pose proof (Z.div_mod n 16 ltac:(lia)). rewrite E in H.
      replace (n mod 16) with n by lia. reflexivity.
    + rewrite IH.
      * rewrite int_of_cons, len_cons. unfold digit_value.
        rewrite hex_value_digit_char by assumption.
        rewrite Z.pow_add_r by (pose proof (len_nonneg acc); lia).
        pose proof (Z.div_mod n 16 ltac:(lia)) as Hdm.
        rewrite Hdm at 3. ring.
      * split; [apply Z.div_pos; lia|].
        apply Z.div_lt_upper_bound; [lia|].
        replace (Z.of_nat (S fuel) + 1) with (Z.of_nat fuel + 1 + 1) in Hn by lia.
        rewrite Z.pow_add_r in Hn by lia. lia.
Qed.

Lemma digits_loop_hex (fuel : nat) :
  forall n acc,
    0 <= n -> forallb is_hex_digit acc = true ->
    forallb is_hex_digit (digits_loop 16 fuel n acc) = true.
Proof.
  induction fuel as [|fuel IH]; intros n acc Hn Hacc;
    assert (Hm : 0 <= n mod 16 < 16) by (apply Z.mod_pos_bound; lia).
  - simpl. rewrite is_hex_digit_char by assumption. exact Hacc.
  - cbn [digits_loop]. destruct (n / 16 =? 0).
    + simpl. rewrite is_hex_digit_char by assumption. exact Hacc.
    + apply IH; [apply Z.div_pos; lia|].
      simpl. rewrite is_hex_digit_char by assumption. exact Hacc.
Qed.

Lemma digits_loop_len (fuel : nat) :
  forall n acc k,
    0 <= n < 16 ^ k -> 1 <= k ->
    len (digits_loop 16 fuel n acc) <= k + len acc.
Proof.
  induction fuel as [|fuel IH]; intros n acc k Hn Hk.
  - simpl. rewrite len_cons. lia.
  - cbn [digits_loop]. destruct (n / 16 =? 0) eqn:E.
    + rewrite len_cons. lia.
    + apply Z.eqb_neq in E.
      assert (Hq : 0 <= n / 16) by (apply Z.div_pos; lia).
      assert (Hk2 : 2 <= k).
      { destruct (Z.eq_dec k 1) as [->|]; [|lia].
        exfalso. apply E. apply Z.div_small. lia. }
      specialize (IH (n / 16) (digit_char (n mod 16) :: acc) (k - 1)).
      rewrite len_cons in IH.
      assert (n / 16 < 16 ^ (k - 1)).
      { apply Z.div_lt_upper_bound; [lia|].
        rewrite <- Z.pow_succ_r by lia.
        replace (Z.succ (k - 1)) with k by lia. lia. }
      lia.
Qed.

Lemma digits_loop_nonempty (base : Z) (fuel : nat) (n : Z) (acc : str) :
  digits_loop base fuel n acc <> [].
Proof.
  revert n acc. induction fuel as [|fuel IH]; intros n acc; simpl.
  - congruence.
  - destruct (n / base =? 0); [congruence | apply IH].
Qed.

Lemma format_x_value (h : Z) : 0 <= h -> int_of 16 (format_x h) = h.
Proof.
  intros Hh. unfold format_x. rewrite digits_loop_value.
  - unfold len, int_of. simpl. lia.
  - destruct (Z.eq_dec h 0) as [->|Hne]; [simpl; lia|].
    rewrite Z2Nat.id by apply Z.log2_nonneg.
    pose proof (Z.log2_spec h ltac:(lia)) as Hs.
    rewrite <- Z.add_1_r in Hs. lia.
Qed.

(** ['%x' % h] for a 16-bit [h]: it reads back as [h], is not empty, is
    made of hexadecimal digits, and is ["0"] only for [h = 0]. *)
Lemma format_x_hextet (h : Z) :
  0 <= h < 65536 ->
  _BaseV6._parse_hextet (format_x h) = Ok h
  /\ format_x h <> []
  /\ forallb is_hex_digit (format_x h) = true
  /\ str_eqb (format_x h) (lit "0") = (h =? 0).
Proof.
  intros Hh.
  assert (Hhex : forallb is_hex_digit (format_x h) = true)
    by (apply digits_loop_hex; [lia | reflexivity]).
  assert (Hne : format_x h <> []) by apply digits_loop_nonempty.
  assert (Hlen : len (format_x h) <= 4).
  { pose proof (digits_loop_len (Z.to_nat (Z.log2 h)) h [] 4) as H.
    unfold len at 2 in H. simpl in H. unfold format_x. lia. }
  repeat split; auto.
  - unfold _BaseV6._parse_hextet. rewrite Hhex. simpl.
    destruct (len (format_x h) >? 4) eqn:E; [lia|].
    destruct (format_x h) eqn:E'; [congruence|]. simpl.
    rewrite <- E'. rewrite format_x_value by lia. reflexivity.
  - destruct (h =? 0) eqn:E.
    + apply Z.eqb_eq in E. subst. reflexivity.
    + apply Z.eqb_neq in E.
      destruct (str_eqb (format_x h) (lit "0")) eqn:E'; [|reflexivity].
      apply str_eqb_eq in E'. exfalso. apply E.
      rewrite <- (format_x_value h) by lia. rewrite E'. reflexivity.
Qed.

Lemma octets_ok : holds_from octet_ok 0 (Z.to_nat 256) = true.
Proof. vm_compute. reflexivity. Qed.

Lemma format_d_octet (b : Z) :
  0 <= b < 256 ->
  _BaseV4._parse_octet (format_d b) = Ok b
  /\ format_d b <> []
  /\ forallb is_digit (format_d b) = true.
Proof.
  intros Hb.
  assert (H : octet_ok b = true)
    by (apply (holds_below _ _ octets_ok); lia).
  unfold octet_ok in H.
  apply andb_true_iff in H as [H H3].
  apply andb_true_iff in H as [H H2].
  destruct (_BaseV4._parse_octet (format_d b)) as [v|]; [|discriminate].
  apply Z.eqb_eq in H. subst v.
  repeat split; auto.
  destruct (format_d b); [discriminate | congruence].
Qed.

Lemma prefixes_ok : holds_from prefix_ok 0 (Z.to_nat 129) = true.
Proof. vm_compute. reflexivity. Qed.

Lemma format_d_prefix (v : ip_version) (p : Z) :
  0 <= p <= _max_prefixlen v ->
  _prefix_from_prefix_string v (format_d p) = Ok p
  /\ forallb is_digit (format_d p) = true
  /\ exists s c, format_d p = s ++ [c] /\ is_digit c = true.
Proof.
  intros Hp.
  assert (Hr : 0 <= p < 129) by (destruct v; simpl in Hp; lia).
  assert (H : prefix_ok p = true)
    by (apply (holds_below _ _ prefixes_ok); lia).
  unfold prefix_ok in H.
  apply andb_true_iff in H as [H H1].
  apply andb_true_iff in H as [H H0].
  apply Z.eqb_eq in H0.
  split; [|split].
  - unfold _prefix_from_prefix_string. rewrite H, H0. simpl.
    destruct (0 <=? p) eqn:E1; [|lia].
    destruct (p <=? _max_prefixlen v) eqn:E2; [|lia]. reflexivity.
  - unfold isascii_isdigit in H. apply andb_true_iff in H as [_ H]. exact H.
  - destruct (rev (format_d p)) as [|c r] eqn:E; [discriminate|].
    exists (rev r), c. split; [|assumption].
    rewrite <- (rev_involutive (format_d p)), E. reflexivity.
Qed.

End Numbers.

(** * Bit arithmetic *)

Section Bits.

Lemma testbit_small (h k n : Z) :
  0 <= h < 2 ^ k -> k <= n -> Z.testbit h n = false.
Proof.
  intros Hh Hn. destruct (Z.eq_dec h 0) as [->|Hne].
  - apply Z.testbit_0_l.
  - apply Z.bits_above_log2; [lia|].
    assert (0 <= k).
    { destruct (Z.lt_ge_cases k 0) as [Hk|]; [|assumption].
      rewrite Z.pow_neg_r in Hh by assumption. lia. }
    assert (Z.log2 h < k) by (apply Z.log2_lt_pow2; lia). lia.
Qed.

(** [(x << k) | h] is [x * 2^k + h] when [h] fits in [k] bits. *)
Lemma lor_shiftl_add (k x h : Z) :
  0 <= k -> 0 <= h < 2 ^ k ->
  Z.lor (Z.shiftl x k) h = x * 2 ^ k + h.
Proof.
  intros Hk Hh.
  assert (Hland : Z.land (Z.shiftl x k) h = 0).
  { apply Z.bits_inj'. intros n Hn.
    rewrite Z.land_spec, Z.testbit_0_l.
    destruct (Z.lt_ge_cases n k) as [Hlt|Hge].
    - rewrite Z.shiftl_spec_low by assumption. reflexivity.
    - rewrite (testbit_small h k n) by assumption. apply andb_false_r. }
  rewrite <- Z.lxor_lor by assumption.
  rewrite <- Z.add_nocarry_lxor by assumption.
  rewrite Z.shiftl_mul_pow2 by assumption. reflexivity.
Qed.

Lemma ALL_ONES_ones (v : ip_version) : _ALL_ONES v = Z.ones (_max_prefixlen v).
Proof. unfold _ALL_ONES. rewrite Z.ones_equiv. lia. Qed.

Lemma max_prefixlen_pos (v : ip_version) : 0 < _max_prefixlen v.
Proof. destruct v; simpl; lia. Qed.

(** The netmask of length [p] has exactly the [p] highest bits set. *)
Lemma netmask_testbit (v : ip_version) (p i : Z) :
  0 <= p <= _max_prefixlen v -> 0 <= i ->
  Z.testbit (_ip_int_from_prefix v p) i
  = (_max_prefixlen v - p <=? i) && (i <? _max_prefixlen v).
Proof.
  intros Hp Hi. unfold _ip_int_from_prefix.
  pose proof (max_prefixlen_pos v) as Hm.
  rewrite Z.lxor_spec, Z.shiftr_spec by assumption.
  rewrite ALL_ONES_ones.
  rewrite !Z.testbit_ones_nonneg by lia.
  destruct (i <? _max_prefixlen v) eqn:E1;
    destruct (i + p <? _max_prefixlen v) eqn:E2;
    destruct (_max_prefixlen v - p <=? i) eqn:E3; simpl; try reflexivity; lia.
Qed.

(** Masking an address keeps its bits above the host bits. *)
Lemma land_netmask (v : ip_version) (p x : Z) :
  0 <= p <= _max_prefixlen v -> 0 <= x <= _ALL_ONES v ->
  Z.land x (_ip_int_from_prefix v p)
  = Z.shiftl (Z.shiftr x (_max_prefixlen v - p)) (_max_prefixlen v - p).
Proof.
  intros Hp Hx. apply Z.bits_inj'. intros i Hi.
  rewrite Z.land_spec, netmask_testbit by assumption.
  unfold _ALL_ONES in Hx.
  destruct (Z.lt_ge_cases i (_max_prefixlen v - p)) as [Hlt|Hge].
  - rewrite Z.shiftl_spec_low by assumption.
    destruct (_max_prefixlen v - p <=? i) eqn:E; [lia|].
    simpl. apply andb_false_r.
  - rewrite Z.shiftl_spec, Z.shiftr_spec by lia.
    replace (i - (_max_prefixlen v - p) + (_max_prefixlen v - p)) with i by lia.
    destruct (_max_prefixlen v - p <=? i) eqn:E; [|lia]. simpl.
    destruct (i <? _max_prefixlen v) eqn:E2; [apply andb_true_r|].
    rewrite (testbit_small x (_max_prefixlen v) i) by lia. reflexivity.
Qed.

Lemma netmask_range (v : ip_version) (p : Z) :
  0 <= p <= _max_prefixlen v ->
  0 <= _ip_int_from_prefix v p <= _ALL_ONES v.
Proof.
  intros Hp. pose proof (max_prefixlen_pos v) as Hm.
  assert (H : _ip_int_from_prefix v p
              = Z.land (_ALL_ONES v) (_ip_int_from_prefix v p)).
  { apply Z.bits_inj'. intros i Hi.
    rewrite Z.land_spec, netmask_testbit, ALL_ONES_ones by assumption.
    rewrite Z.testbit_ones_nonneg by lia.
    destruct (i <? _max_prefixlen v); simpl;
      [reflexivity | apply andb_false_r]. }
  rewrite H, ALL_ONES_ones, Z.land_comm, Z.land_ones by lia.
  rewrite Z.ones_equiv.
  pose proof (Z.mod_pos_bound (_ip_int_from_prefix v p)
                (2 ^ _max_prefixlen v) ltac:(lia)). lia.
Qed.

Lemma netmask_full (v : ip_version) :
  _ip_int_from_prefix v (_max_prefixlen v) = _ALL_ONES v.
Proof. destruct v; reflexivity. Qed.

Lemma land_all_ones (v : ip_version) (x : Z) :
  0 <= x <= _ALL_ONES v -> Z.land x (_ALL_ONES v) = x.
Proof.
  intros Hx. pose proof (max_prefixlen_pos v).
  rewrite ALL_ONES_ones, Z.land_ones by lia.
  unfold _ALL_ONES in Hx. apply Z.mod_small. lia.
Qed.

Lemma bit_length_nonneg (x : Z) : 0 <= bit_length x.
Proof.
  unfold bit_length. destruct (x =? 0); [lia|].
  pose proof (Z.log2_nonneg (Z.abs x)). lia.
Qed.

End Bits.

(** * Which exceptions the constructors raise *)

Section Raises.

Ltac break_if :=
  repeat match goal with
         | |- context [if ?b then _ else _] => destruct b
         end.

Lemma parse_octet_raises (s : str) (e : exn) :
  _BaseV4._parse_octet s = Raise e -> e = ValueError.
Proof. unfold _BaseV4._parse_octet. break_if; congruence. Qed.

Lemma v4_ip_int_raises (s : str) (e : exn) :
  _BaseV4._ip_int_from_string s = Raise e -> e = AddressValueError.
Proof.
  unfold _BaseV4._ip_int_from_string.
  destruct (null s); [congruence|].
  destruct (negb (len (split "." s) =? 4)); [congruence|].
  destruct (map_result _BaseV4._parse_octet (split "." s)) as [bs|e0] eqn:E;
    simpl; [discriminate|].
  apply map_result_raise in E as [x [_ Hx]].
  apply parse_octet_raises in Hx. subst e0. simpl. congruence.
Qed.

Lemma IPv4Address_raises (s : str) (e : exn) :
  IPv4Address s = Raise e -> e = AddressValueError.
Proof.
  unfold IPv4Address. destruct (char_in "/" s); [congruence|].
  destruct (_BaseV4._ip_int_from_string s) eqn:E; simpl; [discriminate|].
  intros [= <-]. eapply v4_ip_int_raises, E.
Qed.

Lemma parse_hextet_raises (s : str) (e : exn) :
  _BaseV6._parse_hextet s = Raise e -> e = ValueError.
Proof. unfold _BaseV6._parse_hextet. break_if; congruence. Qed.

Lemma fold_raise {A B} (f : result A -> B -> result A) (l : list B) (e : exn) :
  (forall b, f (Raise e) b = Raise e) ->
  fold_left f l (Raise e) = Raise e.
Proof.
  intros Hf. induction l as [|b l IH]; simpl; [reflexivity|].
  rewrite Hf. exact IH.
Qed.

Lemma parse_parts_nil (parts : list str) (ip : Z) :
  _BaseV6.parse_parts parts [] ip = Ok ip.
Proof. reflexivity. Qed.

Lemma parse_parts_cons (parts : list str) (i : Z) (idx : list Z) (ip : Z) :
  _BaseV6.parse_parts parts (i :: idx) ip
  = rbind (_BaseV6._parse_hextet (getitem parts i))
      (fun h => _BaseV6.parse_parts parts idx (Z.lor (Z.shiftl ip 16) h)).
Proof.
  unfold _BaseV6.parse_parts. simpl.
  destruct (_BaseV6._parse_hextet (getitem parts i)) as [h|e]; simpl.
  - reflexivity.
  - apply fold_raise. reflexivity.
Qed.

Lemma parse_parts_raises (parts : list str) (idx : list Z) :
  forall ip e, _BaseV6.parse_parts parts idx ip = Raise e -> e = ValueError.
Proof.
  induction idx as [|i idx IH]; intros ip e.
  - rewrite parse_parts_nil. discriminate.
  - rewrite parse_parts_cons. intros H.
    apply rbind_raise in H as [H|[h [_ H]]].
    + eapply parse_hextet_raises, H.
    + eapply IH, H.
Qed.

Lemma find_skip_index_loop (parts : list str) :
  _BaseV6.find_skip_index parts
  = skip_loop parts (range 1 (len parts - 1)) (Ok None).
Proof. reflexivity. Qed.

Lemma skip_loop_raise (parts : list str) (idx : list Z) (e : exn) :
  skip_loop parts idx (Raise e) = Raise e.
Proof. apply fold_raise. reflexivity. Qed.

Lemma skip_loop_cons (parts : list str) (i : Z) (idx : list Z)
    (acc : option Z) :
  skip_loop parts (i :: idx) (Ok acc)
  = skip_loop parts idx
      (if null (getitem parts i) then
         match acc with
         | Some _ => Raise AddressValueError
         | None => Ok (Some i)
         end
       else Ok acc).
Proof. reflexivity. Qed.

Lemma skip_loop_spec (parts : list str) (idx : list Z) :
  forall acc,
    match skip_loop parts idx (Ok acc) with
    | Raise e => e = AddressValueError
    | Ok None => acc = None
    | Ok (Some i) => acc = Some i \/ In i idx
    end.
Proof.
  induction idx as [|i idx IH]; intros acc.
  - simpl. destruct acc; auto.
  - rewrite skip_loop_cons.
    destruct (null (getitem parts i)).
    + destruct acc as [j|].
      * rewrite skip_loop_raise. reflexivity.
      * specialize (IH (Some i)).
        destruct (skip_loop parts idx (Ok (Some i))) as [[k|]|e]; auto;
          try discriminate.
        destruct IH as [[= ->]|IH]; simpl; auto.
    + specialize (IH acc).
      destruct (skip_loop parts idx (Ok acc)) as [[k|]|e]; auto.
      destruct IH; simpl; auto.
Qed.

Lemma find_skip_index_raises (parts : list str) (e : exn) :
  _BaseV6.find_skip_index parts = Raise e -> e = AddressValueError.
Proof.
  rewrite find_skip_index_loop.
  pose proof (skip_loop_spec parts (range 1 (len parts - 1)) None) as H.
  intros E. rewrite E in H. exact H.
Qed.

Lemma range_bounds (a b i : Z) : In i (range a b) -> a <= i < b.
Proof.
  unfold range. intros H. apply in_map_iff in H as [k [<- Hk]].
  apply in_seq in Hk. lia.
Qed.

Lemma find_skip_index_some (parts : list str) (i : Z) :
  _BaseV6.find_skip_index parts = Ok (Some i) -> 1 <= i < len parts - 1.
Proof.
  rewrite find_skip_index_loop.
  pose proof (skip_loop_spec parts (range 1 (len parts - 1)) None) as H.
  intros E. rewrite E in H. destruct H as [H|H]; [discriminate|].
  apply range_bounds, H.
Qed.

Lemma layout_raises (parts : list str) (sk : option Z) (e : exn) :
  _BaseV6.layout parts sk = Raise e -> e = AddressValueError.
Proof.
  unfold _BaseV6.layout. destruct sk as [i|]; simpl.
  - break_if; simpl; break_if; simpl; break_if; congruence.
  - break_if; congruence.
Qed.

Lemma Ok_inj3 {A B C} (a a' : A) (b b' : B) (c c' : C) :
  Ok (a, b, c) = Ok (a', b', c') -> a = a' /\ b = b' /\ c = c'.
Proof. intros H. inversion H. auto. Qed.

(** The three counts add up to the eight hextets. *)
Lemma layout_ok (parts : list str) (sk : option Z) (hi lo skipped : Z) :
  match sk with Some i => 1 <= i < len parts - 1 | None => True end ->
  _BaseV6.layout parts sk = Ok (hi, lo, skipped) ->
  0 <= hi /\ 0 <= lo /\ 0 <= skipped /\ hi + lo + skipped = 8.
Proof.
  unfold _BaseV6.layout, _BaseV6._HEXTET_COUNT. destruct sk as [i|]; intros Hi.
  - destruct (null (getitem parts 0)); destruct (null (getitem parts (-1)));
      cbn [rbind negb];
      repeat match goal with
             | |- context [if negb (?a =? ?b) then _ else _] =>
                 destruct (Z.eqb_spec a b); cbn [rbind negb]
             | |- context [if ?a <? ?b then _ else _] =>
                 destruct (Z.ltb_spec a b); cbn [rbind negb]
             end;
      try discriminate; intros E; apply Ok_inj3 in E as (<- & <- & <-); lia.
  - destruct (Z.eqb_spec (len parts) 8); cbn [negb]; [|discriminate].
    break_if; try discriminate.
    intros E; apply Ok_inj3 in E as (<- & <- & <-). lia.
Qed.

Lemma v6_ip_int_raises (s : str) (e : exn) :
  _BaseV6._ip_int_from_string s = Raise e -> e = AddressValueError.
Proof.
  unfold _BaseV6._ip_int_from_string.
  destruct (null s); [congruence|].
  destruct (len (split ":" s) <? 3); [congruence|].
  intros H. apply rbind_raise in H as [H|[parts [_ H]]].
  - destruct (char_in "." (getitem (split ":" s) (-1))); [|discriminate].
    apply rbind_raise in H as [H|[a [_ H]]]; [|discriminate].
    destruct (IPv4Address (getitem (split ":" s) (-1))) as [a|e0] eqn:E;
      simpl in H; [discriminate|].
    apply IPv4Address_raises in E. subst e0. simpl in H. congruence.
  - destruct (len parts >? _BaseV6._HEXTET_COUNT + 1); [congruence|].
    apply rbind_raise in H as [H|[sk [_ H]]].
    { eapply find_skip_index_raises, H. }
    apply rbind_raise in H as [H|[[[hi lo] skipped] [_ H]]].
    { eapply layout_raises, H. }
    match type of H with try_except ?r _ _ = _ => destruct r as [ip|e0] eqn:E end;
      simpl in H; [discriminate|].
    assert (e0 = ValueError).
    { apply rbind_raise in E as [E|[ip [_ E]]];
        eapply parse_parts_raises, E. }
    subst e0. simpl in H. congruence.
Qed.

Lemma split_scope_id_raises (s : str) (e : exn) :
  _BaseV6._split_scope_id s = Raise e -> e = AddressValueError.
Proof.
  unfold _BaseV6._split_scope_id.
  destruct (partition "%" s) as [[a found] b].
  break_if; congruence.
Qed.

Lemma IPv6Address_raises (s : str) (e : exn) :
  IPv6Address s = Raise e -> e = AddressValueError.
Proof.
  unfold IPv6Address. destruct (char_in "/" s); [congruence|].
  intros H. apply rbind_raise in H as [H|[[addr sc] [_ H]]].
  - eapply split_scope_id_raises, H.
  - apply rbind_raise in H as [H|[ip [_ H]]]; [|discriminate].
    eapply v6_ip_int_raises, H.
Qed.

(** [ip_address] raises nothing but [ValueError]. *)
Lemma ip_address_raises (s : str) (e : exn) :
  ip_address s = Raise e -> e = ValueError.
Proof.
  unfold ip_address.
  destruct (IPv4Address s) as [a|e4] eqn:E4; simpl; [discriminate|].
  apply IPv4Address_raises in E4. subst e4. simpl.
  destruct (IPv6Address s) as [a|e6] eqn:E6; simpl; [discriminate|].
  apply IPv6Address_raises in E6. subst e6. simpl. congruence.
Qed.

Lemma prefix_from_prefix_string_raises (v : ip_version) (s : str) (e : exn) :
  _prefix_from_prefix_string v s = Raise e -> e = NetmaskValueError.
Proof. unfold _prefix_from_prefix_string. break_if; congruence. Qed.

Lemma prefix_from_ip_int_raises (v : ip_version) (x : Z) (e : exn) :
  _prefix_from_ip_int v x = Raise e -> e = ValueError.
Proof. unfold _prefix_from_ip_int. break_if; congruence. Qed.

Lemma prefix_from_ip_string_raises (s : str) (e : exn) :
  _BaseV4._prefix_from_ip_string s = Raise e -> e = NetmaskValueError.
Proof.
  unfold _BaseV4._prefix_from_ip_string. intros H.
  apply rbind_raise in H as [H|[ip [_ H]]].
  - destruct (_BaseV4._ip_int_from_string s) as [ip|e0] eqn:E; simpl in H;
      [discriminate|].
    apply v4_ip_int_raises in E. subst e0. simpl in H. congruence.
  - destruct (_prefix_from_ip_int V4 ip) as [p|e0] eqn:E; simpl in H;
      [discriminate|].
    apply prefix_from_ip_int_raises in E. subst e0. simpl in H.
    destruct (_prefix_from_ip_int V4 (Z.lxor ip (_ALL_ONES V4)))
      as [p|e1] eqn:E1; simpl in H; [discriminate|].
    apply prefix_from_ip_int_raises in E1. subst e1. simpl in H. congruence.
Qed.

Lemma v4_make_netmask_raises (arg : mask_arg) (e : exn) :
  _BaseV4._make_netmask arg = Raise e -> e = NetmaskValueError.
Proof.
  unfold _BaseV4._make_netmask. intros H.
  apply rbind_raise in H as [H|[p [_ H]]]; [|discriminate].
  destruct arg as [s|n].
  - destruct (_prefix_from_prefix_string V4 s) as [p|e0] eqn:E; simpl in H;
      [discriminate|].
    apply prefix_from_prefix_string_raises in E. subst e0. simpl in H.
    eapply prefix_from_ip_string_raises, H.
  - revert H. break_if; congruence.
Qed.

Lemma v6_make_netmask_raises (arg : mask_arg) (e : exn) :
  _BaseV6._make_netmask arg = Raise e -> e = NetmaskValueError.
Proof.
  unfold _BaseV6._make_netmask. intros H.
  apply rbind_raise in H as [H|[p [_ H]]]; [|discriminate].
  destruct arg as [s|n].
  - eapply prefix_from_prefix_string_raises, H.
  - revert H. break_if; congruence.
Qed.

Lemma split_addr_prefix_raises (v : ip_version) (s : str) (e : exn) :
  _split_addr_prefix v s = Raise e -> e = AddressValueError.
Proof.
  unfold _split_addr_prefix, _split_optional_netmask.
  destruct (len (split "/" s) >? 2); simpl; [congruence|].
  destruct (split "/" s) as [|a [|m [|x l]]]; discriminate.
Qed.

Lemma IPv4Network_raises (s : str) (e : exn) :
  IPv4Network s = Raise e -> is_ValueError e = true.
Proof.
  unfold IPv4Network. intros H.
  apply rbind_raise in H as [H|[[addr mask] [_ H]]].
  { apply split_addr_prefix_raises in H. subst. reflexivity. }
  apply rbind_raise in H as [H|[a [_ H]]].
  { apply IPv4Address_raises in H. subst. reflexivity. }
  apply rbind_raise in H as [H|[[m p] [_ H]]].
  { apply v4_make_netmask_raises in H. subst. reflexivity. }
  revert H. break_if; [intros [= <-]; reflexivity | discriminate].
Qed.

Lemma IPv6Network_raises (s : str) (e : exn) :
  IPv6Network s = Raise e -> is_ValueError e = true.
Proof.
  unfold IPv6Network. intros H.
  apply rbind_raise in H as [H|[[addr mask] [_ H]]].
  { apply split_addr_prefix_raises in H. subst. reflexivity. }
  apply rbind_raise in H as [H|[a [_ H]]].
  { apply IPv6Address_raises in H. subst. reflexivity. }
  apply rbind_raise in H as [H|[[m p] [_ H]]].
  { apply v6_make_netmask_raises in H. subst. reflexivity. }
  revert H. break_if; [intros [= <-]; reflexivity | discriminate].
Qed.

(** [ip_network] raises nothing but [ValueError]. *)
Lemma ip_network_raises (s : str) (e : exn) :
  ip_network s = Raise e -> e = ValueError.
Proof.
  unfold ip_network.
  destruct (IPv4Network s) as [n|e4] eqn:E4; simpl; [discriminate|].
  apply IPv4Network_raises in E4.
  destruct e4; try discriminate; simpl; try congruence;
    (destruct (IPv6Network s) as [n|e6] eqn:E6; simpl; [discriminate|];
     apply IPv6Network_raises in E6;
     destruct e6; try discriminate; simpl; congruence).
Qed.

End Raises.

(** * The constructors produce well-formed values *)

Section WellFormed.

Lemma digit_value_range (c : ascii) : 0 <= digit_value c < 16.
Proof.
  assert (H : forall c, ((0 <=? digit_value c) && (digit_value c <? 16)) = true).
  { apply char_forall. vm_compute. reflexivity. }
  specialize (H c). apply andb_true_iff in H as [H1 H2]. lia.
Qed.

Lemma int_of_range (base : Z) (s : str) :
  16 <= base -> 0 <= int_of base s < base ^ len s.
Proof.
  intros Hb. induction s as [|c s IH].
  - unfold int_of, len. simpl. lia.
  - rewrite int_of_cons, len_cons.
    pose proof (digit_value_range c) as Hc.
    pose proof (len_nonneg s) as Hl.
    rewrite Z.pow_add_r, Z.pow_1_r by lia.
    assert (0 < base ^ len s) by (apply Z.pow_pos_nonneg; lia).
    nia.
Qed.

Lemma int_of_nonneg (base : Z) (s : str) : 0 <= base -> 0 <= int_of base s.
Proof.
  intros Hb. induction s as [|c s IH].
  - unfold int_of. simpl. lia.
  - rewrite int_of_cons.
    pose proof (digit_value_range c) as Hc.
    assert (0 <= base ^ len s) by (apply Z.pow_nonneg; lia).
    nia.
Qed.

Lemma parse_hextet_range (s : str) (h : Z) :
  _BaseV6._parse_hextet s = Ok h -> 0 <= h < 65536.
Proof.
  unfold _BaseV6._parse_hextet.
  destruct (negb (forallb is_hex_digit s)); [discriminate|].
  destruct (Z.gtb_spec (len s) 4) as [|Hlen]; [discriminate|].
  destruct (null s); [discriminate|].
  intros [= <-]. pose proof (int_of_range 16 s ltac:(lia)) as H.
  pose proof (len_nonneg s).
  assert (16 ^ len s <= 16 ^ 4) by (apply Z.pow_le_mono_r; lia).
  change (16 ^ 4) with 65536 in *. lia.
Qed.

Lemma len_range (a b : Z) : len (range a b) = Z.max 0 (b - a).
Proof.
  unfold len, range. rewrite List.length_map, List.length_seq. lia.
Qed.

Lemma parse_parts_range (parts : list str) (idx : list Z) :
  forall ip0 ip n,
    _BaseV6.parse_parts parts idx ip0 = Ok ip ->
    0 <= n -> 0 <= ip0 < 2 ^ n ->
    0 <= ip < 2 ^ (n + 16 * len idx).
Proof.
  induction idx as [|i idx IH]; intros ip0 ip n H Hn Hip0.
  - rewrite parse_parts_nil in H. inversion H; subst.
    change (len (@nil Z)) with 0. rewrite Z.add_0_r. assumption.
  - rewrite parse_parts_cons in H.
    apply rbind_ok in H as [h [Hh H]].
    apply parse_hextet_range in Hh.
    rewrite lor_shiftl_add in H by (change (2 ^ 16) with 65536; lia).
    apply (IH _ _ (n + 16)) in H.
    + rewrite len_cons. replace (n + 16 * (len idx + 1))
        with (n + 16 + 16 * len idx) by lia. exact H.
    + lia.
    + rewrite Z.pow_add_r by lia. change (2 ^ 16) with 65536. nia.
Qed.

Lemma v6_ip_int_range (s : str) (ip : Z) :
  _BaseV6._ip_int_from_string s = Ok ip -> 0 <= ip <= _ALL_ONES V6.
Proof.
  unfold _BaseV6._ip_int_from_string.
  destruct (null s); [discriminate|].
  destruct (len (split ":" s) <? 3); [discriminate|].
  intros H. apply rbind_ok in H as [parts [_ H]].
  destruct (len parts >? _BaseV6._HEXTET_COUNT + 1); [discriminate|].
  apply rbind_ok in H as [sk [Hsk H]].
  apply rbind_ok in H as [[[hi lo] skipped] [Hlay H]].
  assert (Hsum : 0 <= hi /\ 0 <= lo /\ 0 <= skipped /\ hi + lo + skipped = 8).
  { apply (layout_ok parts sk); [|assumption].
    destruct sk as [i|]; [|exact I].
    apply find_skip_index_some, Hsk. }
  match type of H with try_except ?r _ _ = _ => destruct r as [x|e] eqn:E end;
    simpl in H.
  2:{ destruct (is_ValueError e); discriminate. }
  inversion H; subst x. clear H.
  apply rbind_ok in E as [ip1 [H1 H2]].
  apply (parse_parts_range _ _ _ _ 0) in H1; [|lia|simpl; lia].
  rewrite len_range in H1.
  rewrite Z.shiftl_mul_pow2 in H2 by lia.
  apply (parse_parts_range _ _ _ _ (16 * hi + 16 * skipped)) in H2.
  - rewrite len_range in H2.
    replace (16 * hi + 16 * skipped + 16 * Z.max 0 (0 - - lo)) with 128 in H2
      by lia.
    unfold _ALL_ONES. simpl _max_prefixlen. lia.
  - lia.
  - replace (0 + 16 * Z.max 0 (hi - 0)) with (16 * hi) in H1 by lia.
    rewrite Z.pow_add_r by lia.
    assert (0 < 2 ^ (16 * skipped)) by (apply Z.pow_pos_nonneg; lia).
    nia.
Qed.

Lemma parse_octet_range (s : str) (b : Z) :
  _BaseV4._parse_octet s = Ok b -> 0 <= b <= 255.
Proof.
  unfold _BaseV4._parse_octet.
  repeat match goal with
         | |- context [if ?c then _ else _] =>
             lazymatch c with
             | _ >? 255 => fail
             | _ => destruct c; [discriminate|]
             end
         end.
  destruct (Z.gtb_spec (int_of 10 s) 255); [discriminate|].
  intros [= <-]. pose proof (int_of_nonneg 10 s ltac:(lia)). lia.
Qed.

Lemma v4_ip_int_range (s : str) (ip : Z) :
  _BaseV4._ip_int_from_string s = Ok ip -> 0 <= ip <= _ALL_ONES V4.
Proof.
  unfold _BaseV4._ip_int_from_string.
  destruct (null s); [discriminate|].
  destruct (Z.eqb_spec (len (split "." s)) 4) as [Hlen|]; [|discriminate].
  simpl negb. cbv iota.
  destruct (map_result _BaseV4._parse_octet (split "." s)) as [bs|e] eqn:E;
    simpl.
  2:{ destruct (is_ValueError e); discriminate. }
  intros [= <-]. apply map_result_ok in E.
  unfold len in Hlen.
  destruct E as [|o0 b0 ? ? H0 E]; [simpl in Hlen; lia|].
  destruct E as [|o1 b1 ? ? H1 E]; [simpl in Hlen; lia|].
  destruct E as [|o2 b2 ? ? H2 E]; [simpl in Hlen; lia|].
  destruct E as [|o3 b3 ? ? H3 E]; [simpl in Hlen; lia|].
  destruct E; [|simpl in Hlen; lia].
  apply parse_octet_range in H0, H1, H2, H3.
  unfold _BaseV4.int_from_bytes, _ALL_ONES. simpl fold_left.
  simpl _max_prefixlen. change (2 ^ 32) with 4294967296. lia.
Qed.

Lemma IPv4Address_ok (s : str) (a : Address) :
  IPv4Address s = Ok a ->
  _version a = V4 /\ _scope_id a = None /\ wf_address a = true
  /\ char_in "/" s = false
  /\ _BaseV4._ip_int_from_string s = Ok (_ip a).
Proof.
  unfold IPv4Address. destruct (char_in "/" s) eqn:Es; [discriminate|].
  intros H. apply rbind_ok in H as [ip [Hip H]]. inversion H; subst a.
  simpl. pose proof (v4_ip_int_range _ _ Hip) as Hr.
  repeat split; auto.
  unfold wf_address. simpl.
  destruct (Z.leb_spec 0 ip); [|lia].
  destruct (Z.leb_spec ip (_ALL_ONES V4)); [|lia]. reflexivity.
Qed.

Lemma split_scope_id_ok (s addr : str) (sc : option str) :
  _BaseV6._split_scope_id s = Ok (addr, sc) ->
  char_in "%" addr = false
  /\ match sc with
     | None => s = addr
     | Some scope_id =>
         s = addr ++ "%"%char :: scope_id
         /\ scope_id <> [] /\ char_in "%" scope_id = false
     end.
Proof.
  unfold _BaseV6._split_scope_id.
  destruct (partition "%" s) as [[a found] b] eqn:E.
  apply partition_spec in E as [Ha E].
  destruct found; simpl.
  - destruct (null b) eqn:Eb; simpl; [discriminate|].
    destruct (char_in "%" b) eqn:Ec; [discriminate|].
    intros [= <- <-]. repeat split; auto.
    destruct b; [discriminate | congruence].
  - intros [= <- <-]. destruct E. auto.
Qed.

Lemma IPv6Address_ok (s : str) (a : Address) :
  IPv6Address s = Ok a ->
  _version a = V6 /\ wf_address a = true /\ char_in "/" s = false.
Proof.
  unfold IPv6Address. destruct (char_in "/" s) eqn:Es; [discriminate|].
  intros H. apply rbind_ok in H as [[addr sc] [Hsc H]].
  apply rbind_ok in H as [ip [Hip H]]. inversion H; subst a. simpl.
  pose proof (v6_ip_int_range _ _ Hip) as Hr.
  apply split_scope_id_ok in Hsc as [_ Hsc].
  repeat split; auto.
  unfold wf_address. simpl.
  destruct (Z.leb_spec 0 ip); [|lia].
  destruct (Z.leb_spec ip (_ALL_ONES V6)); [|lia]. simpl.
  rewrite andb_true_r.
  destruct sc as [scope_id|]; [|reflexivity].
  destruct Hsc as (-> & Hne & Hp).
  rewrite char_in_app in Es. apply orb_false_iff in Es as [_ Es].
  unfold char_in in Es. simpl in Es. fold (char_in "/" scope_id) in Es.
  unfold wf_scope. rewrite Hp, Es.
  destruct scope_id; [congruence | reflexivity].
Qed.

(** Every address [ip_address] returns is well formed. *)
Lemma ip_address_wf (s : str) (a : Address) :
  ip_address s = Ok a -> wf_address a = true.
Proof.
  unfold ip_address.
  destruct (IPv4Address s) as [a4|e4] eqn:E4; simpl.
  - intros [= <-]. apply IPv4Address_ok in E4. tauto.
  - destruct (is_address_or_netmask_error e4); [|discriminate].
    destruct (IPv6Address s) as [a6|e6] eqn:E6; simpl.
    + intros [= <-]. apply IPv6Address_ok in E6. tauto.
    + destruct (is_address_or_netmask_error e6); discriminate.
Qed.

Lemma count_righthand_zero_bits_range (x bits : Z) :
  0 <= bits -> 0 <= _count_righthand_zero_bits x bits <= bits.
Proof.
  intros Hb. unfold _count_righthand_zero_bits.
  destruct (x =? 0); [lia|].
  pose proof (bit_length_nonneg (Z.land (Z.lnot x) (x - 1))). lia.
Qed.

Lemma prefix_from_ip_int_range (v : ip_version) (x p : Z) :
  _prefix_from_ip_int v x = Ok p -> 0 <= p <= _max_prefixlen v.
Proof.
  unfold _prefix_from_ip_int.
  destruct (negb _); [discriminate|]. intros [= <-].
  pose proof (max_prefixlen_pos v).
  pose proof (count_righthand_zero_bits_range x (_max_prefixlen v) ltac:(lia)).
  lia.
Qed.

Lemma prefix_from_prefix_string_range (v : ip_version) (s : str) (p : Z) :
  _prefix_from_prefix_string v s = Ok p -> 0 <= p <= _max_prefixlen v.
Proof.
  unfold _prefix_from_prefix_string.
  destruct (negb (isascii_isdigit s)); [discriminate|].
  destruct (Z.leb_spec 0 (int_of 10 s));
    destruct (Z.leb_spec (int_of 10 s) (_max_prefixlen v)); simpl;
    try discriminate.
  intros [= <-]. lia.
Qed.

Lemma v4_make_netmask_ok (arg : mask_arg) (m : Address) (p : Z) :
  _BaseV4._make_netmask arg = Ok (m, p) ->
  0 <= p <= _max_prefixlen V4
  /\ m = address_of_int V4 (_ip_int_from_prefix V4 p).
Proof.
  unfold _BaseV4._make_netmask. intros H.
  apply rbind_ok in H as [p' [Hp H]]. inversion H; subst. split; auto.
  destruct arg as [s|n].
  - destruct (_prefix_from_prefix_string V4 s) as [q|e] eqn:E; simpl in Hp.
    + inversion Hp; subst. eapply prefix_from_prefix_string_range, E.
    + destruct (is_NetmaskValueError e); [|discriminate].
      unfold _BaseV4._prefix_from_ip_string in Hp.
      apply rbind_ok in Hp as [x [_ Hp]].
      destruct (_prefix_from_ip_int V4 x) as [q|e1] eqn:E1; simpl in Hp.
      * inversion Hp; subst. eapply prefix_from_ip_int_range, E1.
      * destruct (is_ValueError e1); [|discriminate].
        destruct (_prefix_from_ip_int V4 (Z.lxor x (_ALL_ONES V4)))
          as [q|e2] eqn:E2; simpl in Hp.
        -- inversion Hp; subst. eapply prefix_from_ip_int_range, E2.
        -- destruct (is_ValueError e2); discriminate.
  - destruct (Z.leb_spec 0 n); destruct (Z.leb_spec n (_max_prefixlen V4));
      simpl in Hp; try discriminate.
    inversion Hp; subst. lia.
Qed.

Lemma v6_make_netmask_ok (arg : mask_arg) (m : Address) (p : Z) :
  _BaseV6._make_netmask arg = Ok (m, p) ->
  0 <= p <= _max_prefixlen V6
  /\ m = address_of_int V6 (_ip_int_from_prefix V6 p).
Proof.
  unfold _BaseV6._make_netmask. intros H.
  apply rbind_ok in H as [p' [Hp H]]. inversion H; subst. split; auto.
  destruct arg as [s|n].
  - eapply prefix_from_prefix_string_range, Hp.
  - destruct (Z.leb_spec 0 n); destruct (Z.leb_spec n (_max_prefixlen V6));
      simpl in Hp; try discriminate.
    inversion Hp; subst. lia.
Qed.

Lemma wf_network_intro (v : ip_version) (a : Address) (p : Z) :
  _version a = v -> wf_address a = true -> 0 <= p <= _max_prefixlen v ->
  Z.land (_ip a) (_ip_int_from_prefix v p) = _ip a ->
  wf_network (mk_network v a (address_of_int v (_ip_int_from_prefix v p)) p)
  = true.
Proof.
  intros Hv Ha Hp Hland. unfold wf_network. simpl.
  rewrite Hv, Ha, Hland, !Z.eqb_refl.
  destruct (Z.leb_spec 0 p); [|lia].
  destruct (Z.leb_spec p (_max_prefixlen v)); [|lia].
  destruct v; reflexivity.
Qed.

Lemma IPv4Network_wf (s : str) (n : Network) :
  IPv4Network s = Ok n -> wf_network n = true /\ net_version n = V4.
Proof.
  unfold IPv4Network. intros H.
  apply rbind_ok in H as [[addr mask] [_ H]].
  apply rbind_ok in H as [a [Ha H]].
  apply rbind_ok in H as [[m p] [Hm H]].
  apply IPv4Address_ok in Ha as (Hv & _ & Hwf & _).
  apply v4_make_netmask_ok in Hm as [Hp ->].
  simpl in H.
  destruct (Z.eqb_spec (Z.land (_ip a) (_ip_int_from_prefix V4 p)) (_ip a))
    as [Hland|]; simpl in H; [|discriminate].
  inversion H; subst n. split; [|reflexivity].
  apply wf_network_intro; assumption.
Qed.

Lemma IPv6Network_wf (s : str) (n : Network) :
  IPv6Network s = Ok n -> wf_network n = true /\ net_version n = V6.
Proof.
  unfold IPv6Network. intros H.
  apply rbind_ok in H as [[addr mask] [_ H]].
  apply rbind_ok in H as [a [Ha H]].
  apply rbind_ok in H as [[m p] [Hm H]].
  apply IPv6Address_ok in Ha as (Hv & Hwf & _).
  apply v6_make_netmask_ok in Hm as [Hp ->].
  simpl in H.
  destruct (Z.eqb_spec (Z.land (_ip a) (_ip_int_from_prefix V6 p)) (_ip a))
    as [Hland|]; simpl in H; [|discriminate].
  inversion H; subst n. split; [|reflexivity].
  apply wf_network_intro; assumption.
Qed.

(** Every network [ip_network] returns is well formed: in particular it
    has no host bit set. *)
Lemma ip_network_wf (s : str) (n : Network) :
  ip_network s = Ok n -> wf_network n = true.
Proof.
  unfold ip_network.
  destruct (IPv4Network s) as [n4|e4] eqn:E4; simpl.
  - intros [= <-]. apply IPv4Network_wf in E4. tauto.
  - destruct (is_address_or_netmask_error e4); [|discriminate].
    destruct (IPv6Network s) as [n6|e6] eqn:E6; simpl.
    + intros [= <-]. apply IPv6Network_wf in E6. tauto.
    + destruct (is_address_or_netmask_error e6); discriminate.
Qed.

(** The parts of [wf_network], as propositions. *)
Lemma wf_network_elim (n : Network) :
  wf_network n = true ->
  _version (network_address n) = net_version n
  /\ wf_address (network_address n) = true
  /\ 0 <= _prefixlen n <= _max_prefixlen (net_version n)
  /\ netmask n
     = address_of_int (net_version n)
         (_ip_int_from_prefix (net_version n) (_prefixlen n))
  /\ Z.land (_ip (network_address n))
       (_ip_int_from_prefix (net_version n) (_prefixlen n))
     = _ip (network_address n).
Proof.
  unfold wf_network. intros H.
  apply andb_true_iff in H as [H H8].
  apply andb_true_iff in H as [H H7].
  apply andb_true_iff in H as [H H6].
  apply andb_true_iff in H as [H H5].
  apply andb_true_iff in H as [H H4].
  apply andb_true_iff in H as [H H3].
  apply andb_true_iff in H as [H1 H2].
  apply Z.eqb_eq in H6, H8. apply Z.leb_le in H3, H4.
  rewrite H6 in H8.
  assert (Hv : forall v w, version_eqb v w = true -> v = w)
    by (intros [] []; simpl; congruence).
  apply Hv in H1, H5.
  repeat split; auto.
  destruct (netmask n) as [mv mip msc]. simpl in *.
  destruct msc; [discriminate|]. unfold address_of_int. congruence.
Qed.

Lemma wf_address_elim (a : Address) :
  wf_address a = true ->
  0 <= _ip a <= _ALL_ONES (_version a)
  /\ wf_scope (_scope_id a) = true
  /\ (_version a = V4 -> _scope_id a = None).
Proof.
  unfold wf_address. intros H.
  apply andb_true_iff in H as [H H3].
  apply andb_true_iff in H as [H H2].
  apply andb_true_iff in H as [H0 H1].
  apply Z.leb_le in H0, H1. repeat split; auto.
  intros Hv. rewrite Hv in H3. destruct (_scope_id a); [discriminate|].
  reflexivity.
Qed.

End WellFormed.

(** * Containment is prefix containment *)

Section Containment.

Lemma version_eqb_eq (v w : ip_version) : version_eqb v w = true <-> v = w.
Proof. destruct v, w; simpl; split; congruence. Qed.

(** [a in n] holds exactly when [a] has the version of [n] and agrees with
    its network address above the host bits. *)
Lemma contains_in_network (n : Network) (a : Address) :
  wf_network n = true -> wf_address a = true ->
  contains n a = true <-> in_network a n.
Proof.
  intros Hn Ha.
  apply wf_network_elim in Hn as (Hv & Hna & Hp & Hm & Hland).
  apply wf_address_elim in Ha as (Hr & _).
  apply wf_address_elim in Hna as (Hnr & _).
  unfold contains, in_network, host_bits.
  destruct (version_eqb (net_version n) (_version a)) eqn:Ev; simpl.
  - apply version_eqb_eq in Ev.
    rewrite Hm. simpl. rewrite <- Ev in Hr. rewrite Hv in Hnr.
    rewrite land_netmask by assumption.
    rewrite land_netmask in Hland by assumption.
    set (h := _max_prefixlen (net_version n) - _prefixlen n) in *.
    rewrite Z.eqb_eq. split.
    + intros H. split; [congruence|].
      rewrite <- Hland in H.
      rewrite !Z.shiftl_mul_pow2 in H by (unfold h; lia).
      apply Z.mul_cancel_r in H; [assumption|].
      apply Z.pow_nonzero; unfold h; lia.
    + intros [_ H]. rewrite H. exact Hland.
  - split; [discriminate|]. intros [H _].
    rewrite H in Ev. destruct (net_version n); discriminate.
Qed.

(** The single-host network of an address holds the addresses with its
    version and its integer, and no other. *)
Lemma host_network_contains (a b : Address) :
  wf_address a = true -> wf_address b = true ->
  contains (host_network a) b = true
  <-> _version b = _version a /\ _ip b = _ip a.
Proof.
  intros Ha Hb.
  apply wf_address_elim in Ha as (Hra & _).
  apply wf_address_elim in Hb as (Hrb & _).
  unfold contains, host_network. simpl.
  destruct (version_eqb (_version a) (_version b)) eqn:Ev; simpl.
  - apply version_eqb_eq in Ev. rewrite netmask_full.
    rewrite <- Ev in Hrb. rewrite land_all_ones by assumption.
    rewrite Z.eqb_eq. intuition congruence.
  - split; [discriminate|]. intros [H _]. rewrite H in Ev.
    destruct (_version a); discriminate.
Qed.

Lemma host_network_wf (a : Address) :
  wf_address a = true -> wf_network (host_network a) = true.
Proof.
  intros Ha. unfold host_network. apply wf_network_intro; auto.
  - pose proof (max_prefixlen_pos (_version a)). lia.
  - rewrite netmask_full. apply land_all_ones.
    apply wf_address_elim in Ha. tauto.
Qed.

End Containment.

(** * Printing an address and reading it back *)

Section RoundTripV4.

Lemma digits_no (d : ascii) (s : str) :
  is_hex_digit d = false -> forallb is_digit s = true ->
  char_in d s = false.
Proof.
  intros Hd Hs. apply hex_digits_no; [assumption|].
  rewrite forallb_forall in *. intros c Hc. apply digit_is_hex, Hs, Hc.
Qed.

Lemma to_bytes4_range (ip : Z) :
  Forall (fun b => 0 <= b < 256) (_BaseV4.to_bytes4 ip).
Proof.
  unfold _BaseV4.to_bytes4. apply Forall_forall. intros b Hb.
  apply in_map_iff in Hb as [k [<- _]].
  change 255 with (Z.ones 8). rewrite Z.land_ones by lia.
  apply Z.mod_pos_bound. reflexivity.
Qed.

Lemma int_from_to_bytes4 (ip : Z) :
  0 <= ip <= _ALL_ONES V4 ->
  _BaseV4.int_from_bytes (_BaseV4.to_bytes4 ip) = ip.
Proof.
  unfold _ALL_ONES. simpl _max_prefixlen. change (2 ^ 32) with 4294967296.
  intros Hip. unfold _BaseV4.to_bytes4, _BaseV4.int_from_bytes.
  cbn [map fold_left].
  change 255 with (Z.ones 8). rewrite !Z.land_ones by lia.
  rewrite !Z.shiftr_div_pow2 by lia.
  change (2 ^ (8 * 3)) with 16777216. change (2 ^ (8 * 2)) with 65536.
  change (2 ^ (8 * 1)) with 256. change (2 ^ (8 * 0)) with 1.
  change (2 ^ 8) with 256.
  Z.to_euclidean_division_equations. lia.
Qed.

Lemma land_255_range (x : Z) : 0 <= Z.land x 255 < 256.
Proof.
  change 255 with (Z.ones 8). rewrite Z.land_ones by lia.
  apply Z.mod_pos_bound. reflexivity.
Qed.

Lemma to_bytes4_shape (ip : Z) :
  exists b3 b2 b1 b0,
    _BaseV4.to_bytes4 ip = [b3; b2; b1; b0]
    /\ 0 <= b3 < 256 /\ 0 <= b2 < 256 /\ 0 <= b1 < 256 /\ 0 <= b0 < 256.
Proof.
  exists (Z.land (Z.shiftr ip (8 * 3)) 255), (Z.land (Z.shiftr ip (8 * 2)) 255),
    (Z.land (Z.shiftr ip (8 * 1)) 255), (Z.land (Z.shiftr ip (8 * 0)) 255).
  split; [reflexivity|].
  split; [apply land_255_range|]. split; [apply land_255_range|].
  split; apply land_255_range.
Qed.

(** The dotted form of a 32-bit integer reads back as that integer. *)
Lemma v4_string_round_trip (ip : Z) :
  0 <= ip <= _ALL_ONES V4 ->
  _BaseV4._ip_int_from_string (_BaseV4._string_from_ip_int ip) = Ok ip.
Proof.
  intros Hip.
  pose proof (int_from_to_bytes4 ip Hip) as Hint.
  unfold _BaseV4._ip_int_from_string, _BaseV4._string_from_ip_int.
  destruct (to_bytes4_shape ip) as (b3 & b2 & b1 & b0 & E & H3 & H2 & H1 & H0).
  rewrite E in *. clear E.
  destruct (format_d_octet b3 H3) as (P3 & N3 & D3).
  destruct (format_d_octet b2 H2) as (P2 & N2 & D2).
  destruct (format_d_octet b1 H1) as (P1 & N1 & D1).
  destruct (format_d_octet b0 H0) as (P0 & N0 & D0).
  change (lit ".") with ["."%char]. cbn [map].
  remember (format_d b3) as s3. remember (format_d b2) as s2.
  remember (format_d b1) as s1. remember (format_d b0) as s0.
  assert (Hsplit : split "." (join ["."%char] [s3; s2; s1; s0]) = [s3; s2; s1; s0]).
  { apply split_join; [discriminate|].
    repeat constructor; apply digits_no; auto. }
  rewrite Hsplit.
  assert (Hnn : null (join ["."%char] [s3; s2; s1; s0]) = false).
  { cbn [join]. destruct s3; [congruence | reflexivity]. }
  rewrite Hnn.
  change (len [s3; s2; s1; s0]) with 4. change (negb (4 =? 4)) with false.
  cbv iota. cbn [map_result]. rewrite P3, P2, P1, P0.
  cbn [rbind try_except]. rewrite Hint. reflexivity.
Qed.

(** The dotted form is made of digits and dots, begins and ends with a
    digit. *)
Lemma v4_string_chars (ip : Z) :
  Forall (fun c => is_digit c = true \/ c = "."%char)
    (_BaseV4._string_from_ip_int ip)
  /\ exists c s, _BaseV4._string_from_ip_int ip = c :: s
                 /\ is_digit c = true.
Proof.
  unfold _BaseV4._string_from_ip_int.
  destruct (to_bytes4_shape ip) as (b3 & b2 & b1 & b0 & E & H3 & H2 & H1 & H0).
  rewrite E. clear E.
  destruct (format_d_octet b3 H3) as (_ & N3 & D3).
  destruct (format_d_octet b2 H2) as (_ & N2 & D2).
  destruct (format_d_octet b1 H1) as (_ & N1 & D1).
  destruct (format_d_octet b0 H0) as (_ & N0 & D0).
  change (lit ".") with ["."%char]. cbn [map].
  remember (format_d b3) as s3. remember (format_d b2) as s2.
  remember (format_d b1) as s1. remember (format_d b0) as s0.
  cbn [join].
  rewrite forallb_forall in D0, D1, D2, D3.
  assert (HD : forall s : str,
             (forall x, In x s -> is_digit x = true) ->
             Forall (fun c => is_digit c = true \/ c = "."%char) s).
  { intros s Hs. apply Forall_forall. intros c Hc. left. auto. }
  assert (Hdot : Forall (fun c => is_digit c = true \/ c = "."%char)
                   ["."%char]).
  { constructor; [right; reflexivity | constructor]. }
  split.
  - apply Forall_app; split; [apply HD, D3|].
    apply Forall_app; split; [exact Hdot|].
    apply Forall_app; split; [apply HD, D2|].
    apply Forall_app; split; [exact Hdot|].
    apply Forall_app; split; [apply HD, D1|].
    apply Forall_app; split; [exact Hdot|].
    apply HD, D0.
  - destruct s3 as [|c s]; [congruence|].
    exists c. eexists. split; [reflexivity|]. apply D3. left. reflexivity.
Qed.

End RoundTripV4.

Section RoundTripV6.

Lemma land_65535_range (x : Z) : 0 <= Z.land x 65535 < 65536.
Proof.
  change 65535 with (Z.ones 16). rewrite Z.land_ones by lia.
  apply Z.mod_pos_bound. reflexivity.
Qed.

Lemma hextets_of_value (ip : Z) :
  0 <= ip <= _ALL_ONES V6 -> hextets_value (_BaseV6.hextets_of ip) = ip.
Proof.
  unfold _ALL_ONES. simpl _max_prefixlen.
  change (2 ^ 128) with 340282366920938463463374607431768211456.
  intros Hip. unfold _BaseV6.hextets_of, hextets_value.
  cbn [map fold_left].
  change 65535 with (Z.ones 16). rewrite !Z.land_ones by lia.
  rewrite !Z.shiftr_div_pow2 by lia.
  change (2 ^ 16) with 65536.
  change (2 ^ (112 - 4 * 0)) with 5192296858534827628530496329220096.
  change (2 ^ (112 - 4 * 4)) with 79228162514264337593543950336.
  change (2 ^ (112 - 4 * 8)) with 1208925819614629174706176.
  change (2 ^ (112 - 4 * 12)) with 18446744073709551616.
  change (2 ^ (112 - 4 * 16)) with 281474976710656.
  change (2 ^ (112 - 4 * 20)) with 4294967296.
  change (2 ^ (112 - 4 * 24)) with 65536.
  change (2 ^ (112 - 4 * 28)) with 1.
  Z.to_euclidean_division_equations. lia.
Qed.

Lemma hextets_of_shape (ip : Z) :
  exists h0 h1 h2 h3 h4 h5 h6 h7,
    _BaseV6.hextets_of ip = [h0; h1; h2; h3; h4; h5; h6; h7]
    /\ Forall (fun h => 0 <= h < 65536) [h0; h1; h2; h3; h4; h5; h6; h7].
Proof.
  do 8 eexists. split; [reflexivity|].
  repeat constructor; apply land_65535_range.
Qed.

Lemma zero_run_fold (idx : list Z) (hextets : list str) :
  forall st,
    fold_left
      (fun '(best_start, best_len, doublecolon_start, doublecolon_len)
           '(index, hextet) =>
         if str_eqb hextet (lit "0") then
           let doublecolon_len := doublecolon_len + 1 in
           let doublecolon_start :=
             if doublecolon_start =? -1 then index else doublecolon_start in
           if doublecolon_len >? best_len
           then (doublecolon_start, doublecolon_len,
                 doublecolon_start, doublecolon_len)
           else (best_start, best_len, doublecolon_start, doublecolon_len)
         else (best_start, best_len, -1, 0))
      (combine idx hextets) st
    = fold_left (fun st iz => zero_run_step st (fst iz) (snd iz))
        (combine idx (map (fun s => str_eqb s (lit "0")) hextets)) st.
Proof.
  revert idx. induction hextets as [|x hextets IH]; intros idx st.
  - destruct idx; reflexivity.
  - destruct idx as [|i idx]; [reflexivity|].
    cbn [combine map fold_left]. rewrite IH.
    destruct st as [[[a b] c] d]. reflexivity.
Qed.

Lemma longest_zero_run_tests (hextets : list str) :
  _BaseV6.longest_zero_run hextets
  = zero_run (map (fun s => str_eqb s (lit "0")) hextets).
Proof.
  unfold _BaseV6.longest_zero_run, zero_run, _BaseV6.enumerate.
  rewrite zero_run_fold.
  unfold len. rewrite List.length_map. reflexivity.
Qed.

Lemma zero_run_eight (z0 z1 z2 z3 z4 z5 z6 z7 : bool) :
  zero_run_ok [z0; z1; z2; z3; z4; z5; z6; z7] = true.
Proof.
  destruct z0, z1, z2, z3, z4, z5, z6, z7; vm_compute; reflexivity.
Qed.

Lemma join_cons2 (sep p q : str) (ps : list str) :
  join sep (p :: q :: ps) = p ++ sep ++ join sep (q :: ps).
Proof. reflexivity. Qed.

Lemma getitem_Forall (P : str -> Prop) (l : list str) (i : Z) :
  P [] -> Forall P l -> P (getitem l i).
Proof.
  intros Hnil Hl. unfold getitem.
  destruct (nth_in_or_default
              (Z.to_nat (if i <? 0 then len l + i else i)) l [])
    as [Hin | Hd]; [|rewrite Hd; assumption].
  rewrite Forall_forall in Hl. auto.
Qed.

(** Reading a text made by joining parts with colons: the parts come back,
    and the parser goes on from them. *)
Lemma v6_parse_join (parts : list str) :
  Forall (fun p => forallb is_hex_digit p = true) parts ->
  3 <= len parts <= 9 ->
  _BaseV6._ip_int_from_string (join (lit ":") parts)
  = rbind (_BaseV6.find_skip_index parts) (fun skip_index =>
    rbind (_BaseV6.layout parts skip_index) (fun '(parts_hi, parts_lo, parts_skipped) =>
    try_except
      (rbind (_BaseV6.parse_parts parts (range 0 parts_hi) 0) (fun ip_int =>
       _BaseV6.parse_parts parts (range (- parts_lo) 0)
         (Z.shiftl ip_int (16 * parts_skipped))))
      is_ValueError (fun _ => Raise AddressValueError))).
Proof.
  intros Hhex Hlen. unfold _BaseV6._ip_int_from_string.
  change (lit ":") with [":"%char].
  assert (Hsplit : split ":" (join [":"%char] parts) = parts).
  { apply split_join.
    - intros ->. unfold len in Hlen. simpl in Hlen. lia.
    - eapply Forall_impl; [|exact Hhex]. intros p Hp.
      apply hex_digits_no; [reflexivity | exact Hp]. }
  assert (Hnn : null (join [":"%char] parts) = false).
  { destruct parts as [|p [|q ps]]; try (unfold len in Hlen; simpl in Hlen; lia).
    rewrite join_cons2. destruct p; reflexivity. }
  rewrite Hnn, Hsplit.
  destruct (Z.ltb_spec (len parts) 3); [lia|].
  assert (Hdot : char_in "." (getitem parts (-1)) = false).
  { apply (getitem_Forall (fun p => char_in "." p = false)); [reflexivity|].
    eapply Forall_impl; [|exact Hhex]. intros p Hp.
    apply hex_digits_no; [reflexivity | exact Hp]. }
  rewrite Hdot. cbn [rbind].
  unfold _BaseV6._HEXTET_COUNT.
  destruct (Z.gtb_spec (len parts) (8 + 1)); [lia|].
  destruct (_BaseV6.find_skip_index parts) as [sk|e]; [|reflexivity].
  cbn [rbind].
  destruct (_BaseV6.layout parts sk) as [[[hi lo] skipped]|e]; reflexivity.
Qed.

End RoundTripV6.
Section RoundTripV6Main.

(** Evaluates a closed call under the conclusion. *)
Ltac eval_call t :=
  let v := eval vm_compute in t in change t with v.

Ltac parse_step :=
  rewrite parse_parts_cons;
  match goal with
  | |- context [getitem ?l ?i] => eval_call (getitem l i)
  end;
  match goal with
  | H : _BaseV6._parse_hextet ?x = Ok _
    |- context [_BaseV6._parse_hextet ?x] => rewrite H
  end;
  cbn [rbind].

Ltac parse_joined :=
  rewrite v6_parse_join;
  [ match goal with
    | |- context [_BaseV6.find_skip_index ?p] =>
        eval_call (_BaseV6.find_skip_index p)
    end;
    cbn [rbind];
    match goal with
    | |- context [_BaseV6.layout ?p ?s] => eval_call (_BaseV6.layout p s)
    end;
    cbn [rbind];
    repeat match goal with
           | |- context [range ?a ?b] => eval_call (range a b)
           end;
    repeat parse_step; rewrite parse_parts_nil; cbn [rbind];
    repeat parse_step; rewrite ?parse_parts_nil; cbn [try_except]
  | repeat (apply Forall_cons; [first [assumption | reflexivity]|]);
    apply Forall_nil
  | unfold len; cbn [List.length]; lia ].

Ltac horner :=
  f_equal;
  rewrite ?lor_shiftl_add by (change (2 ^ 16) with 65536; lia);
  rewrite ?Z.shiftl_mul_pow2 by lia;
  repeat match goal with
         | |- context [2 ^ ?k] =>
             let v := eval vm_compute in (2 ^ k) in change (2 ^ k) with v
         end;
  lia.

Ltac zeros H :=
  match type of H with
  | context [seq ?a ?b] =>
      let v := eval vm_compute in (seq a b) in change (seq a b) with v in H
  end;
  cbn [forallb nth] in H;
  repeat match type of H with
         | _ && _ = true =>
             let H' := fresh "Hz" in
             apply andb_true_iff in H as [H' H];
             apply Z.eqb_eq in H'
         end.

Ltac compressed H :=
  zeros H;
  match goal with
  | |- _ (join _ ?l) = _ => eval_call l
  end;
  parse_joined; horner.

(** The compressed form of a 128-bit integer reads back as that
    integer. *)
Lemma v6_string_round_trip (ip : Z) :
  0 <= ip <= _ALL_ONES V6 ->
  _BaseV6._ip_int_from_string (_BaseV6._string_from_ip_int ip) = Ok ip.
Proof.
  intros Hip. pose proof (hextets_of_value ip Hip) as Hval.
  unfold _BaseV6._string_from_ip_int.
  destruct (hextets_of_shape ip)
    as (h0 & h1 & h2 & h3 & h4 & h5 & h6 & h7 & E & Hr).
  rewrite E in *. clear E.
  unfold hextets_value in Hval. cbn [fold_left] in Hval.
  apply Forall_cons_iff in Hr as [R0 Hr]. apply Forall_cons_iff in Hr as [R1 Hr].
  apply Forall_cons_iff in Hr as [R2 Hr]. apply Forall_cons_iff in Hr as [R3 Hr].
  apply Forall_cons_iff in Hr as [R4 Hr]. apply Forall_cons_iff in Hr as [R5 Hr].
  apply Forall_cons_iff in Hr as [R6 Hr]. apply Forall_cons_iff in Hr as [R7 _].
  destruct (format_x_hextet h0 R0) as (P0 & N0 & D0 & Z0).
  destruct (format_x_hextet h1 R1) as (P1 & N1 & D1 & Z1).
  destruct (format_x_hextet h2 R2) as (P2 & N2 & D2 & Z2).
  destruct (format_x_hextet h3 R3) as (P3 & N3 & D3 & Z3).
  destruct (format_x_hextet h4 R4) as (P4 & N4 & D4 & Z4).
  destruct (format_x_hextet h5 R5) as (P5 & N5 & D5 & Z5).
  destruct (format_x_hextet h6 R6) as (P6 & N6 & D6 & Z6).
  destruct (format_x_hextet h7 R7) as (P7 & N7 & D7 & Z7).
  cbn [map].
  destruct (format_x h0) as [|c0 s0]; [congruence|].
  destruct (format_x h1) as [|c1 s1]; [congruence|].
  destruct (format_x h2) as [|c2 s2]; [congruence|].
  destruct (format_x h3) as [|c3 s3]; [congruence|].
  destruct (format_x h4) as [|c4 s4]; [congruence|].
  destruct (format_x h5) as [|c5 s5]; [congruence|].
  destruct (format_x h6) as [|c6 s6]; [congruence|].
  destruct (format_x h7) as [|c7 s7]; [congruence|].
  clear N0 N1 N2 N3 N4 N5 N6 N7.
  unfold _BaseV6._compress_hextets. rewrite longest_zero_run_tests.
  cbn [map]. rewrite Z0, Z1, Z2, Z3, Z4, Z5, Z6, Z7.
  pose proof (zero_run_eight (h0 =? 0) (h1 =? 0) (h2 =? 0) (h3 =? 0)
                (h4 =? 0) (h5 =? 0) (h6 =? 0) (h7 =? 0)) as Hrun.
  unfold zero_run_ok in Hrun.
  destruct (zero_run _) as [bs bl].
  destruct (Z.gtb_spec bl 1) as [Hgt|Hle].
  2:{ parse_joined. horner. }
  destruct (Z.leb_spec bl 1); [lia|]. cbn [orb] in Hrun.
  apply andb_true_iff in Hrun as [Hrun Hz].
  apply andb_true_iff in Hrun as [Hb1 Hb2].
  apply Z.leb_le in Hb1, Hb2.
  assert (Hbs : bs = 0 \/ bs = 1 \/ bs = 2 \/ bs = 3 \/ bs = 4 \/ bs = 5
                \/ bs = 6) by lia.
  assert (Hbl : bl = 2 \/ bl = 3 \/ bl = 4 \/ bl = 5 \/ bl = 6 \/ bl = 7
                \/ bl = 8) by lia.
  destruct Hbs as [->|[->|[->|[->|[->|[->| ->]]]]]];
    destruct Hbl as [->|[->|[->|[->|[->|[->| ->]]]]]];
    try lia.
  all: compressed Hz.
Qed.

End RoundTripV6Main.

(** * Printing a network and reading it back *)

Section NetworkRoundTrip.

Lemma Forall_firstn' {A} (P : A -> Prop) (n : nat) (l : list A) :
  Forall P l -> Forall P (firstn n l).
Proof.
  revert l. induction n as [|n IH]; intros l H; [constructor|].
  destruct H; simpl; constructor; auto.
Qed.

Lemma Forall_skipn' {A} (P : A -> Prop) (n : nat) (l : list A) :
  Forall P l -> Forall P (skipn n l).
Proof.
  revert l. induction n as [|n IH]; intros l H; [assumption|].
  destruct H; simpl; [constructor | auto].
Qed.

(** Compression keeps hextets or puts the empty text in their place. *)
Lemma compress_Forall (P : str -> Prop) (hextets : list str) :
  P [] -> Forall P hextets -> Forall P (_BaseV6._compress_hextets hextets).
Proof.
  intros Hnil H. unfold _BaseV6._compress_hextets.
  destruct (_BaseV6.longest_zero_run hextets) as [bs bl].
  destruct (bl >? 1); [|assumption].
  assert (H' : Forall P (if bs + bl =? len hextets then hextets ++ [[]]
                         else hextets)).
  { destruct (bs + bl =? len hextets); [|assumption].
    apply Forall_app. split; [assumption | repeat constructor; assumption]. }
  assert (H'' : Forall P
                  (slice (if bs + bl =? len hextets then hextets ++ [[]]
                          else hextets) 0 bs
                   ++ [[]]
                   ++ skipn (Z.to_nat (bs + bl))
                        (if bs + bl =? len hextets then hextets ++ [[]]
                         else hextets))).
  { apply Forall_app. split.
    - unfold slice. apply Forall_firstn', Forall_skipn', H'.
    - apply Forall_app. split; [repeat constructor; assumption|].
      apply Forall_skipn', H'. }
  destruct (bs =? 0); [constructor|]; assumption.
Qed.

Lemma join_Forall (P : ascii -> Prop) (sep : str) (parts : list str) :
  Forall P sep -> Forall (Forall P) parts -> Forall P (join sep parts).
Proof.
  intros Hsep. induction 1 as [|p ps Hp Hps IH]; [constructor|].
  destruct ps as [|q ps]; [exact Hp|].
  rewrite join_cons2. apply Forall_app. split; [exact Hp|].
  apply Forall_app. split; [exact Hsep | exact IH].
Qed.

Lemma v6_string_chars (ip : Z) :
  Forall v6_char (_BaseV6._string_from_ip_int ip).
Proof.
  unfold _BaseV6._string_from_ip_int. apply join_Forall.
  - change (lit ":") with [":"%char].
    constructor; [right; reflexivity | constructor].
  - apply compress_Forall; [constructor|].
    destruct (hextets_of_shape ip)
      as (h0 & h1 & h2 & h3 & h4 & h5 & h6 & h7 & E & Hr).
    rewrite E. apply Forall_map. eapply Forall_impl; [|exact Hr].
    intros h Hh. apply format_x_hextet in Hh as (_ & _ & Hd & _).
    apply Forall_forall. intros c Hc. left.
    rewrite forallb_forall in Hd. auto.
Qed.

Lemma v6_char_no (d : ascii) (s : str) :
  is_hex_digit d = false -> d <> ":"%char ->
  Forall v6_char s -> char_in d s = false.
Proof.
  intros Hd Hne Hs. apply char_in_false_forall.
  eapply Forall_impl; [|exact Hs].
  intros c [Hc| ->] E; subst; congruence.
Qed.

Lemma v6_char_not_space (c : ascii) : v6_char c -> isspace c = false.
Proof.
  intros [H| ->]; [|reflexivity]. apply hex_digit_plain in H. tauto.
Qed.

(** The compressed form is not empty and holds a colon. *)
Lemma v6_string_colon (ip : Z) :
  0 <= ip <= _ALL_ONES V6 ->
  _BaseV6._string_from_ip_int ip <> []
  /\ char_in ":" (_BaseV6._string_from_ip_int ip) = true.
Proof.
  intros Hip. pose proof (v6_string_round_trip ip Hip) as H.
  unfold _BaseV6._ip_int_from_string in H.
  destruct (_BaseV6._string_from_ip_int ip) as [|c s] eqn:E;
    [discriminate|].
  split; [discriminate|]. cbn [null] in H.
  destruct (char_in ":" (c :: s)) eqn:Ec; [reflexivity|].
  rewrite (split_none _ _ Ec) in H. discriminate.
Qed.

Lemma parse_octet_colon (s : str) :
  char_in ":" s = true -> _BaseV4._parse_octet s = Raise ValueError.
Proof.
  intros H. unfold _BaseV4._parse_octet.
  destruct (null s); [reflexivity|].
  assert (E : isascii_isdigit s = false).
  { unfold isascii_isdigit.
    destruct (forallb is_digit s) eqn:Ed; [|apply andb_false_r].
    rewrite (digits_no ":" s) in H by (auto; reflexivity). discriminate. }
  rewrite E. reflexivity.
Qed.

(** A text with a colon is no IPv4 address. *)
Lemma IPv4Address_colon (s : str) :
  char_in ":" s = true -> IPv4Address s = Raise AddressValueError.
Proof.
  intros H. unfold IPv4Address.
  destruct (char_in "/" s); [reflexivity|].
  unfold _BaseV4._ip_int_from_string.
  destruct (null s); [reflexivity|].
  destruct (negb (len (split "." s) =? 4)); [reflexivity|].
  rewrite (map_result_fails _ _ ValueError).
  - reflexivity.
  - apply parse_octet_raises.
  - apply (split_char_in "." ":") in H; [|discriminate].
    apply existsb_exists in H as [p [Hin Hp]].
    exists p. split; [assumption|]. apply parse_octet_colon, Hp.
Qed.

Lemma split_slash (a p : str) :
  char_in "/" a = false -> char_in "/" p = false ->
  split "/" (a ++ lit "/" ++ p) = [a; p].
Proof.
  intros Ha Hp. change (lit "/" ++ p) with ("/"%char :: p).
  rewrite split_app by assumption. rewrite split_none by assumption.
  reflexivity.
Qed.

Lemma split_addr_prefix_slash (v : ip_version) (a p : str) :
  char_in "/" a = false -> char_in "/" p = false ->
  _split_addr_prefix v (a ++ lit "/" ++ p) = Ok (a, MaskStr p).
Proof.
  intros Ha Hp. unfold _split_addr_prefix, _split_optional_netmask.
  rewrite split_slash by assumption. reflexivity.
Qed.

Lemma split_addr_prefix_bare (v : ip_version) (a : str) :
  char_in "/" a = false ->
  _split_addr_prefix v a = Ok (a, MaskInt (_max_prefixlen v)).
Proof.
  intros Ha. unfold _split_addr_prefix, _split_optional_netmask.
  rewrite split_none by assumption. reflexivity.
Qed.

(** What is known of the text of a well-formed address. *)
Lemma str_address_v4 (a : Address) :
  _version a = V4 -> wf_address a = true ->
  IPv4Address (str_address a) = Ok a
  /\ char_in "/" (str_address a) = false
  /\ exists c s, str_address a = c :: s /\ isspace c = false.
Proof.
  intros Hv Hwf. apply wf_address_elim in Hwf as (Hr & _ & Hsc).
  specialize (Hsc Hv). rewrite Hv in Hr.
  unfold str_address. rewrite Hv.
  destruct (v4_string_chars (_ip a)) as (Hch & c & s & Es & Hc).
  assert (Hslash : char_in "/" (_BaseV4._string_from_ip_int (_ip a)) = false).
  { apply char_in_false_forall. eapply Forall_impl; [|exact Hch].
    intros d [Hd| ->] E; [subst; discriminate | discriminate]. }
  split; [|split].
  - unfold IPv4Address. rewrite Hslash.
    rewrite v4_string_round_trip by assumption. cbn [rbind].
    destruct a as [v ip sc]. cbn [_version _ip _scope_id] in *. subst.
    reflexivity.
  - exact Hslash.
  - exists c, s. split; [assumption|].
    apply digit_is_hex, hex_digit_plain in Hc. tauto.
Qed.

Lemma str_address_v6 (a : Address) :
  _version a = V6 -> wf_address a = true ->
  IPv6Address (str_address a) = Ok a
  /\ char_in "/" (str_address a) = false
  /\ char_in ":" (str_address a) = true
  /\ exists c s, str_address a = c :: s /\ isspace c = false.
Proof.
  intros Hv Hwf. apply wf_address_elim in Hwf as (Hr & Hsc & _).
  rewrite Hv in Hr.
  pose proof (v6_string_chars (_ip a)) as Hch.
  destruct (v6_string_colon (_ip a) Hr) as [Hne Hcolon].
  pose proof (v6_string_round_trip (_ip a) Hr) as Hrt.
  assert (Hslash : char_in "/" (_BaseV6._string_from_ip_int (_ip a)) = false)
    by (apply v6_char_no; [reflexivity | discriminate | assumption]).
  assert (Hpct : char_in "%" (_BaseV6._string_from_ip_int (_ip a)) = false)
    by (apply v6_char_no; [reflexivity | discriminate | assumption]).
  assert (Hfirst : exists c s, _BaseV6._string_from_ip_int (_ip a) = c :: s
                               /\ isspace c = false).
  { destruct (_BaseV6._string_from_ip_int (_ip a)) as [|c s]; [congruence|].
    exists c, s. split; [reflexivity|].
    inversion Hch; subst. apply v6_char_not_space. assumption. }
  unfold str_address. rewrite Hv.
  destruct a as [v ip [sc|]]; cbn [_version _ip _scope_id wf_scope] in *;
    subst v.
  - apply andb_true_iff in Hsc as [Hsc Hs3].
    apply andb_true_iff in Hsc as [Hs1 Hs2].
    apply negb_true_iff in Hs1, Hs2, Hs3. rewrite Hs1.
    change (lit "%" ++ sc) with ("%"%char :: sc).
    split; [|split; [|split]].
    + unfold IPv6Address. rewrite char_in_app, Hslash.
      unfold char_in at 1. cbn [existsb]. fold (char_in "/" sc). rewrite Hs3.
      cbn [orb Ascii.eqb Bool.eqb andb].
      unfold _BaseV6._split_scope_id. rewrite partition_app by assumption.
      cbn [negb]. rewrite Hs1, Hs2. cbn [orb rbind]. rewrite Hrt. reflexivity.
    + rewrite char_in_app, Hslash. unfold char_in. cbn [existsb].
      fold (char_in "/" sc). rewrite Hs3. reflexivity.
    + rewrite char_in_app, Hcolon. reflexivity.
    + destruct Hfirst as (c & s & E & Hc). rewrite E.
      exists c. eexists. split; [reflexivity | assumption].
  - split; [|split; [|split]]; auto.
    unfold IPv6Address. rewrite Hslash.
    unfold _BaseV6._split_scope_id. rewrite partition_none by assumption.
    cbn [negb rbind]. rewrite Hrt. reflexivity.
Qed.

Lemma network_eta (n : Network) :
  n = mk_network (net_version n) (network_address n) (netmask n) (_prefixlen n).
Proof. destruct n. reflexivity. Qed.

(** Reading the text of a well-formed network gives the network back. *)
Lemma ip_network_round_trip (n : Network) :
  wf_network n = true -> ip_network (str_network n) = Ok n.
Proof.
  intros Hwf.
  destruct (wf_network_elim n Hwf) as (Hv & Ha & Hp & Hm & Hland).
  destruct (format_d_prefix (net_version n) (_prefixlen n) Hp)
    as (Hpre & Hdig & _).
  assert (Hps : char_in "/" (format_d (_prefixlen n)) = false)
    by (apply digits_no; [reflexivity | assumption]).
  unfold ip_network, str_network.
  destruct n as [v a m p].
  cbn [net_version network_address netmask _prefixlen] in *. subst m.
  destruct v.
  - destruct (str_address_v4 _ Hv Ha) as (Haddr & Hslash & _).
    unfold IPv4Network.
    rewrite split_addr_prefix_slash by assumption. cbn [rbind].
    rewrite Haddr. cbn [rbind].
    unfold _BaseV4._make_netmask. rewrite Hpre. cbn [try_except rbind].
    cbn [_ip address_of_int]. rewrite Hland, Z.eqb_refl. cbn [negb].
    reflexivity.
  - destruct (str_address_v6 _ Hv Ha) as (Haddr & Hslash & Hcolon & _).
    unfold IPv4Network.
    rewrite split_addr_prefix_slash by assumption. cbn [rbind].
    rewrite IPv4Address_colon by assumption.
    cbn [rbind try_except is_address_or_netmask_error].
    unfold IPv6Network.
    rewrite split_addr_prefix_slash by assumption. cbn [rbind].
    rewrite Haddr. cbn [rbind].
    unfold _BaseV6._make_netmask. rewrite Hpre. cbn [rbind].
    cbn [_ip address_of_int]. rewrite Hland, Z.eqb_refl. cbn [negb].
    reflexivity.
Qed.

(** The text of a network has no white space at either end. *)
Lemma strip_str_network (n : Network) :
  wf_network n = true -> strip (str_network n) = str_network n.
Proof.
  intros Hwf.
  destruct (wf_network_elim n Hwf) as (Hv & Ha & Hp & _).
  destruct (format_d_prefix (net_version n) (_prefixlen n) Hp)
    as (_ & _ & s & d & Es & Hd).
  assert (Hfirst : exists c t, str_address (network_address n) = c :: t
                               /\ isspace c = false).
  { destruct (net_version n).
    - destruct (str_address_v4 _ Hv Ha) as (_ & _ & H). exact H.
    - destruct (str_address_v6 _ Hv Ha) as (_ & _ & _ & H). exact H. }
  destruct Hfirst as (c & t & Et & Hc).
  unfold str_network. rewrite Et, Es.
  replace ((c :: t) ++ lit "/" ++ s ++ [d])
    with (c :: (t ++ lit "/" ++ s) ++ [d])
    by (rewrite <- !app_comm_cons, <- !app_assoc; reflexivity).
  apply strip_id; [assumption|].
  apply digit_is_hex, hex_digit_plain in Hd. tauto.
Qed.

(** A bare address read as a network is its single-host network. *)
Lemma ip_network_bare (s : str) (a : Address) :
  ip_address s = Ok a -> ip_network s = Ok (host_network a).
Proof.
  unfold ip_address, ip_network. intros H.
  destruct (IPv4Address s) as [a4|e4] eqn:E4; cbn [try_except] in H.
  - inversion H; subst a4. clear H.
    destruct (IPv4Address_ok _ _ E4) as (Hv & _ & Hwf & Hslash & _).
    unfold IPv4Network. rewrite split_addr_prefix_bare by assumption.
    cbn [rbind]. rewrite E4. cbn [rbind].
    unfold _BaseV4._make_netmask. cbn [rbind].
    change ((0 <=? _max_prefixlen V4) && (_max_prefixlen V4 <=? _max_prefixlen V4))
      with true. cbn [negb rbind _ip address_of_int].
    rewrite netmask_full.
    apply wf_address_elim in Hwf as (Hr & _). rewrite Hv in Hr.
    rewrite land_all_ones, Z.eqb_refl by assumption. cbn [negb try_except].
    unfold host_network. rewrite Hv, netmask_full. reflexivity.
  - destruct (is_address_or_netmask_error e4) eqn:Ee; [|discriminate].
    destruct (IPv6Address s) as [a6|e6] eqn:E6; cbn [try_except] in H.
    2:{ destruct (is_address_or_netmask_error e6); discriminate. }
    inversion H; subst a6. clear H.
    destruct (IPv6Address_ok _ _ E6) as (Hv & Hwf & Hslash).
    unfold IPv4Network. rewrite split_addr_prefix_bare by assumption.
    cbn [rbind]. rewrite E4. cbn [rbind try_except]. rewrite Ee.
    unfold IPv6Network. rewrite split_addr_prefix_bare by assumption.
    cbn [rbind]. rewrite E6. cbn [rbind].
    unfold _BaseV6._make_netmask. cbn [rbind].
    change ((0 <=? _max_prefixlen V6) && (_max_prefixlen V6 <=? _max_prefixlen V6))
      with true. cbn [negb rbind _ip address_of_int].
    rewrite netmask_full.
    apply wf_address_elim in Hwf as (Hr & _). rewrite Hv in Hr.
    rewrite land_all_ones, Z.eqb_refl by assumption. cbn [negb try_except].
    unfold host_network. rewrite Hv, netmask_full. reflexivity.
Qed.

End NetworkRoundTrip.

(** * Running the state monad *)

Section Running.

Lemma bind_run {A B} (m : M A) (k : A -> M B) (w : world) :
  bind m k w
  = match m w with
    | (Ok a, w') => k a w'
    | (Raise e, w') => (Raise e, w')
    end.
Proof. reflexivity. Qed.

Lemma try_catch_run {A} (m : M A) (handles : exn -> bool) (h : exn -> M A)
    (w : world) :
  try_catch m handles h w
  = match m w with
    | (Ok a, w') => (Ok a, w')
    | (Raise e, w') => if handles e then h e w' else (Raise e, w')
    end.
Proof. reflexivity. Qed.

Lemma ret_run {A} (a : A) (w : world) : ret a w = (Ok a, w).
Proof. reflexivity. Qed.

Lemma raise_run {A} (e : exn) (w : world) : @raise A e w = (Raise e, w).
Proof. reflexivity. Qed.

Lemma lift_run {A} (r : result A) (w : world) : lift r w = (r, w).
Proof. reflexivity. Qed.

Lemma gets_run {A} (f : world -> A) (w : world) : gets f w = (Ok (f w), w).
Proof. reflexivity. Qed.

Lemma modify_run (f : world -> world) (w : world) :
  modify f w = (Ok tt, f w).
Proof. reflexivity. Qed.

Lemma print_run (m : message) (w : world) :
  print m w = (Ok tt, set_stdout (stdout w ++ [m]) w).
Proof. reflexivity. Qed.

Lemma log_event_run (m : message) (w : world) :
  log_event m w
  = (Ok tt,
     set_log_file (log_file w ++ [m]) (set_stdout (stdout w ++ [m]) w)).
Proof. reflexivity. Qed.

Lemma close_run (s : socket) (w : world) :
  close s w = (Ok tt, set_closed (closed w ++ [s]) w).
Proof. reflexivity. Qed.

End Running.

(** Runs the first steps of a computation in [M]. *)
Ltac run :=
  repeat (first [ rewrite bind_run | rewrite try_catch_run ];
          rewrite ?ret_run, ?raise_run, ?lift_run, ?gets_run, ?modify_run,
            ?print_run, ?log_event_run, ?close_run;
          cbv beta iota).

(** * The allow-list check *)

Section AllowCheck.

Lemma is_allowed_run (ip_str : str) (w : world) :
  is_allowed ip_str w
  = (match ip_address ip_str with
     | Ok ip_obj =>
         Ok (existsb (fun net => contains net ip_obj) (allowed_networks w))
     | Raise _ => Ok false
     end, w).
Proof.
  unfold is_allowed, bind, gets, lift. cbn [rbind try_except].
  destruct (ip_address ip_str) as [a|e] eqn:E; cbn [rbind try_except].
  - reflexivity.
  - apply ip_address_raises in E. subst e. reflexivity.
Qed.

Lemma existsb_Permutation {A} (f : A -> bool) (l l' : list A) :
  Permutation l l' -> existsb f l = existsb f l'.
Proof.
  induction 1 as [|x l l' _ IH|x y l|l l' l'' _ IH1 _ IH2]; simpl.
  - reflexivity.
  - rewrite IH. reflexivity.
  - destruct (f x), (f y); reflexivity.
  - congruence.
Qed.

(** C1.  For a valid address text [A] and a registry of networks built by
    [ip_network], [is_allowed A] returns true exactly when the address lies
    within one of the networks, whatever the order of the registry. *)
Theorem is_allowed_iff_in_some_network (A : str) (a : Address) (w : world) :
  ip_address A = Ok a ->
  Forall (fun n => wf_network n = true) (allowed_networks w) ->
  exists b,
    is_allowed A w = (Ok b, w)
    /\ (b = true <->
        exists n, In n (allowed_networks w) /\ in_network a n)
    /\ forall w',
         Permutation (allowed_networks w) (allowed_networks w') ->
         is_allowed A w' = (Ok b, w').
Proof.
  intros HA Hwf.
  exists (existsb (fun net => contains net a) (allowed_networks w)).
  pose proof (ip_address_wf _ _ HA) as Ha.
  split; [|split].
  - rewrite is_allowed_run, HA. reflexivity.
  - rewrite existsb_exists. rewrite Forall_forall in Hwf.
    split; intros [n [Hin Hn]]; exists n; (split; [assumption|]).
    + apply contains_in_network; auto.
    + apply contains_in_network; auto.
  - intros w' Hperm. rewrite is_allowed_run, HA.
    rewrite (existsb_Permutation _ _ _ Hperm). reflexivity.
Qed.

(** C10.  On a text that is no IP address [is_allowed] returns false and
    raises nothing. *)
Theorem is_allowed_invalid_is_false (S : str) (w : world) :
  (forall a, ip_address S <> Ok a) ->
  is_allowed S w = (Ok false, w).
Proof.
  intros H. rewrite is_allowed_run.
  destruct (ip_address S) as [a|e] eqn:E; [|reflexivity].
  exfalso. apply (H a). reflexivity.
Qed.

End AllowCheck.

(** * Handling a client *)

Section HandleClient.

(** C2.  When no entry of the allow-list contains the source address,
    [handle_client] logs the attempt and the rejection, closes the client
    socket and returns: it dials nothing, starts no pump and leaves the
    registry and its file as they were. *)
Theorem rejected_client_never_dials (dial : result socket)
    (client_sock : socket) (ip : str) (port : Z) (w : world) :
  (forall a n, ip_address ip = Ok a -> In n (allowed_networks w) ->
               contains n a = false) ->
  exists w',
    handle_client dial client_sock (ip, port) w = (Ok tt, w')
    /\ dialed w' = dialed w
    /\ started w' = started w
    /\ closed w' = closed w ++ [client_sock]
    /\ allowed_networks w' = allowed_networks w
    /\ allowed_ips_file w' = allowed_ips_file w
    /\ log_file w' = log_file w ++ [ConnectionAttempt ip port; Rejected ip].
Proof.
  intros H.
  assert (Hno : forall w0, allowed_networks w0 = allowed_networks w ->
                           is_allowed ip w0 = (Ok false, w0)).
  { intros w0 E. rewrite is_allowed_run, E.
    destruct (ip_address ip) as [a|e] eqn:Ea; [|reflexivity].
    replace (existsb (fun net => contains net a) (allowed_networks w))
      with false; [reflexivity|].
    symmetry. apply not_true_is_false. intros Hex.
    apply existsb_exists in Hex as [n [Hin Hn]].
    rewrite (H a n eq_refl Hin) in Hn. discriminate. }
  unfold handle_client.
  rewrite bind_run, log_event_run. cbv beta iota.
  rewrite bind_run, Hno by reflexivity. cbv beta iota. cbn [negb].
  run.
  eexists. split; [reflexivity|].
  cbn. rewrite <- app_assoc. repeat split; reflexivity.
Qed.

End HandleClient.

(** * The byte pump *)

Section Forward.

Lemma forward_loop_relayed (io : list (result bytes * result unit)) :
  forall total,
    forward_loop io total
    = (total + relayed io,
       match find stops io with
       | None => Pending
       | Some (Raise e, _) => Except e
       | Some (Ok data, sendall) =>
           if null data then Break
           else match sendall with
                | Raise e => Except e
                | Ok _ => Pending
                end
       end).
Proof.
  induction io as [|[recv sendall] io IH]; intros total.
  - simpl. rewrite Z.add_0_r. reflexivity.
  - cbn [forward_loop relayed find stops fst].
    destruct recv as [data|e]; [|rewrite Z.add_0_r; reflexivity].
    destruct (null data) eqn:En; cbn [orb].
    { rewrite En, Z.add_0_r. reflexivity. }
    destruct sendall as [u|e]; [|rewrite En, Z.add_0_r; reflexivity].
    rewrite IH. rewrite Z.add_assoc. reflexivity.
Qed.

Lemma find_stops (io : list (result bytes * result unit)) :
  match find stops io with
  | None => existsb stops io = false
  | Some turn => existsb stops io = true /\ stops turn = true
  end.
Proof.
  induction io as [|turn io IH]; simpl; [reflexivity|].
  destruct (stops turn) eqn:E; [auto|]. simpl. exact IH.
Qed.

(** C7.  A call of [forward] returns exactly when some turn of its loop
    reads nothing or fails; it never raises; and when it returns it has
    printed and logged one record with the label, the bytes relayed and
    the duration, and closed the source and the destination. *)
Theorem forward_completion (io : list (result bytes * result unit))
    (start_time end_time : Z) (source destination : socket) (l : label)
    (w : world) :
  forward io start_time end_time source destination l w
  = if existsb stops io
    then (Ok true,
          after_forward
            (PumpClosed l (relayed io) (end_time - start_time))
            source destination w)
    else (Ok false, w).
Proof.
  unfold forward. rewrite forward_loop_relayed. rewrite Z.add_0_l.
  pose proof (find_stops io) as H.
  assert (Hret :
            (log_event (PumpClosed l (relayed io) (end_time - start_time)) ;;
             close source ;; close destination ;; ret true)%M w
            = (Ok true,
               after_forward
                 (PumpClosed l (relayed io) (end_time - start_time))
                 source destination w)).
  { run. rewrite ret_run. unfold after_forward. cbn.
    rewrite <- app_assoc. reflexivity. }
  destruct (find stops io) as [[[data|e] sendall]|].
  - destruct H as [-> Hs]. cbn [stops] in Hs.
    destruct (null data); [exact Hret|].
    destruct sendall as [u|e]; [discriminate | exact Hret].
  - destruct H as [-> _]. exact Hret.
  - rewrite H. reflexivity.
Qed.

End Forward.

(** * Stripping white space *)

Section Strip.

Lemma forallb_rev {A} (f : A -> bool) (l : list A) :
  forallb f (rev l) = forallb f l.
Proof.
  destruct (forallb f l) eqn:E.
  - rewrite forallb_forall in *. intros x Hx. apply E, in_rev, Hx.
  - destruct (forallb f (rev l)) eqn:E'; [|reflexivity].
    rewrite <- E. symmetry. rewrite forallb_forall in *.
    intros x Hx. apply E'. rewrite <- in_rev. exact Hx.
Qed.

Lemma lstrip_app (x y : str) :
  lstrip (x ++ y)
  = if forallb isspace x then lstrip y else lstrip x ++ y.
Proof.
  induction x as [|c x IH]; [reflexivity|].
  cbn [app lstrip forallb]. destruct (isspace c); [exact IH | reflexivity].
Qed.

Lemma lstrip_all_space (x : str) :
  forallb isspace x = true -> lstrip x = [].
Proof.
  induction x as [|c x IH]; [reflexivity|].
  cbn [forallb lstrip]. intros H. apply andb_true_iff in H as [-> H]. auto.
Qed.

Lemma lstrip_nil_all_space (x : str) :
  lstrip x = [] -> forallb isspace x = true.
Proof.
  induction x as [|c x IH]; [reflexivity|].
  cbn [forallb lstrip]. destruct (isspace c); [exact IH | discriminate].
Qed.

Lemma rstrip_all_space (x : str) :
  forallb isspace x = true -> rstrip x = [].
Proof.
  intros H. unfold rstrip. rewrite lstrip_all_space; [reflexivity|].
  rewrite forallb_rev. exact H.
Qed.

Lemma rstrip_cons (c : ascii) (s : str) :
  rstrip (c :: s)
  = if forallb isspace s && isspace c then [] else c :: rstrip s.
Proof.
  unfold rstrip. cbn [rev]. rewrite lstrip_app, forallb_rev.
  destruct (forallb isspace s) eqn:E; cbn [andb].
  - rewrite (lstrip_all_space (rev s)) by (rewrite forallb_rev; exact E).
    cbn [lstrip]. destruct (isspace c); reflexivity.
  - rewrite rev_app_distr. reflexivity.
Qed.

Lemma rstrip_app (p s : str) :
  forallb isspace s = false -> rstrip (p ++ s) = p ++ rstrip s.
Proof.
  intros H. unfold rstrip. rewrite rev_app_distr, lstrip_app, forallb_rev, H.
  rewrite rev_app_distr, rev_involutive. reflexivity.
Qed.

Lemma rstrip_idem (s : str) : rstrip (rstrip s) = rstrip s.
Proof. unfold rstrip. rewrite rev_involutive, lstrip_idem. reflexivity. Qed.

Lemma lstrip_rstrip (s : str) : lstrip (rstrip s) = rstrip (lstrip s).
Proof.
  induction s as [|c s IH]; [reflexivity|].
  rewrite rstrip_cons. cbn [lstrip].
  destruct (forallb isspace s) eqn:Es; cbn [andb].
  - destruct (isspace c) eqn:Ec.
    + rewrite <- IH, (rstrip_all_space s Es). reflexivity.
    + cbn [lstrip]. rewrite Ec, rstrip_cons, Es, Ec. reflexivity.
  - cbn [lstrip]. destruct (isspace c) eqn:Ec; [exact IH|].
    rewrite rstrip_cons, Es. reflexivity.
Qed.

Lemma strip_idem (s : str) : strip (strip s) = strip s.
Proof.
  unfold strip. rewrite lstrip_rstrip, lstrip_idem, rstrip_idem.
  reflexivity.
Qed.

Lemma strip_rstrip (s : str) : strip (rstrip s) = strip s.
Proof. unfold strip. rewrite lstrip_rstrip, rstrip_idem. reflexivity. Qed.

Lemma strip_not_all_space (s : str) :
  strip s <> [] -> forallb isspace s = false.
Proof.
  intros H. destruct (forallb isspace s) eqn:E; [|reflexivity].
  exfalso. apply H. unfold strip.
  rewrite (lstrip_all_space s E). reflexivity.
Qed.

(** What the console makes of a line [<word> <text>]: the word with its
    blank, then the text without white space at its end. *)
Lemma strip_command_line (word s : str) (c : ascii) :
  isspace c = false -> strip s <> [] ->
  strip ((c :: word) ++ s) = (c :: word) ++ rstrip s.
Proof.
  intros Hc Hs. unfold strip. cbn [app lstrip]. rewrite Hc.
  apply (rstrip_app (c :: word) s), strip_not_all_space, Hs.
Qed.

Lemma startswith_app (p s : str) : startswith p (p ++ s) = true.
Proof.
  induction p as [|c p IH]; [reflexivity|].
  cbn [app startswith]. rewrite Ascii.eqb_refl. exact IH.
Qed.

Lemma skipn_app_exact {A} (p s : list A) :
  skipn (List.length p) (p ++ s) = s.
Proof. induction p as [|c p IH]; [reflexivity | exact IH]. Qed.

End Strip.

(** * The console commands *)

Section Console.

Lemma list_remove_without_first (l : list Network) (x : Network) :
  list_contains l x = true -> list_remove l x = Ok (without_first l x).
Proof.
  unfold list_contains. induction l as [|item l IH]; [discriminate|].
  cbn [existsb list_remove without_first].
  destruct (network_eqb item x); [reflexivity|].
  cbn [orb]. intros H. rewrite (IH H). reflexivity.
Qed.

(** What the [add] branch does, case by case. *)
Lemma add_command_run (net_str : str) (w : world) :
  add_command net_str w
  = match ip_network net_str with
    | Raise _ => (Ok tt, set_stdout (stdout w ++ [InvalidFormat net_str]) w)
    | Ok n =>
        if list_contains (allowed_networks w) n
        then (Ok tt, set_stdout (stdout w ++ [AlreadyInList net_str]) w)
        else if allowed_ips_writable w
             then (Ok tt, after_add net_str n w)
             else (Raise OSError,
                   set_allowed_networks (allowed_networks w ++ [n]) w)
    end.
Proof.
  unfold add_command. rewrite try_catch_run, bind_run, lift_run.
  cbv beta iota.
  destruct (ip_network net_str) as [n|e] eqn:E.
  - rewrite bind_run, gets_run. cbv beta iota.
    destruct (list_contains (allowed_networks w) n).
    + rewrite print_run. reflexivity.
    + rewrite bind_run, modify_run. cbv beta iota.
      rewrite bind_run, gets_run. cbv beta iota.
      unfold save_allowed_networks.
      rewrite bind_run, bind_run, gets_run. cbv beta iota.
      cbn [allowed_ips_writable set_allowed_networks].
      destruct (allowed_ips_writable w) eqn:Ew.
      * rewrite modify_run. cbv beta iota.
        rewrite bind_run, log_event_run. cbv beta iota.
        rewrite print_run. unfold after_add. cbn.
        rewrite <- app_assoc. reflexivity.
      * rewrite raise_run. reflexivity.
  - apply ip_network_raises in E. subst e. cbn [is_ValueError].
    rewrite print_run. reflexivity.
Qed.

(** What the [remove] branch does, case by case. *)
Lemma remove_command_run (net_str : str) (w : world) :
  remove_command net_str w
  = match ip_network net_str with
    | Raise _ => (Ok tt, set_stdout (stdout w ++ [InvalidFormat net_str]) w)
    | Ok n =>
        if list_contains (allowed_networks w) n
        then if allowed_ips_writable w
             then (Ok tt, after_remove net_str n w)
             else (Raise OSError,
                   set_allowed_networks
                     (without_first (allowed_networks w) n) w)
        else (Ok tt, set_stdout (stdout w ++ [NotFound net_str]) w)
    end.
Proof.
  unfold remove_command. rewrite try_catch_run, bind_run, lift_run.
  cbv beta iota.
  destruct (ip_network net_str) as [n|e] eqn:E.
  - rewrite bind_run, gets_run. cbv beta iota.
    destruct (list_contains (allowed_networks w) n) eqn:Ec.
    + rewrite bind_run, lift_run, (list_remove_without_first _ _ Ec).
      cbv beta iota.
      rewrite bind_run, modify_run. cbv beta iota.
      rewrite bind_run, gets_run. cbv beta iota.
      unfold save_allowed_networks.
      rewrite bind_run, bind_run, gets_run. cbv beta iota.
      cbn [allowed_ips_writable set_allowed_networks].
      destruct (allowed_ips_writable w) eqn:Ew.
      * rewrite modify_run. cbv beta iota.
        rewrite bind_run, log_event_run. cbv beta iota.
        rewrite print_run. unfold after_remove. cbn.
        rewrite <- app_assoc. reflexivity.
      * rewrite raise_run. reflexivity.
    + rewrite print_run. reflexivity.
  - apply ip_network_raises in E. subst e. cbn [is_ValueError].
    rewrite print_run. reflexivity.
Qed.

End Console.

(** * Entries of the registry *)

Section Entries.

Lemma netmask_inj (v : ip_version) (p p' : Z) :
  0 <= p <= _max_prefixlen v -> 0 <= p' <= _max_prefixlen v ->
  _ip_int_from_prefix v p = _ip_int_from_prefix v p' -> p = p'.
Proof.
  intros Hp Hp' E.
  assert (Hlt : forall q q', 0 <= q <= _max_prefixlen v ->
                             0 <= q' <= _max_prefixlen v ->
                             _ip_int_from_prefix v q = _ip_int_from_prefix v q' ->
                             q < q' -> False).
  { intros q q' Hq Hq' Eq Hlt.
    assert (Hb : Z.testbit (_ip_int_from_prefix v q) (_max_prefixlen v - q')
                 = Z.testbit (_ip_int_from_prefix v q') (_max_prefixlen v - q'))
      by (rewrite Eq; reflexivity).
    rewrite !netmask_testbit in Hb by lia.
    destruct (Z.leb_spec (_max_prefixlen v - q) (_max_prefixlen v - q'));
      [lia|].
    destruct (Z.leb_spec (_max_prefixlen v - q') (_max_prefixlen v - q'));
      [|lia].
    destruct (Z.ltb_spec (_max_prefixlen v - q') (_max_prefixlen v)); [|lia].
    discriminate. }
  destruct (Z.lt_trichotomy p p') as [H|[H|H]]; [|assumption|].
  - exfalso. eapply (Hlt p p'); eauto.
  - exfalso. eapply (Hlt p' p); eauto.
Qed.

Lemma scope_eqb_eq (s t : option str) : scope_eqb s t = true <-> s = t.
Proof.
  destruct s as [s|], t as [t|]; simpl; split; try congruence.
  - intros H. apply str_eqb_eq in H. congruence.
  - intros [= ->]. apply str_eqb_refl.
Qed.

Lemma network_eqb_refl (n : Network) : network_eqb n n = true.
Proof.
  unfold network_eqb, address_eqb.
  rewrite !Z.eqb_refl.
  assert (Hv : forall v, version_eqb v v = true) by (intros []; reflexivity).
  rewrite !Hv. cbn [andb negb].
  destruct (_version (network_address n)); [reflexivity|].
  rewrite andb_true_r. apply scope_eqb_eq. reflexivity.
Qed.

(** On well-formed networks [==] is equality of version, address, scope
    and prefix length. *)
Lemma network_eqb_eq (n n' : Network) :
  wf_network n = true -> wf_network n' = true ->
  network_eqb n n' = true <-> n = n'.
Proof.
  intros Hn Hn'. split; [|intros ->; apply network_eqb_refl].
  destruct (wf_network_elim n Hn) as (Hv & Ha & Hp & Hm & _).
  destruct (wf_network_elim n' Hn') as (Hv' & Ha' & Hp' & Hm' & _).
  apply wf_address_elim in Ha as (_ & _ & Hs4).
  apply wf_address_elim in Ha' as (_ & _ & Hs4').
  unfold network_eqb, address_eqb. intros H.
  apply andb_true_iff in H as [H Hmask].
  apply andb_true_iff in H as [Hver Haddr].
  apply version_eqb_eq in Hver. apply Z.eqb_eq in Hmask.
  destruct n as [v a m p], n' as [v' a' m' p'].
  cbn [net_version network_address netmask _prefixlen] in *.
  rewrite <- Hver in *. clear Hver v'.
  subst m m'. cbn [_ip address_of_int] in Hmask.
  apply netmask_inj in Hmask; [|assumption|assumption]. subst p'.
  assert (a = a'); [|congruence].
  destruct a as [av aip asc], a' as [av' aip' asc'].
  cbn [_version _ip _scope_id] in *. subst av av'.
  destruct v.
  - apply andb_true_iff in Haddr as [Hip _]. apply Z.eqb_eq in Hip.
    rewrite (Hs4 eq_refl), (Hs4' eq_refl). congruence.
  - destruct ((aip =? aip') && version_eqb V6 V6) eqn:E;
      cbn [negb] in Haddr; [|discriminate].
    apply andb_true_iff in E as [Hip _]. apply Z.eqb_eq in Hip.
    apply scope_eqb_eq in Haddr. congruence.
Qed.

Lemma ip_address_cases (s : str) (a : Address) :
  ip_address s = Ok a ->
  (_version a = V4 /\ IPv4Address s = Ok a)
  \/ (_version a = V6 /\ IPv4Address s = Raise AddressValueError
      /\ IPv6Address s = Ok a).
Proof.
  unfold ip_address.
  destruct (IPv4Address s) as [a4|e4] eqn:E4; cbn [try_except].
  - intros [= <-]. left. split; [|reflexivity].
    apply IPv4Address_ok in E4. tauto.
  - apply IPv4Address_raises in E4. subst e4.
    cbn [is_address_or_netmask_error].
    destruct (IPv6Address s) as [a6|e6] eqn:E6; cbn [try_except].
    + intros [= <-]. right. repeat split; auto.
      apply IPv6Address_ok in E6. tauto.
    + destruct (is_address_or_netmask_error e6); discriminate.
Qed.

(** C4 as stated fails: ["10.0.0.1/24"] is not stored as 10.0.0.0/24 but
    refused with the format error, and the registry stays empty. *)
Lemma host_bits_not_canonicalized :
  ip_network (lit "10.0.0.1/24") = Raise ValueError
  /\ add_command (lit "10.0.0.1/24") empty_world
     = (Ok tt,
        set_stdout [InvalidFormat (lit "10.0.0.1/24")] empty_world)
  /\ allowed_networks (snd (add_command (lit "10.0.0.1/24") empty_world))
     = [].
Proof. vm_compute. repeat split. Qed.

End Entries.

(** * White space and the texts the constructors accept *)

(** Takes the first test of the goal apart. *)
Ltac case_if :=
  match goal with
  | |- context [if ?b then _ else _] => destruct b eqn:?
  end.

Section NoSpace.

(** White space is no digit and none of the separators. *)
Lemma isspace_not_digit (c : ascii) :
  isspace c = true ->
  is_digit c = false /\ is_hex_digit c = false
  /\ Ascii.eqb c "." = false /\ Ascii.eqb c ":" = false
  /\ Ascii.eqb c "%" = false.
Proof.
  intros H.
  assert (E : negb (isspace c)
              || (negb (is_digit c) && negb (is_hex_digit c)
                  && negb (Ascii.eqb c ".") && negb (Ascii.eqb c ":")
                  && negb (Ascii.eqb c "%")) = true).
  { revert c H. intros c _.
    apply (char_forall
             (fun c => negb (isspace c)
                       || (negb (is_digit c) && negb (is_hex_digit c)
                           && negb (Ascii.eqb c ".")
                           && negb (Ascii.eqb c ":")
                           && negb (Ascii.eqb c "%")))).
    vm_compute. reflexivity. }
  rewrite H in E. cbn [negb orb] in E.
  repeat (apply andb_true_iff in E as [E ?]).
  repeat split; apply negb_true_iff; assumption.
Qed.

Lemma digit_not_space (c : ascii) :
  is_digit c || Ascii.eqb c "." = true -> isspace c = false.
Proof.
  intros H. destruct (isspace c) eqn:E; [|reflexivity].
  destruct (isspace_not_digit c E) as (Hd & _ & Hdot & _).
  rewrite Hd, Hdot in H. discriminate.
Qed.

(** The first part of a text that does not start with the separator
    starts as the text does. *)
Lemma split_head (sep c : ascii) (rest : str) :
  Ascii.eqb c sep = false ->
  exists p ps, split sep (c :: rest) = (c :: p) :: ps.
Proof.
  intros H. cbn [split]. rewrite H.
  destruct (split sep rest) as [|p ps]; eauto.
Qed.

Lemma IPv4_no_leading_space (c : ascii) (rest : str) (x : Z) :
  isspace c = true ->
  _BaseV4._ip_int_from_string (c :: rest) <> Ok x.
Proof.
  intros Hc. destruct (isspace_not_digit c Hc) as (Hd & _ & Hdot & _).
  unfold _BaseV4._ip_int_from_string. cbn [null].
  destruct (split_head "." c rest Hdot) as (p & ps & ->).
  case_if; [discriminate|].
  cbn [map_result].
  assert (Ho : _BaseV4._parse_octet (c :: p) = Raise ValueError).
  { unfold _BaseV4._parse_octet, isascii_isdigit.
    cbn [null forallb negb andb]. rewrite Hd. reflexivity. }
  rewrite Ho. discriminate.
Qed.

Lemma parse_parts_each (parts : list str) (idx : list Z) :
  forall ip r i,
    _BaseV6.parse_parts parts idx ip = Ok r -> In i idx ->
    exists h, _BaseV6._parse_hextet (getitem parts i) = Ok h.
Proof.
  induction idx as [|j idx IH]; intros ip r i H Hi; [destruct Hi|].
  rewrite parse_parts_cons in H.
  apply rbind_ok in H as [h [Hh H]].
  destruct Hi as [<-|Hi]; [eauto|]. exact (IH _ _ _ H Hi).
Qed.

Lemma IPv6_no_leading_space (c : ascii) (rest : str) (x : Z) :
  isspace c = true ->
  _BaseV6._ip_int_from_string (c :: rest) <> Ok x.
Proof.
  intros Hc.
  destruct (isspace_not_digit c Hc) as (_ & Hh & _ & Hcolon & _).
  unfold _BaseV6._ip_int_from_string. cbn [null].
  destruct (split_head ":" c rest Hcolon) as (p & ps & ->).
  case_if; [discriminate|]. rename Heqb into Elen.
  intros H. apply rbind_ok in H as [parts [Hparts H]].
  assert (Hhead : exists qs, parts = (c :: p) :: qs).
  { revert Hparts.
    destruct (char_in "." (getitem ((c :: p) :: ps) (-1))).
    - intros Hparts. apply rbind_ok in Hparts as [a [_ Hparts]].
      inversion Hparts; subst parts.
      destruct ps as [|q qs]; [discriminate Elen|].
      cbn [removelast app]. eauto.
    - intros Hparts. inversion Hparts; subst parts. eauto. }
  destruct Hhead as [qs ->]. clear Hparts. revert H.
  case_if; [discriminate|].
  intros H. apply rbind_ok in H as [sk [Hsk H]].
  apply rbind_ok in H as [[[hi lo] skipped] [Hlay H]].
  assert (Hhi : 1 <= hi).
  { revert Hlay. unfold _BaseV6.layout.
    change (getitem ((c :: p) :: qs) 0) with (c :: p).
    cbn [null].
    destruct sk as [i|].
    - apply find_skip_index_some in Hsk. cbn [rbind].
      intros Hlay. apply rbind_ok in Hlay as [lo' [_ Hlay]].
      revert Hlay. case_if; [discriminate|].
      intros Hlay. apply Ok_inj3 in Hlay as (<- & _ & _). lia.
    - case_if; [discriminate|]. rename Heqb0 into E8.
      case_if; [discriminate|].
      intros Hlay. apply Ok_inj3 in Hlay as (<- & _ & _).
      apply negb_false_iff, Z.eqb_eq in E8. rewrite E8.
      unfold _BaseV6._HEXTET_COUNT. lia. }
  revert H.
  match goal with
  | |- try_except ?r _ _ = _ -> _ => destruct r as [y|e] eqn:E
  end; cbn [try_except].
  2:{ destruct (is_ValueError e); discriminate. }
  intros _. apply rbind_ok in E as [ip1 [H1 _]].
  destruct (parse_parts_each _ _ _ _ 0 H1) as [h Hparse];
    [apply range_In; lia|].
  revert Hparse. change (getitem ((c :: p) :: qs) 0) with (c :: p).
  unfold _BaseV6._parse_hextet. cbn [forallb].
  rewrite Hh. discriminate.
Qed.

(** A text that is an address does not start with white space. *)
Lemma ip_address_no_leading_space (s : str) (a : Address) :
  ip_address s = Ok a ->
  exists c rest, s = c :: rest /\ isspace c = false.
Proof.
  intros H. destruct s as [|c rest]; [vm_compute in H; discriminate|].
  exists c, rest. split; [reflexivity|].
  destruct (isspace c) eqn:Hc; [exfalso | reflexivity].
  destruct (isspace_not_digit c Hc) as (_ & _ & _ & _ & Hpct).
  destruct (ip_address_cases _ _ H) as [[_ H4]|(_ & _ & H6)].
  - revert H4. unfold IPv4Address.
    destruct (char_in "/" (c :: rest)); [discriminate|].
    intros H4. apply rbind_ok in H4 as [x [Hx _]].
    exact (IPv4_no_leading_space _ _ _ Hc Hx).
  - revert H6. unfold IPv6Address.
    destruct (char_in "/" (c :: rest)); [discriminate|].
    intros H6. apply rbind_ok in H6 as [[addr sc] [Hsc H6]].
    apply rbind_ok in H6 as [x [Hx _]].
    revert Hsc. unfold _BaseV6._split_scope_id. cbn [partition].
    rewrite Hpct.
    destruct (partition "%" rest) as [[a0 found] b].
    intros Hsc.
    assert (addr = c :: a0).
    { revert Hsc. destruct (negb found); [intros [= <- _]; reflexivity|].
      destruct (null b || char_in "%" b); [discriminate|].
      intros [= <- _]. reflexivity. }
    subst addr. exact (IPv6_no_leading_space _ _ _ Hc Hx).
Qed.

(** The parts of a text between separators cover its characters. *)
Lemma split_chars (Q : ascii -> bool) (sep : ascii) (s : str) :
  Forall (fun p => forallb Q p = true) (split sep s) ->
  forallb (fun c => Q c || Ascii.eqb c sep) s = true.
Proof.
  induction s as [|c s IH]; [reflexivity|].
  cbn [split forallb]. destruct (Ascii.eqb c sep) eqn:E.
  - intros H. inversion H as [|? ? _ Ht]; subst.
    rewrite orb_true_r. cbn [andb]. exact (IH Ht).
  - destruct (split sep s) as [|p ps] eqn:Es.
    + exfalso. exact (split_nonempty _ _ Es).
    + intros H. inversion H as [|? ? Hp Ht]; subst.
      cbn [forallb] in Hp. apply andb_true_iff in Hp as [Hc Hp].
      rewrite Hc. cbn [orb andb]. apply IH. constructor; assumption.
Qed.

Lemma parse_octet_digits (s : str) (b : Z) :
  _BaseV4._parse_octet s = Ok b -> forallb is_digit s = true.
Proof.
  unfold _BaseV4._parse_octet, isascii_isdigit.
  destruct (null s); [discriminate|]. cbn [negb andb].
  destruct (forallb is_digit s); [reflexivity | discriminate].
Qed.

Lemma no_space_rstrip (s : str) :
  forallb (fun c => negb (isspace c)) s = true -> rstrip s = s.
Proof.
  induction s as [|c s IH]; [reflexivity|].
  cbn [forallb]. intros H. apply andb_true_iff in H as [Hc Hs].
  apply negb_true_iff in Hc.
  rewrite rstrip_cons, Hc, andb_false_r, (IH Hs). reflexivity.
Qed.

Lemma forallb_impl {A} (f g : A -> bool) (l : list A) :
  (forall x, f x = true -> g x = true) ->
  forallb f l = true -> forallb g l = true.
Proof.
  intros Hfg H. rewrite forallb_forall in *. auto.
Qed.

(** The text of a netmask or prefix length holds no white space. *)
Lemma mask_no_space (v : ip_version) (mask : str) (m : Address) (p : Z) :
  make_netmask v (MaskStr mask) = Ok (m, p) ->
  mask <> [] /\ forallb (fun c => negb (isspace c)) mask = true.
Proof.
  assert (Hpre : forall v q,
            _prefix_from_prefix_string v mask = Ok q ->
            mask <> []
            /\ forallb (fun c => negb (isspace c)) mask = true).
  { intros v0 q. unfold _prefix_from_prefix_string, isascii_isdigit.
    destruct mask as [|c mask']; [discriminate|]. cbn [null negb andb].
    destruct (forallb is_digit (c :: mask')) eqn:E; [|discriminate].
    intros _. split; [discriminate|].
    apply (forallb_impl is_digit); [|exact E].
    intros x Hx. apply negb_true_iff, digit_not_space.
    rewrite Hx. reflexivity. }
  destruct v; cbn [make_netmask].
  - unfold _BaseV4._make_netmask. intros H.
    apply rbind_ok in H as [q [Hq _]]. revert Hq.
    destruct (_prefix_from_prefix_string V4 mask) as [q'|e] eqn:E.
    + intros _. exact (Hpre V4 q' E).
    + cbn [try_except].
      destruct (is_NetmaskValueError e); [|discriminate].
      unfold _BaseV4._prefix_from_ip_string. intros Hq.
      apply rbind_ok in Hq as [x [Hx _]]. revert Hx.
      destruct (_BaseV4._ip_int_from_string mask) as [x'|e'] eqn:Ex;
        [|cbn [try_except];
          destruct (is_AddressValueError e'); discriminate].
      intros _. revert Ex. unfold _BaseV4._ip_int_from_string.
      destruct mask as [|c mask']; [discriminate|]. cbn [null].
      case_if; [discriminate|].
      destruct (map_result _BaseV4._parse_octet (split "." (c :: mask')))
        as [bs|e''] eqn:Em;
        [|cbn [rbind try_except];
          destruct (is_ValueError e''); discriminate].
      intros _. split; [discriminate|].
      apply map_result_ok in Em.
      assert (Hparts : Forall (fun p => forallb is_digit p = true)
                         (split "." (c :: mask'))).
      { clear -Em. induction Em as [|o b l l' Hob _ IH]; constructor;
          [exact (parse_octet_digits _ _ Hob) | exact IH]. }
      apply split_chars in Hparts.
      apply (forallb_impl (fun c => is_digit c || Ascii.eqb c "."));
        [|exact Hparts].
      intros y Hy. apply negb_true_iff, digit_not_space, Hy.
  - unfold _BaseV6._make_netmask. intros H.
    apply rbind_ok in H as [q [Hq _]]. exact (Hpre V6 q Hq).
Qed.

(** A text [addr/mask] of an address and a mask is its own [strip]. *)
Lemma strip_addr_mask (addr mask : str) (a m : Address) (p : Z) :
  ip_address addr = Ok a ->
  make_netmask (_version a) (MaskStr mask) = Ok (m, p) ->
  strip (addr ++ lit "/" ++ mask) = addr ++ lit "/" ++ mask.
Proof.
  intros Ha Hm.
  destruct (ip_address_no_leading_space _ _ Ha) as (c & rest & -> & Hc).
  destruct (mask_no_space _ _ _ _ Hm) as [Hne Hns].
  unfold strip. cbn [app lstrip]. rewrite Hc.
  assert (E : (c :: rest ++ lit "/" ++ mask) = (c :: rest ++ lit "/") ++ mask).
  { cbn [app]. rewrite <- app_assoc. reflexivity. }
  rewrite E, rstrip_app, (no_space_rstrip _ Hns); [reflexivity|].
  destruct mask as [|d mask']; [congruence|].
  cbn [forallb] in *. apply andb_true_iff in Hns as [Hd _].
  apply negb_true_iff in Hd. rewrite Hd. reflexivity.
Qed.

End NoSpace.

(** * Loading and saving the registry *)

Section Persistence.

Lemma parse_entries_raises (data : json) (e : exn) :
  parse_entries data = Raise e -> is_Exception e = true.
Proof.
  unfold parse_entries. intros H.
  apply rbind_raise in H as [H|[entries [_ H]]].
  - destruct data; inversion H; reflexivity.
  - apply map_result_raise in H as [entry [_ H]].
    apply rbind_raise in H as [H|[s [_ H]]].
    + destruct entry; inversion H; reflexivity.
    + apply ip_network_raises in H. subst. reflexivity.
Qed.

(** What [load_allowed_networks] does, case by case. *)
Lemma load_allowed_networks_run (w : world) :
  load_allowed_networks w
  = match allowed_ips_file w with
    | Absent => (Ok [], w)
    | Corrupt =>
        (Ok [], set_stdout (stdout w ++ [ErrorLoading ValueError]) w)
    | Holds data =>
        match parse_entries data with
        | Ok nets => (Ok nets, w)
        | Raise e => (Ok [], set_stdout (stdout w ++ [ErrorLoading e]) w)
        end
    end.
Proof.
  unfold load_allowed_networks. rewrite bind_run, gets_run. cbv beta iota.
  destruct (allowed_ips_file w) as [| |data] eqn:Ef.
  - reflexivity.
  - rewrite try_catch_run, bind_run, lift_run. cbn [json_load].
    cbv beta iota. cbn [is_Exception]. run. reflexivity.
  - rewrite try_catch_run, bind_run, lift_run. cbn [json_load].
    cbv beta iota. rewrite bind_run, lift_run.
    pose proof (parse_entries_raises data) as Hr.
    unfold parse_entries in *.
    destruct (iterate data) as [entries|e] eqn:Ei; cbn [rbind] in *;
      cbv beta iota.
    + rewrite lift_run.
      destruct (map_result _ entries) as [nets|e]; [reflexivity|].
      rewrite (Hr e eq_refl). run. reflexivity.
    + rewrite (Hr e eq_refl). run. reflexivity.
Qed.

Lemma parse_entries_of_networks (N : list Network) :
  Forall (fun n => wf_network n = true) N ->
  parse_entries (json_of_networks N) = Ok N.
Proof.
  intros H. unfold parse_entries, json_of_networks. cbn [iterate rbind].
  induction H as [|n N Hn _ IH]; [reflexivity|].
  cbn [map map_result entry_strip rbind].
  rewrite strip_str_network, ip_network_round_trip by assumption.
  rewrite IH. reflexivity.
Qed.

(** C6.  Saving a list of networks and loading the file again gives the
    same list, hence the same members. *)
Theorem save_load_round_trip (N : list Network) (w : world) :
  Forall (fun n => wf_network n = true) N ->
  allowed_ips_writable w = true ->
  exists w' loaded,
    save_allowed_networks N w = (Ok tt, w')
    /\ load_allowed_networks w' = (Ok loaded, w')
    /\ loaded = N
    /\ forall n, In n loaded <-> In n N.
Proof.
  intros HN Hw.
  exists (set_allowed_ips_file (Holds (json_of_networks N)) w), N.
  split; [|split; [|split]].
  - unfold save_allowed_networks. rewrite bind_run, gets_run, Hw.
    cbv beta iota. reflexivity.
  - rewrite load_allowed_networks_run. cbn [allowed_ips_file set_allowed_ips_file].
    rewrite parse_entries_of_networks by assumption. reflexivity.
  - reflexivity.
  - tauto.
Qed.

(** C5 fails on the code: a file that names a network twice is loaded as
    two equal entries; [remove] then takes out one of them and the
    network stays allowed. *)
Theorem load_keeps_duplicates :
  let file :=
    Holds (JArray [JString (lit "10.0.0.0/24"); JString (lit "10.0.0.0/24")]) in
  let w1 := snd (startup (set_allowed_ips_file file empty_world)) in
  let w2 := snd (remove_command (lit "10.0.0.0/24") w1) in
  allowed_networks w1 = [net_10_0_0_0_24; net_10_0_0_0_24]
  /\ ~ NoDup (allowed_networks w1)
  /\ allowed_networks w2 = [net_10_0_0_0_24]
  /\ fst (is_allowed (lit "10.0.0.5") w2) = Ok true.
Proof.
  cbv zeta.
  assert (E : allowed_networks
                (snd (startup
                        (set_allowed_ips_file
                           (Holds (JArray [JString (lit "10.0.0.0/24");
                                           JString (lit "10.0.0.0/24")]))
                           empty_world)))
              = [net_10_0_0_0_24; net_10_0_0_0_24])
    by (vm_compute; reflexivity).
  split; [exact E|]. split; [|split].
  - rewrite E. intros H. inversion H as [|x l Hin _]; subst.
    apply Hin. left. reflexivity.
  - vm_compute. reflexivity.
  - vm_compute. reflexivity.
Qed.

(** C4, as the program has it.  A text [addr/mask] whose address has a
    bit set outside the mask is no network: [ip_network] raises
    [ValueError], [add] prints the format error and changes nothing, and
    a file that holds the text among its entries loads as the empty
    list.  So every network that [ip_network] returns, hence every entry
    of the registry, has no host bit set, and two entries are equal for
    [==] exactly when they are the same network. *)
Theorem host_bits_rejected (addr mask : str) (a m : Address) (p : Z)
    (w : world) :
  ip_address addr = Ok a ->
  char_in "/" mask = false ->
  make_netmask (_version a) (MaskStr mask) = Ok (m, p) ->
  Z.land (_ip a) (_ip m) <> _ip a ->
  ip_network (addr ++ lit "/" ++ mask) = Raise ValueError
  /\ add_command (addr ++ lit "/" ++ mask) w
     = (Ok tt,
        set_stdout (stdout w ++ [InvalidFormat (addr ++ lit "/" ++ mask)]) w)
  /\ (forall before after w1,
        allowed_ips_file w1
        = Holds (JArray (before
                         ++ JString (addr ++ lit "/" ++ mask) :: after)) ->
        exists e,
          load_allowed_networks w1
          = (Ok [], set_stdout (stdout w1 ++ [ErrorLoading e]) w1))
  /\ (forall s n,
        ip_network s = Ok n ->
        Z.land (_ip (network_address n)) (_ip (netmask n))
        = _ip (network_address n))
  /\ (forall s s' n n',
        ip_network s = Ok n -> ip_network s' = Ok n' ->
        (network_eqb n n' = true <-> n = n')).
Proof.
  intros Ha Hmask Hm Hbits.
  assert (Hrej : ip_network (addr ++ lit "/" ++ mask) = Raise ValueError).
  { apply Z.eqb_neq in Hbits.
    unfold ip_network.
    destruct (ip_address_cases _ _ Ha) as [[Hv H4]|(Hv & H4 & H6)];
      rewrite Hv in Hm; cbn [make_netmask] in Hm.
    - destruct (IPv4Address_ok _ _ H4) as (_ & _ & _ & Hslash & _).
      unfold IPv4Network.
      rewrite split_addr_prefix_slash by assumption. cbn [rbind].
      rewrite H4. cbn [rbind]. rewrite Hm. cbn [rbind].
      rewrite Hbits. reflexivity.
    - destruct (IPv6Address_ok _ _ H6) as (_ & _ & Hslash).
      unfold IPv4Network.
      rewrite split_addr_prefix_slash by assumption. cbn [rbind].
      rewrite H4. cbn [rbind try_except is_address_or_netmask_error].
      unfold IPv6Network.
      rewrite split_addr_prefix_slash by assumption. cbn [rbind].
      rewrite H6. cbn [rbind]. rewrite Hm. cbn [rbind].
      rewrite Hbits. reflexivity. }
  split; [exact Hrej|]. split; [|split; [|split]].
  - rewrite add_command_run, Hrej. reflexivity.
  - intros before after w1 Hf.
    rewrite load_allowed_networks_run, Hf. unfold parse_entries.
    cbn [iterate rbind].
    destruct (map_result_some_fails
                (fun entry => rbind (entry_strip entry) ip_network)
                (before ++ JString (addr ++ lit "/" ++ mask) :: after))
      as [e ->]; [|eauto].
    exists (JString (addr ++ lit "/" ++ mask)). split; [apply in_elt|].
    cbn [entry_strip rbind].
    rewrite (strip_addr_mask _ _ _ _ _ Ha Hm), Hrej. eauto.
  - intros s n Hn. apply ip_network_wf in Hn.
    destruct (wf_network_elim n Hn) as (_ & _ & _ & Hmk & Hland).
    rewrite Hmk. exact Hland.
  - intros s s' n n' Hn Hn'.
    apply network_eqb_eq; eapply ip_network_wf; eassumption.
Qed.

End Persistence.

(** * Lines typed at the console *)

Section ConsoleLines.

(** A line [add <text>] runs the [add] branch on the stripped text. *)
Lemma command_add_line (s : str) (w : world) :
  strip s <> [] ->
  command (Ok (lit "add " ++ s)) w
  = bind (add_command (strip s)) (fun _ => ret false) w.
Proof.
  intros Hs. unfold command. rewrite bind_run, lift_run. cbv beta iota zeta.
  change (lit "add " ++ s) with (("a"%char :: lit "dd ") ++ s).
  rewrite strip_command_line by (auto; reflexivity).
  change ("a"%char :: lit "dd ") with (lit "add ").
  rewrite startswith_app.
  change 4%nat with (List.length (lit "add ")).
  rewrite skipn_app_exact, strip_rstrip. reflexivity.
Qed.


(** C8 fails on the code: with a file that cannot be written, [add] of a
    new network leaves [command_interface] with [OSError]; nothing was
    printed, the network is in the registry, and the [list] typed next
    is never read. *)
Theorem save_failure_leaves_console :
  let w := mk_world [] Absent false [] [] [] [] [] false in
  command_interface [Ok (lit "add 10.0.0.0/24"); Ok (lit "list")] w
  = (Raise OSError, set_allowed_networks [net_10_0_0_0_24] w).
Proof. vm_compute. reflexivity. Qed.


(** C9 fails on the code: ["::1% "] is an IPv6 address, with scope id
    [" "]; loaded from the file it is stripped to ["::1%"], which is no
    address, and the whole load yields the empty list. *)
Lemma bare_ip_zone_space_not_loaded :
  ip_address (lit "::1% ") = Ok (mk_address V6 1 (Some (lit " ")))
  /\ let w := set_allowed_ips_file
                (Holds (JArray [JString (lit "::1% ")])) empty_world in
     load_allowed_networks w
     = (Ok [], set_stdout [ErrorLoading ValueError] w).
Proof. vm_compute. split; reflexivity. Qed.

(** C9, as the program has it.  When the text, stripped of white space at
    both ends, is an IP address, the file that holds it loads as the
    single-host network of that address, and the console line [add]
    followed by it appends that network: full prefix length, and an
    address is in it exactly when it has the same version and integer. *)
Theorem bare_ip_single_host (s : str) (a : Address) (w : world) :
  ip_address (strip s) = Ok a ->
  (let w1 := set_allowed_ips_file (Holds (JArray [JString s])) w in
   load_allowed_networks w1 = (Ok [host_network a], w1))
  /\ (list_contains (allowed_networks w) (host_network a) = false ->
      allowed_ips_writable w = true ->
      command (Ok (lit "add " ++ s)) w
      = (Ok false, after_add (strip s) (host_network a) w))
  /\ _prefixlen (host_network a) = _max_prefixlen (_version a)
  /\ (forall b, wf_address b = true ->
        contains (host_network a) b = true
        <-> _version b = _version a /\ _ip b = _ip a).
Proof.
  intros Ha. pose proof (ip_network_bare _ _ Ha) as Hn.
  split; [|split; [|split]].
  - cbv zeta. rewrite load_allowed_networks_run.
    cbn [allowed_ips_file set_allowed_ips_file].
    unfold parse_entries. cbn [iterate rbind map_result entry_strip].
    rewrite Hn. reflexivity.
  - intros Hc Hw. rewrite command_add_line.
    + rewrite bind_run, add_command_run, Hn, Hc, Hw. reflexivity.
    + intros E. rewrite E in Ha. discriminate.
  - reflexivity.
  - intros b Hb. apply host_network_contains; [|assumption].
    eapply ip_address_wf, Ha.
Qed.

End ConsoleLines.

(** * The statements at work *)

(** C1 at 10.0.0.5 and the registry [10.0.0.0/24]. *)
Lemma is_allowed_iff_in_some_network_witness :
  let w := set_allowed_networks [net_10_0_0_0_24] empty_world in
  ip_address (lit "10.0.0.5") = Ok addr_10_0_0_5
  /\ Forall (fun n => wf_network n = true) (allowed_networks w)
  /\ exists b,
       is_allowed (lit "10.0.0.5") w = (Ok b, w)
       /\ (b = true <->
           exists n, In n (allowed_networks w) /\ in_network addr_10_0_0_5 n)
       /\ forall w',
            Permutation (allowed_networks w) (allowed_networks w') ->
            is_allowed (lit "10.0.0.5") w' = (Ok b, w').
Proof.
  cbv zeta.
  assert (H1 : ip_address (lit "10.0.0.5") = Ok addr_10_0_0_5)
    by (vm_compute; reflexivity).
  assert (H2 : Forall (fun n => wf_network n = true)
                 (allowed_networks
                    (set_allowed_networks [net_10_0_0_0_24] empty_world)))
    by (repeat constructor).
  split; [exact H1|]. split; [exact H2|].
  exact (is_allowed_iff_in_some_network _ _ _ H1 H2).
Defined.

(** C10 at the text ["localhost"]. *)
Lemma is_allowed_invalid_is_false_witness :
  (forall a, ip_address (lit "localhost") <> Ok a)
  /\ is_allowed (lit "localhost") empty_world = (Ok false, empty_world).
Proof.
  assert (H : forall a, ip_address (lit "localhost") <> Ok a)
    by (intros a; vm_compute; discriminate).
  split; [exact H|].
  exact (is_allowed_invalid_is_false _ _ H).
Defined.

(** C2 at a client from 192.168.1.1 and the registry [10.0.0.0/24]. *)
Lemma rejected_client_never_dials_witness :
  let w := set_allowed_networks [net_10_0_0_0_24] empty_world in
  (forall a n, ip_address (lit "192.168.1.1") = Ok a ->
               In n (allowed_networks w) -> contains n a = false)
  /\ exists w',
       handle_client (Ok 2%nat) 1%nat (lit "192.168.1.1", 50000) w = (Ok tt, w')
       /\ dialed w' = dialed w
       /\ started w' = started w
       /\ closed w' = closed w ++ [1%nat]
       /\ allowed_networks w' = allowed_networks w
       /\ allowed_ips_file w' = allowed_ips_file w
       /\ log_file w' = log_file w ++ [ConnectionAttempt (lit "192.168.1.1") 50000;
                                        Rejected (lit "192.168.1.1")].
Proof.
  cbv zeta.
  assert (H : forall a n, ip_address (lit "192.168.1.1") = Ok a ->
                          In n (allowed_networks
                                  (set_allowed_networks [net_10_0_0_0_24]
                                     empty_world)) ->
                          contains n a = false).
  { intros a n Ha Hn.
    assert (E : ip_address (lit "192.168.1.1") = Ok addr_192_168_1_1)
      by (vm_compute; reflexivity).
    rewrite E in Ha. inversion Ha; subst a.
    destruct Hn as [<-|[]]. vm_compute. reflexivity. }
  split; [exact H|].
  exact (rejected_client_never_dials _ _ _ _ _ H).
Defined.

(** C4 at the text ["10.0.0.1/24"]. *)
Lemma host_bits_rejected_witness :
  ip_address (lit "10.0.0.1") = Ok (mk_address V4 167772161 None)
  /\ char_in "/" (lit "24") = false
  /\ make_netmask V4 (MaskStr (lit "24"))
     = Ok (address_of_int V4 4294967040, 24)
  /\ Z.land 167772161 4294967040 <> 167772161
  /\ ip_network (lit "10.0.0.1" ++ lit "/" ++ lit "24") = Raise ValueError
  /\ exists e,
       let w := set_allowed_ips_file
                  (Holds (JArray [JString (lit "10.0.0.0/24");
                                  JString (lit "10.0.0.1" ++ lit "/"
                                           ++ lit "24")]))
                  empty_world in
       load_allowed_networks w
       = (Ok [], set_stdout (stdout w ++ [ErrorLoading e]) w).
Proof.
  assert (H1 : ip_address (lit "10.0.0.1") = Ok (mk_address V4 167772161 None))
    by (vm_compute; reflexivity).
  assert (H2 : char_in "/" (lit "24") = false) by reflexivity.
  assert (H3 : make_netmask (_version (mk_address V4 167772161 None))
                 (MaskStr (lit "24"))
               = Ok (address_of_int V4 4294967040, 24))
    by (vm_compute; reflexivity).
  assert (H4 : Z.land (_ip (mk_address V4 167772161 None))
                 (_ip (address_of_int V4 4294967040))
               <> _ip (mk_address V4 167772161 None))
    by (vm_compute; discriminate).
  split; [exact H1|]. split; [exact H2|]. split; [exact H3|].
  split; [exact H4|].
  destruct (host_bits_rejected _ _ _ _ _ empty_world H1 H2 H3 H4)
    as (Hrej & _ & Hload & _).
  split; [exact Hrej|].
  exact (Hload [JString (lit "10.0.0.0/24")] []
           (set_allowed_ips_file
              (Holds (JArray [JString (lit "10.0.0.0/24");
                              JString (lit "10.0.0.1" ++ lit "/"
                                       ++ lit "24")]))
              empty_world)
           eq_refl).
Defined.

(** C6 at the list [10.0.0.0/24]. *)
Lemma save_load_round_trip_witness :
  Forall (fun n => wf_network n = true) [net_10_0_0_0_24]
  /\ allowed_ips_writable empty_world = true
  /\ exists w' loaded,
       save_allowed_networks [net_10_0_0_0_24] empty_world = (Ok tt, w')
       /\ load_allowed_networks w' = (Ok loaded, w')
       /\ loaded = [net_10_0_0_0_24]
       /\ forall n, In n loaded <-> In n [net_10_0_0_0_24].
Proof.
  assert (H1 : Forall (fun n => wf_network n = true) [net_10_0_0_0_24])
    by (repeat constructor).
  split; [exact H1|]. split; [reflexivity|].
  exact (save_load_round_trip _ empty_world H1 eq_refl).
Defined.

(** C9 at the text [" 10.0.0.5 "]: the white space around it is dropped. *)
Lemma bare_ip_single_host_witness :
  ip_address (strip (lit " 10.0.0.5 ")) = Ok addr_10_0_0_5
  /\ (let w1 := set_allowed_ips_file
                  (Holds (JArray [JString (lit " 10.0.0.5 ")])) empty_world in
      load_allowed_networks w1 = (Ok [host_network addr_10_0_0_5], w1)).
Proof.
  assert (H : ip_address (strip (lit " 10.0.0.5 ")) = Ok addr_10_0_0_5)
    by (vm_compute; reflexivity).
  split; [exact H|].
  exact (proj1 (bare_ip_single_host _ _ empty_world H)).
Defined.

(** * The registry over a console session *)

Section Session.

Lemma parse_entries_wf (data : json) (nets : list Network) :
  parse_entries data = Ok nets ->
  Forall (fun n => wf_network n = true) nets.
Proof.
  unfold parse_entries. intros H. apply rbind_ok in H as [entries [_ H]].
  apply map_result_ok in H.
  induction H as [|x y l l' Hxy _ IH]; constructor; [|exact IH].
  apply rbind_ok in Hxy as [s [_ Hs]]. exact (ip_network_wf _ _ Hs).
Qed.

Lemma set_stdout_same (w : world) : set_stdout (stdout w) w = w.
Proof. destruct w; reflexivity. Qed.

(** The loop of the [list] branch. *)
Lemma print_items_run (nets : list Network) (m : M unit) (w w1 : world) :
  m w = (Ok tt, w1) ->
  fold_left (fun m net => bind m (fun _ => print (ListItem net))) nets m w
  = (Ok tt, set_stdout (stdout w1 ++ map ListItem nets) w1).
Proof.
  revert m w1. induction nets as [|net nets IH]; intros m w1 Hm.
  - cbn [fold_left map]. rewrite app_nil_r, set_stdout_same. exact Hm.
  - cbn [fold_left map].
    rewrite (IH _ (set_stdout (stdout w1 ++ [ListItem net]) w1)).
    + cbn [stdout set_stdout]. rewrite <- app_assoc. reflexivity.
    + rewrite bind_run, Hm, print_run. reflexivity.
Qed.

Lemma list_command_run (w : world) :
  list_command w
  = (Ok tt,
     set_stdout (stdout w ++ ListHeader :: map ListItem (allowed_networks w))
       w).
Proof.
  unfold list_command. rewrite bind_run, gets_run. cbv beta iota.
  rewrite bind_run, print_run. cbv beta iota.
  rewrite (print_items_run _ _ _ (set_stdout (stdout w ++ [ListHeader]) w))
    by reflexivity.
  cbn [stdout set_stdout allowed_networks]. rewrite <- app_assoc.
  reflexivity.
Qed.

(** What one console line may do to the registry and to its file. *)
Lemma command_registry (line : result str) (w : world) :
  allowed_ips_writable (snd (command line w)) = allowed_ips_writable w
  /\ ((allowed_networks (snd (command line w)) = allowed_networks w
       /\ allowed_ips_file (snd (command line w)) = allowed_ips_file w)
      \/ exists s n,
           ip_network s = Ok n
           /\ (list_contains (allowed_networks w) n = false
               /\ allowed_networks (snd (command line w))
                  = allowed_networks w ++ [n]
               \/ list_contains (allowed_networks w) n = true
                  /\ allowed_networks (snd (command line w))
                     = without_first (allowed_networks w) n)
           /\ allowed_ips_file (snd (command line w))
              = if allowed_ips_writable w
                then Holds (json_of_networks
                              (allowed_networks (snd (command line w))))
                else allowed_ips_file w).
Proof.
  unfold command. rewrite bind_run, lift_run.
  destruct line as [l|e]; [|split; [reflexivity | left; split; reflexivity]].
  cbv beta iota zeta. set (cmd := strip l).
  destruct (startswith (lit "add ") cmd).
  { set (s := strip (skipn 4 cmd)).
    rewrite bind_run, add_command_run.
    destruct (ip_network s) as [n|e] eqn:En;
      [|split; [reflexivity | left; split; reflexivity]].
    destruct (list_contains (allowed_networks w) n) eqn:Ec;
      [split; [reflexivity | left; split; reflexivity]|].
    destruct (allowed_ips_writable w) eqn:Ew;
      (split; [exact Ew|]; right; exists s, n; split; [exact En|];
       split; [left; split; [exact Ec | reflexivity] | reflexivity]). }
  destruct (startswith (lit "remove ") cmd).
  { set (s := strip (skipn 7 cmd)).
    rewrite bind_run, remove_command_run.
    destruct (ip_network s) as [n|e] eqn:En;
      [|split; [reflexivity | left; split; reflexivity]].
    destruct (list_contains (allowed_networks w) n) eqn:Ec;
      [|split; [reflexivity | left; split; reflexivity]].
    destruct (allowed_ips_writable w) eqn:Ew;
      (split; [exact Ew|]; right; exists s, n; split; [exact En|];
       split; [right; split; [exact Ec | reflexivity] | reflexivity]). }
  destruct (str_eqb cmd (lit "list")).
  { rewrite bind_run, list_command_run.
    split; [reflexivity | left; split; reflexivity]. }
  destruct (str_eqb cmd (lit "exit") || str_eqb cmd (lit "quit")
            || str_eqb cmd (lit "stop"));
    split; solve [reflexivity | left; split; reflexivity].
Qed.

(** What every console line keeps, the whole session keeps. *)
Lemma command_interface_keeps (P : world -> Prop) :
  (forall line w, P w -> P (snd (command line w))) ->
  (forall w, P w -> P (set_stop_event true w)) ->
  forall lines w, P w -> P (snd (command_interface lines w)).
Proof.
  intros Hc Hs. induction lines as [|line lines IH]; intros w Hw;
    cbn [command_interface].
  - destruct (stop_event w); exact Hw.
  - destruct (stop_event w); [exact Hw|].
    rewrite try_catch_run. specialize (Hc line w Hw).
    destruct (command line w) as [[[|]|e] w1]; cbn [snd] in Hc.
    + exact Hc.
    + apply IH, Hc.
    + destruct (is_EOFError_or_KeyboardInterrupt e); [|exact Hc].
      rewrite bind_run, modify_run. cbv beta iota. rewrite ret_run.
      apply IH, Hs, Hc.
Qed.

Lemma Forall_without_first (P : Network -> Prop) (l : list Network)
    (x : Network) :
  Forall P l -> Forall P (without_first l x).
Proof.
  induction 1 as [|item l Hi Hl IH]; cbn [without_first]; [constructor|].
  destruct (network_eqb item x); [exact Hl | constructor; assumption].
Qed.

Lemma In_without_first (l : list Network) (x m : Network) :
  In m (without_first l x) -> In m l.
Proof.
  induction l as [|item l IH]; cbn [without_first]; [auto|].
  destruct (network_eqb item x); cbn [In]; intuition.
Qed.

Lemma NoDup_without_first (l : list Network) (x : Network) :
  NoDup l -> NoDup (without_first l x).
Proof.
  induction 1 as [|item l Hi Hl IH]; cbn [without_first]; [constructor|].
  destruct (network_eqb item x); [exact Hl|].
  constructor; [|exact IH]. intros H. apply Hi, (In_without_first _ _ _ H).
Qed.

Lemma list_contains_false_not_In (l : list Network) (n : Network) :
  list_contains l n = false -> ~ In n l.
Proof.
  unfold list_contains. intros H Hin.
  assert (E : existsb (fun item => network_eqb item n) l = true).
  { apply existsb_exists. exists n. split; [exact Hin|].
    apply network_eqb_refl. }
  congruence.
Qed.

Lemma command_keeps_wf (line : result str) (w : world) :
  Forall (fun n => wf_network n = true) (allowed_networks w) ->
  Forall (fun n => wf_network n = true)
    (allowed_networks (snd (command line w))).
Proof.
  intros Hw.
  destruct (command_registry line w)
    as [_ [[-> _]|(s & n & Hn & [[_ ->]|[_ ->]] & _)]].
  - exact Hw.
  - apply Forall_app. split; [exact Hw|]. constructor; [|constructor].
    exact (ip_network_wf _ _ Hn).
  - apply Forall_without_first, Hw.
Qed.

Lemma startup_run (w : world) :
  exists nets w1,
    load_allowed_networks w = (Ok nets, w1)
    /\ startup w = (Ok tt, set_allowed_networks nets w1)
    /\ Forall (fun n => wf_network n = true) nets
    /\ allowed_ips_file w1 = allowed_ips_file w
    /\ allowed_ips_writable w1 = allowed_ips_writable w.
Proof.
  unfold startup. rewrite bind_run, load_allowed_networks_run.
  destruct (allowed_ips_file w) as [| |data] eqn:Ef.
  - exists [], w. rewrite modify_run. repeat split; auto.
  - eexists [], _. rewrite modify_run.
    split; [reflexivity|]. split; [reflexivity|]. repeat split; auto.
  - destruct (parse_entries data) as [nets|e] eqn:Ep.
    + exists nets, w. rewrite modify_run.
      split; [reflexivity|]. split; [reflexivity|].
      split; [exact (parse_entries_wf _ _ Ep)|]. split; auto.
    + eexists [], _. rewrite modify_run.
      split; [reflexivity|]. split; [reflexivity|]. repeat split; auto.
Qed.

Lemma load_fst_file (w w' : world) :
  allowed_ips_file w = allowed_ips_file w' ->
  fst (load_allowed_networks w) = fst (load_allowed_networks w').
Proof.
  intros E. rewrite !load_allowed_networks_run, E.
  destruct (allowed_ips_file w') as [| |data]; try reflexivity.
  destruct (parse_entries data); reflexivity.
Qed.

Lemma load_fst_saved (N : list Network) (w : world) :
  Forall (fun n => wf_network n = true) N ->
  allowed_ips_file w = Holds (json_of_networks N) ->
  fst (load_allowed_networks w) = Ok N.
Proof.
  intros HN E.
  rewrite load_allowed_networks_run, E, parse_entries_of_networks by exact HN.
  reflexivity.
Qed.



(** X2.  One entry of the file that is not the text of a network (or is
    no text at all) costs the whole file: nothing is loaded, whatever the
    entries around it are, and the loading error is printed. *)
Theorem one_bad_entry_empties_load (before after : list json) (bad : json)
    (w : world) :
  loads bad = false ->
  allowed_ips_file w = Holds (JArray (before ++ bad :: after)) ->
  exists e,
    load_allowed_networks w
    = (Ok [], set_stdout (stdout w ++ [ErrorLoading e]) w).
Proof.
  intros Hbad Hf. rewrite load_allowed_networks_run, Hf.
  unfold parse_entries. cbn [iterate rbind].
  destruct (map_result_some_fails
              (fun entry => rbind (entry_strip entry) ip_network)
              (before ++ bad :: after)) as [e ->]; [|eauto].
  exists bad. split; [apply in_elt|].
  unfold loads in Hbad.
  destruct (rbind (entry_strip bad) ip_network) as [n|e];
    [discriminate | eauto].
Qed.

(** X3.  Every entry of the registry is a network as [ip_network] builds
    it (prefix length within the width, the netmask of that length, no
    host bit set), from the start of the process on and after any lines
    typed at the console. *)
Theorem registry_entries_well_formed (lines : list (result str))
    (w0 : world) :
  Forall (fun n => wf_network n = true)
    (allowed_networks (snd (command_interface lines (snd (startup w0))))).
Proof.
  apply (command_interface_keeps
           (fun w => Forall (fun n => wf_network n = true)
                       (allowed_networks w))).
  - apply command_keeps_wf.
  - intros w H. exact H.
  - destruct (startup_run w0) as (nets & w1 & _ & -> & Hwf & _).
    exact Hwf.
Qed.

(** X4.  The console never creates a duplicate: when the registry holds
    no network twice, it holds none twice after any lines typed. *)
Theorem console_keeps_entries_distinct (lines : list (result str))
    (w : world) :
  NoDup (allowed_networks w) ->
  NoDup (allowed_networks (snd (command_interface lines w))).
Proof.
  apply (command_interface_keeps (fun w => NoDup (allowed_networks w))).
  - clear. intros line w Hw.
    destruct (command_registry line w)
      as [_ [[-> _]|(s & n & Hn & [[Hc ->]|[_ ->]] & _)]].
    + exact Hw.
    + apply NoDup_app; [exact Hw | repeat constructor; intros [] |].
      intros x Hx [<-|[]]. exact (list_contains_false_not_In _ _ Hc Hx).
    + apply NoDup_without_first, Hw.
  - intros w0 H. exact H.
Qed.

(** X5.  While the file can be written, the file on disk reads back as
    exactly the registry in memory at every point of a console session:
    what was added and removed is there after a restart. *)
Theorem session_survives_restart (lines : list (result str)) (w0 : world) :
  allowed_ips_writable w0 = true ->
  file_mirrors_registry
    (snd (command_interface lines (snd (startup w0)))).
Proof.
  intros Hw0.
  enough (H : allowed_ips_writable
                (snd (command_interface lines (snd (startup w0)))) = true
              /\ Forall (fun n => wf_network n = true)
                   (allowed_networks
                      (snd (command_interface lines (snd (startup w0)))))
              /\ file_mirrors_registry
                   (snd (command_interface lines (snd (startup w0)))))
    by apply H.
  apply (command_interface_keeps
           (fun w => allowed_ips_writable w = true
                     /\ Forall (fun n => wf_network n = true)
                          (allowed_networks w)
                     /\ file_mirrors_registry w)).
  - clear. intros line w (Hw & Hwf & Hm).
    pose proof (command_keeps_wf line w Hwf) as Hwf'.
    destruct (command_registry line w) as [Hw' Hr].
    split; [congruence|]. split; [exact Hwf'|].
    unfold file_mirrors_registry in *.
    destruct Hr as [[Hn Hf]|(s & n & _ & _ & Hf)].
    + rewrite Hn, <- Hm. apply load_fst_file, Hf.
    + rewrite Hw in Hf. apply load_fst_saved; assumption.
  - clear. intros w (Hw & Hwf & Hm). split; [exact Hw|].
    split; [exact Hwf|]. unfold file_mirrors_registry in *.
    cbn [allowed_networks set_stop_event]. rewrite <- Hm.
    apply load_fst_file. reflexivity.
  - destruct (startup_run w0) as (nets & w1 & Hl & -> & Hwf & Hf & Hw).
    cbn [snd]. split; [cbn; congruence|]. split; [exact Hwf|].
    unfold file_mirrors_registry. cbn [allowed_networks set_allowed_networks].
    rewrite (load_fst_file _ w0) by (cbn; exact Hf).
    rewrite Hl. reflexivity.
Qed.

End Session.

(** * Adding, removing and admitting *)

Section Membership.







(** X8.  A client whose address lies in an entry of the allow-list is
    connected to the destination, once.  When the connection is made, the
    two pumps are started, client to destination first, and no socket is
    closed; when it fails, the failure is logged, the client socket is
    closed and no pump is started. *)
Theorem admitted_client_is_forwarded (dial : result socket)
    (client_sock : socket) (ip : str) (port : Z) (a : Address)
    (n : Network) (w : world) :
  ip_address ip = Ok a ->
  In n (allowed_networks w) ->
  contains n a = true ->
  match dial with
  | Ok server_sock =>
      exists w',
        handle_client dial client_sock (ip, port) w = (Ok tt, w')
        /\ dialed w' = dialed w ++ [(DEST_HOST, DEST_PORT)]
        /\ started w'
           = started w
             ++ [mk_thread client_sock server_sock (ToDest ip port);
                 mk_thread server_sock client_sock (FromDest ip port)]
        /\ closed w' = closed w
        /\ log_file w'
           = log_file w
             ++ [ConnectionAttempt ip port; AcceptedForwarded ip;
                 Connected ip port]
  | Raise e =>
      if is_Exception e then
        exists w',
          handle_client dial client_sock (ip, port) w = (Ok tt, w')
          /\ dialed w' = dialed w ++ [(DEST_HOST, DEST_PORT)]
          /\ started w' = started w
          /\ closed w' = closed w ++ [client_sock]
          /\ log_file w'
             = log_file w ++ [ConnectionAttempt ip port; ErrorConnecting e]
      else
        exists w',
          handle_client dial client_sock (ip, port) w = (Raise e, w')
          /\ started w' = started w
          /\ closed w' = closed w
  end.
Proof.
  intros Ha Hn Hc.
  assert (Hyes : forall w0, allowed_networks w0 = allowed_networks w ->
                            is_allowed ip w0 = (Ok true, w0)).
  { intros w0 E. rewrite is_allowed_run, E, Ha.
    replace (existsb (fun net => contains net a) (allowed_networks w))
      with true; [reflexivity|].
    symmetry. apply existsb_exists. eauto. }
  unfold handle_client.
  rewrite bind_run, log_event_run. cbv beta iota.
  rewrite bind_run, Hyes by reflexivity. cbv beta iota. cbn [negb].
  unfold create_connection, start_forward.
  destruct dial as [server_sock|e].
  - run. eexists. split; [reflexivity|].
    cbn. rewrite <- !app_assoc. repeat split; reflexivity.
  - destruct (is_Exception e) eqn:Ee.
    + run. rewrite lift_run. cbv beta iota. rewrite Ee. run.
      eexists. split; [reflexivity|].
      cbn. rewrite <- !app_assoc. repeat split; reflexivity.
    + run. rewrite lift_run. cbv beta iota. rewrite Ee.
      eexists. split; [reflexivity|].
      split; reflexivity.
Qed.

End Membership.

(** * The console loop *)

Section ConsoleLoop.

Lemma command_interface_stopped (lines : list (result str)) (w : world) :
  stop_event w = true -> command_interface lines w = (Ok Returned, w).
Proof. intros H. destruct lines; cbn [command_interface]; rewrite H; reflexivity. Qed.

Lemma rstrip_app_space (p s : str) :
  forallb isspace s = true -> rstrip (p ++ s) = rstrip p.
Proof.
  intros H. unfold rstrip.
  rewrite rev_app_distr, lstrip_app, forallb_rev, H. reflexivity.
Qed.

(** X9.  When [input] raises at the console, end of input and a keyboard
    interrupt set the stop event and [command_interface] returns, having
    printed nothing; any other exception leaves the function and the
    stop event unset.  Lines after it are not read. *)
Theorem console_input_failure (e : exn) (lines : list (result str))
    (w : world) :
  stop_event w = false ->
  command_interface (Raise e :: lines) w
  = if is_EOFError_or_KeyboardInterrupt e
    then (Ok Returned, set_stop_event true w)
    else (Raise e, w).
Proof.
  intros Hs. cbn [command_interface]. rewrite Hs, try_catch_run.
  unfold command. rewrite bind_run, lift_run.
  destruct (is_EOFError_or_KeyboardInterrupt e); [|reflexivity].
  rewrite bind_run, modify_run. cbv beta iota. rewrite ret_run.
  apply command_interface_stopped. reflexivity.
Qed.

(** X10.  A line that is ["exit"], ["quit"] or ["stop"] once white space
    around it is dropped logs the stop, sets the stop event and ends
    [command_interface]; the registry and its file stay as they are and
    lines after it are not read. *)
Theorem stop_command_ends_console (line : str) (lines : list (result str))
    (w : world) :
  stop_event w = false ->
  In (strip line) [lit "exit"; lit "quit"; lit "stop"] ->
  command_interface (Ok line :: lines) w
  = (Ok Returned,
     set_stop_event true
       (set_log_file (log_file w ++ [StoppingViaCommand])
          (set_stdout (stdout w ++ [StoppingViaCommand]) w))).
Proof.
  intros Hs Hin. cbn [command_interface]. rewrite Hs, try_catch_run.
  unfold command. rewrite bind_run, lift_run. cbv beta iota zeta.
  destruct Hin as [<-|[<-|[<-|[]]]]; cbn [lit list_ascii_of_string];
    cbn [startswith str_eqb Ascii.eqb Bool.eqb andb orb];
    run; reflexivity.
Qed.

(** X11.  A line that is ["list"] once white space around it is dropped
    prints the header and then the networks of the registry in their
    order, and changes nothing else. *)
Theorem list_command_prints_registry (line : str) (w : world) :
  strip line = lit "list" ->
  command (Ok line) w
  = (Ok false,
     set_stdout
       (stdout w ++ ListHeader :: map ListItem (allowed_networks w)) w).
Proof.
  intros H. unfold command. rewrite bind_run, lift_run.
  cbv beta iota zeta. rewrite H. cbn [lit list_ascii_of_string].
  cbn [startswith str_eqb Ascii.eqb Bool.eqb andb orb].
  rewrite bind_run, list_command_run. reflexivity.
Qed.

(** X12.  [add] or [remove] with nothing but white space after the word
    is answered with the usage line, not with a format error; nothing
    else changes. *)
Theorem bare_word_prints_usage (s : str) (w : world) :
  forallb isspace s = true ->
  command (Ok (lit "add" ++ s)) w
  = (Ok false, set_stdout (stdout w ++ [Usage]) w)
  /\ command (Ok (lit "remove" ++ s)) w
     = (Ok false, set_stdout (stdout w ++ [Usage]) w).
Proof.
  intros H.
  assert (Hadd : strip (lit "add" ++ s) = lit "add").
  { unfold strip. change (lstrip (lit "add" ++ s)) with (lit "add" ++ s).
    rewrite (rstrip_app_space _ _ H). reflexivity. }
  assert (Hrem : strip (lit "remove" ++ s) = lit "remove").
  { unfold strip.
    change (lstrip (lit "remove" ++ s)) with (lit "remove" ++ s).
    rewrite (rstrip_app_space _ _ H). reflexivity. }
  unfold command. rewrite !bind_run, !lift_run. cbv beta iota zeta.
  rewrite Hadd, Hrem. split; reflexivity.
Qed.


End ConsoleLoop.

(** * Lines that undo or repeat one another *)

Section Composition.










End Composition.

(** * Entries of the file *)

Section FileEntries.

Lemma strip_entries (ss : list str) :
  map_result (fun entry => rbind (entry_strip entry) ip_network)
    (map (fun s => JString (strip s)) ss)
  = map_result (fun entry => rbind (entry_strip entry) ip_network)
      (map JString ss).
Proof.
  induction ss as [|s ss IH]; [reflexivity|].
  cbn [map map_result entry_strip rbind]. rewrite strip_idem, IH.
  reflexivity.
Qed.

(** X16.  White space around an entry of the file does not count: the
    file loads, and fails to load, as the file with every entry
    stripped does. *)
Theorem load_ignores_space_around_entries (ss : list str) (w : world) :
  let padded := set_allowed_ips_file (Holds (JArray (map JString ss))) w in
  let stripped :=
    set_allowed_ips_file
      (Holds (JArray (map (fun s => JString (strip s)) ss))) w in
  fst (load_allowed_networks padded) = fst (load_allowed_networks stripped)
  /\ stdout (snd (load_allowed_networks padded))
     = stdout (snd (load_allowed_networks stripped)).
Proof.
  cbv zeta. rewrite !load_allowed_networks_run.
  cbn [allowed_ips_file set_allowed_ips_file].
  unfold parse_entries. cbn [iterate rbind]. rewrite strip_entries.
  destruct (map_result _ (map JString ss)); split; reflexivity.
Qed.

Lemma one_char_never_loads (c : ascii) : loads (JString [c]) = false.
Proof.
  apply negb_true_iff.
  apply (char_forall (fun c => negb (loads (JString [c])))).
  vm_compute. reflexivity.
Qed.

(** X17.  A file that holds a JSON value other than a list or an object
    loads no network: a number, a truth value or [null] cannot be run
    over, and a text is run over character by character, none of which
    is a network.  The error is printed and the list is empty. *)
Theorem scalar_file_loads_nothing (data : json) (w : world) :
  scalar data = true ->
  allowed_ips_file w = Holds data ->
  exists e,
    load_allowed_networks w
    = (Ok [], set_stdout (stdout w ++ [ErrorLoading e]) w).
Proof.
  intros Hs Hf. rewrite load_allowed_networks_run, Hf.
  unfold parse_entries.
  destruct data as [|b| |s|items|members]; try discriminate;
    cbn [iterate rbind]; eauto.
  destruct s as [|c s]; [discriminate|].
  cbn [map map_result]. pose proof (one_char_never_loads c) as Hc.
  unfold loads in Hc.
  destruct (rbind (entry_strip (JString [c])) ip_network) as [n|e];
    [discriminate | eauto].
Qed.

End FileEntries.

(** * When the console loop returns *)

Section Returning.

Lemma command_true_stops (line : result str) (w w' : world) :
  command line w = (Ok true, w') -> stop_event w' = true.
Proof.
  unfold command. rewrite bind_run, lift_run.
  destruct line as [l|e]; [|discriminate]. cbv beta iota zeta.
  destruct (startswith (lit "add ") (strip l)).
  { rewrite bind_run.
    destruct (add_command _ w) as [[[]|e] w1]; discriminate. }
  destruct (startswith (lit "remove ") (strip l)).
  { rewrite bind_run.
    destruct (remove_command _ w) as [[[]|e] w1]; discriminate. }
  destruct (str_eqb (strip l) (lit "list")).
  { rewrite bind_run, list_command_run. discriminate. }
  destruct (str_eqb (strip l) (lit "exit") || str_eqb (strip l) (lit "quit")
            || str_eqb (strip l) (lit "stop")).
  - run. intros [= <-]. reflexivity.
  - run. discriminate.
Qed.

(** X18.  [command_interface] returns only with the stop event set:
    whatever ends the console also tells the accept loop to stop. *)
Theorem console_returns_only_when_stopped (lines : list (result str))
    (w w' : world) :
  command_interface lines w = (Ok Returned, w') ->
  stop_event w' = true.
Proof.
  revert w. induction lines as [|line lines IH]; intros w;
    cbn [command_interface].
  - destruct (stop_event w) eqn:Es; [|discriminate].
    intros [= <-]. exact Es.
  - destruct (stop_event w) eqn:Es; [intros [= <-]; exact Es|].
    rewrite try_catch_run.
    destruct (command line w) as [[[|]|e] w1] eqn:Ec.
    + intros [= <-]. exact (command_true_stops _ _ _ Ec).
    + apply IH.
    + destruct (is_EOFError_or_KeyboardInterrupt e); [|discriminate].
      rewrite bind_run, modify_run. cbv beta iota. rewrite ret_run.
      apply IH.
Qed.

End Returning.

(** * The accept loop *)

Section AcceptLoop.

(** Turns at which nobody asks to stop and [accept] does not fail go by
    with one handler per connection. *)
Lemma accept_loop_quiet (turns rest : list (bool * accept_result))
    (handlers : list handler) (w : world) :
  stop_event w = false ->
  forallb quiet turns = true ->
  accept_loop (turns ++ rest) handlers w
  = accept_loop rest (handlers ++ connections turns) w.
Proof.
  intros Hs. revert handlers.
  induction turns as [|[stop_set accept] turns IH]; intros handlers Hq.
  - cbn [app connections]. rewrite app_nil_r. reflexivity.
  - cbn [forallb] in Hq. apply andb_true_iff in Hq as [Hq Hqs].
    unfold quiet in Hq. cbn [fst snd] in Hq.
    apply andb_true_iff in Hq as [Hstop Hacc].
    destruct stop_set; [discriminate|].
    rewrite <- app_comm_cons. cbn [accept_loop]. rewrite Hs.
    destruct accept as [client_sock client_addr| |e]; [| |discriminate].
    + rewrite (IH _ Hqs). cbn [connections]. rewrite <- app_assoc.
      reflexivity.
    + rewrite (IH _ Hqs). reflexivity.
Qed.

(** X19.  The accept loop starts one handler thread for each connection
    accepted, in the order of arrival, and timeouts of [accept] change
    nothing.  Once the stop event is set the loop returns at its next
    look: the connection then waiting and all later ones get no
    handler. *)
Theorem accept_loop_serves_until_stopped
    (turns rest : list (bool * accept_result)) (accept : accept_result)
    (handlers : list handler) (w : world) :
  stop_event w = false ->
  forallb quiet turns = true ->
  accept_loop turns handlers w
  = (Ok (handlers ++ connections turns, Waiting), w)
  /\ accept_loop (turns ++ (true, accept) :: rest) handlers w
     = (Ok (handlers ++ connections turns, Returned),
        set_stop_event true w).
Proof.
  intros Hs Hq. split.
  - rewrite <- (app_nil_r turns) at 1.
    rewrite (accept_loop_quiet _ _ _ _ Hs Hq).
    cbn [accept_loop]. rewrite Hs. reflexivity.
  - rewrite (accept_loop_quiet _ _ _ _ Hs Hq). reflexivity.
Qed.

(** X20.  Only a timeout of [accept] is survived: any other exception of
    [accept] leaves the loop, and with it [start_proxy], with that
    exception; the handlers started before keep running, the stop event
    is not set, and no later connection is accepted. *)
Theorem accept_loop_fails_on_accept_error
    (turns rest : list (bool * accept_result)) (e : exn)
    (handlers : list handler) (w : world) :
  stop_event w = false ->
  forallb quiet turns = true ->
  accept_loop (turns ++ (false, AcceptFailed e) :: rest) handlers w
  = (Raise e, w).
Proof.
  intros Hs Hq. rewrite (accept_loop_quiet _ _ _ _ Hs Hq).
  cbn [accept_loop]. rewrite Hs. reflexivity.
Qed.

End AcceptLoop.

(** * The further statements at work *)

(** X2 at a file of three entries, the second with host bits set. *)
Lemma one_bad_entry_empties_load_witness :
  let entries := [JString (lit "10.0.0.0/24"); JString (lit "10.0.0.1/24");
                  JString (lit "192.168.1.0/24")] in
  let w := set_allowed_ips_file (Holds (JArray entries)) empty_world in
  loads (JString (lit "10.0.0.1/24")) = false
  /\ allowed_ips_file w = Holds (JArray entries)
  /\ exists e,
       load_allowed_networks w
       = (Ok [], set_stdout (stdout w ++ [ErrorLoading e]) w).
Proof.
  cbv zeta. split; [vm_compute; reflexivity|]. split; [reflexivity|].
  apply (one_bad_entry_empties_load
           [JString (lit "10.0.0.0/24")] [JString (lit "192.168.1.0/24")]
           (JString (lit "10.0.0.1/24"))).
  - vm_compute. reflexivity.
  - reflexivity.
Defined.

(** X4 at the registry [10.0.0.0/24] and two [add] lines, the first of
    them for the network already there. *)
Lemma console_keeps_entries_distinct_witness :
  let w := set_allowed_networks [net_10_0_0_0_24] empty_world in
  let lines := [Ok (lit "add 10.0.0.0/24"); Ok (lit "add 10.0.0.0/25")] in
  NoDup (allowed_networks w)
  /\ NoDup (allowed_networks (snd (command_interface lines w))).
Proof.
  cbv zeta.
  assert (H : NoDup (allowed_networks
                       (set_allowed_networks [net_10_0_0_0_24] empty_world))).
  { constructor; [intros [] | constructor]. }
  split; [exact H|].
  exact (console_keeps_entries_distinct _ _ H).
Defined.



(** X8 at a client from 10.0.0.5, the registry [10.0.0.0/24] and a
    destination that answers. *)
Lemma admitted_client_is_forwarded_witness :
  let w := set_allowed_networks [net_10_0_0_0_24] empty_world in
  ip_address (lit "10.0.0.5") = Ok addr_10_0_0_5
  /\ In net_10_0_0_0_24 (allowed_networks w)
  /\ contains net_10_0_0_0_24 addr_10_0_0_5 = true
  /\ exists w',
       handle_client (Ok 2%nat) 1%nat (lit "10.0.0.5", 50000) w = (Ok tt, w')
       /\ dialed w' = dialed w ++ [(DEST_HOST, DEST_PORT)]
       /\ started w'
          = started w
            ++ [mk_thread 1%nat 2%nat (ToDest (lit "10.0.0.5") 50000);
                mk_thread 2%nat 1%nat (FromDest (lit "10.0.0.5") 50000)]
       /\ closed w' = closed w
       /\ log_file w'
          = log_file w
            ++ [ConnectionAttempt (lit "10.0.0.5") 50000;
                AcceptedForwarded (lit "10.0.0.5");
                Connected (lit "10.0.0.5") 50000].
Proof.
  cbv zeta.
  assert (H1 : ip_address (lit "10.0.0.5") = Ok addr_10_0_0_5)
    by (vm_compute; reflexivity).
  assert (H2 : In net_10_0_0_0_24
                 (allowed_networks
                    (set_allowed_networks [net_10_0_0_0_24] empty_world)))
    by (left; reflexivity).
  assert (H3 : contains net_10_0_0_0_24 addr_10_0_0_5 = true)
    by (vm_compute; reflexivity).
  split; [exact H1|]. split; [exact H2|]. split; [exact H3|].
  exact (admitted_client_is_forwarded (Ok 2%nat) 1%nat _ 50000 _ _ _
           H1 H2 H3).
Defined.

(** X9 at the end of input, with a line waiting behind it. *)
Lemma console_input_failure_witness :
  stop_event empty_world = false
  /\ command_interface [Raise EOFError; Ok (lit "list")] empty_world
     = (Ok Returned, set_stop_event true empty_world).
Proof.
  split; [reflexivity|].
  exact (console_input_failure EOFError [Ok (lit "list")] empty_world
           eq_refl).
Defined.

(** X10 at the line [" stop "], with a line waiting behind it. *)
Lemma stop_command_ends_console_witness :
  stop_event empty_world = false
  /\ In (strip (lit " stop ")) [lit "exit"; lit "quit"; lit "stop"]
  /\ command_interface [Ok (lit " stop "); Ok (lit "list")] empty_world
     = (Ok Returned,
        set_stop_event true
          (set_log_file (log_file empty_world ++ [StoppingViaCommand])
             (set_stdout (stdout empty_world ++ [StoppingViaCommand])
                empty_world))).
Proof.
  assert (H : In (strip (lit " stop ")) [lit "exit"; lit "quit"; lit "stop"])
    by (right; right; left; vm_compute; reflexivity).
  split; [reflexivity|]. split; [exact H|].
  exact (stop_command_ends_console _ [Ok (lit "list")] empty_world
           eq_refl H).
Defined.

(** X11 at the line ["list "] and the registry [10.0.0.0/24]. *)
Lemma list_command_prints_registry_witness :
  let w := set_allowed_networks [net_10_0_0_0_24] empty_world in
  strip (lit "list ") = lit "list"
  /\ command (Ok (lit "list ")) w
     = (Ok false,
        set_stdout
          (stdout w ++ ListHeader :: map ListItem (allowed_networks w)) w).
Proof.
  cbv zeta.
  assert (H : strip (lit "list ") = lit "list") by (vm_compute; reflexivity).
  split; [exact H|].
  exact (list_command_prints_registry _ _ H).
Defined.

(** X12 at two blanks after the word. *)
Lemma bare_word_prints_usage_witness :
  forallb isspace (lit "  ") = true
  /\ command (Ok (lit "add" ++ lit "  ")) empty_world
     = (Ok false, set_stdout (stdout empty_world ++ [Usage]) empty_world)
  /\ command (Ok (lit "remove" ++ lit "  ")) empty_world
     = (Ok false, set_stdout (stdout empty_world ++ [Usage]) empty_world).
Proof.
  split; [vm_compute; reflexivity|].
  exact (bare_word_prints_usage (lit "  ") empty_world eq_refl).
Defined.


(** X5 at a file with one network, one line that adds a second and one
    that removes the first. *)
Lemma session_survives_restart_witness :
  let w0 := set_allowed_ips_file
              (Holds (JArray [JString (lit "10.0.0.0/24")])) empty_world in
  let lines := [Ok (lit "add 192.168.1.0/24");
                Ok (lit "remove 10.0.0.0/24")] in
  allowed_ips_writable w0 = true
  /\ file_mirrors_registry
       (snd (command_interface lines (snd (startup w0)))).
Proof.
  cbv zeta. split; [reflexivity|].
  exact (session_survives_restart
           [Ok (lit "add 192.168.1.0/24"); Ok (lit "remove 10.0.0.0/24")]
           (set_allowed_ips_file
              (Holds (JArray [JString (lit "10.0.0.0/24")])) empty_world)
           eq_refl).
Defined.

(** X19 at two connections with a timeout between them, then the stop. *)
Lemma accept_loop_serves_until_stopped_witness :
  let turns := [(false, Accepted 1%nat (lit "10.0.0.5", 50000));
                (false, TimedOut);
                (false, Accepted 2%nat (lit "10.0.0.6", 50001))] in
  let rest := [(false, Accepted 4%nat (lit "10.0.0.8", 50003))] in
  let late := Accepted 3%nat (lit "10.0.0.7", 50002) in
  stop_event empty_world = false
  /\ forallb quiet turns = true
  /\ accept_loop turns [] empty_world
     = (Ok ([] ++ connections turns, Waiting), empty_world)
  /\ accept_loop (turns ++ (true, late) :: rest) [] empty_world
     = (Ok ([] ++ connections turns, Returned),
        set_stop_event true empty_world).
Proof.
  cbv zeta. split; [reflexivity|]. split; [reflexivity|].
  exact (accept_loop_serves_until_stopped
           [(false, Accepted 1%nat (lit "10.0.0.5", 50000));
            (false, TimedOut);
            (false, Accepted 2%nat (lit "10.0.0.6", 50001))]
           [(false, Accepted 4%nat (lit "10.0.0.8", 50003))]
           (Accepted 3%nat (lit "10.0.0.7", 50002)) [] empty_world
           eq_refl eq_refl).
Defined.

(** X20 at one connection, then an [accept] that fails. *)
Lemma accept_loop_fails_on_accept_error_witness :
  let turns := [(false, Accepted 1%nat (lit "10.0.0.5", 50000))] in
  let rest := [(false, Accepted 2%nat (lit "10.0.0.6", 50001))] in
  stop_event empty_world = false
  /\ forallb quiet turns = true
  /\ accept_loop (turns ++ (false, AcceptFailed OSError) :: rest) []
       empty_world
     = (Raise OSError, empty_world).
Proof.
  cbv zeta. split; [reflexivity|]. split; [reflexivity|].
  exact (accept_loop_fails_on_accept_error
           [(false, Accepted 1%nat (lit "10.0.0.5", 50000))]
           [(false, Accepted 2%nat (lit "10.0.0.6", 50001))]
           OSError [] empty_world eq_refl eq_refl).
Defined.


(** X17 at a file that holds the text of a network, not a list of
    them. *)
Lemma scalar_file_loads_nothing_witness :
  let w := set_allowed_ips_file (Holds (JString (lit "10.0.0.0/24")))
             empty_world in
  scalar (JString (lit "10.0.0.0/24")) = true
  /\ allowed_ips_file w = Holds (JString (lit "10.0.0.0/24"))
  /\ exists e,
       load_allowed_networks w
       = (Ok [], set_stdout (stdout w ++ [ErrorLoading e]) w).
Proof.
  cbv zeta. split; [reflexivity|]. split; [reflexivity|].
  exact (scalar_file_loads_nothing (JString (lit "10.0.0.0/24"))
           (set_allowed_ips_file (Holds (JString (lit "10.0.0.0/24")))
              empty_world)
           eq_refl eq_refl).
Defined.

(** X18 at the line ["stop"]. *)
Lemma console_returns_only_when_stopped_witness :
  let w' := set_stop_event true
              (set_log_file [StoppingViaCommand]
                 (set_stdout [StoppingViaCommand] empty_world)) in
  command_interface [Ok (lit "stop")] empty_world = (Ok Returned, w')
  /\ stop_event w' = true.
Proof.
  cbv zeta.
  assert (H : command_interface [Ok (lit "stop")] empty_world
              = (Ok Returned,
                 set_stop_event true
                   (set_log_file [StoppingViaCommand]
                      (set_stdout [StoppingViaCommand] empty_world))))
    by (vm_compute; reflexivity).
  split; [exact H|].
  exact (console_returns_only_when_stopped _ _ _ H).
Defined.

